(** * swot-precip-validation: a shallow embedding of the notebook helpers

    The repository holds three Python modules:
    - [notebooks/utilities.py]: [filter_bits];
    - [notebooks/plot.py]: [plot_heatmap];
    - [notebooks/download.py]: [fetch_hydrocron] and [download_mrms].

    Each function is translated below.  Python integers are [Z]; Python
    exceptions are an explicit [Raise] outcome; the libraries the code calls
    (requests, gzip, cfgrib/xarray, pandas' CSV reader) are operations of a
    type class, so that every statement holds for whatever those libraries
    answer; console output and written files are events appended to a log.
    Latitudes and longitudes are binary64 floats, as the standard library
    specifies them ([SpecFloat]); the finite entries of the plotted matrix
    are rationals, which is exact for the one operation applied to them, a
    comparison with zero. *)

From Stdlib Require Import ZArith QArith Qround Qpower String Ascii List Lia.
From Stdlib Require Import Sorted SpecFloat.
From stdpp Require Import base option list strings gmap.

#[local] Open Scope string_scope.
#[local] Open Scope list_scope.
#[local] Open Scope Z_scope.
#[local] Set Warnings "-register-all".

(** ** Exceptions and the error monad *)

(** The Python exception classes that the modelled code and its libraries
    raise.  All of them derive from [Exception]; asynchronous
    [BaseException]s (a keyboard interrupt) are outside the model. *)
Inductive exn : Type :=
  | TypeError
  | OverflowError
  | KeyError (key : string)
  | IndexError
  | AttributeError
  | ValueError (msg : string)
  | LibraryError (origin : string).

Inductive result (A : Type) : Type :=
  | Ok (a : A)
  | Raise (e : exn).
Arguments Ok {A} a.
Arguments Raise {A} e.

#[export] Instance result_ret : MRet result := fun A a => Ok a.
#[export] Instance result_bind : MBind result := fun A B f m =>
  match m with
  | Ok a => f a
  | Raise e => Raise e
  end.

Definition is_ok {A} (r : result A) : bool :=
  match r with Ok _ => true | Raise _ => false end.

(** ** notebooks/utilities.py *)

Module Utilities.

(** The magnitude from which [float(n)] raises [OverflowError]: the
    integers that round to [2**1024] or beyond. *)
Definition float_overflow : Z := 2 ^ 1024 - 2 ^ 970.

(** [(bitmask & 2**bit) > 0].  For a negative [bit], [2**bit] is computed
    as a power of floats: converting [bit] raises [OverflowError] when its
    magnitude is too large for a float; otherwise the power is a float and
    [int & float] raises [TypeError]. *)
Definition flag (bitmask bit : Z) : result bool :=
  if bit <? 0 then
    if bit <=? - float_overflow then Raise OverflowError else Raise TypeError
  else Ok (0 <? Z.land bitmask (2 ^ bit)).

(** The loop that fills [flagged]. *)
Definition flagged (bitmask : Z) (bits_to_check : list Z) : result (list bool) :=
  mapM (flag bitmask) bits_to_check.

(** Python's [any]. *)
Definition any (l : list bool) : bool := existsb (fun b => b) l.

Definition filter_bits (bitmask : Z) (bits_to_check : list Z) : result bool :=
  fl ← flagged bitmask bits_to_check;
  mret (negb (any fl)).

(** The default value of [bits_to_check]. *)
Definition default_bits : list Z := [13; 14].

Definition filter_bits_default (bitmask : Z) : result bool :=
  filter_bits bitmask default_bits.

(** The integer whose set bits are the listed positions. *)
Definition bits_mask (bits_to_check : list Z) : Z :=
  fold_right (fun bit acc => Z.lor (2 ^ bit) acc) 0 bits_to_check.

End Utilities.

(** ** notebooks/plot.py *)

Module Plot.

(** An entry of a float matrix: a finite number, an infinity or NaN
    (the missing-value marker, [np.nan]). *)
Inductive fval : Type :=
  | FNaN
  | FInf (negative : bool)
  | FNum (q : Q).

(** [v < 0] on a float entry; every comparison with NaN is false. *)
Definition fval_lt0 (v : fval) : bool :=
  match v with
  | FNaN => false
  | FInf negative => negative
  | FNum q => negb (Qle_bool 0 q)
  end.

Definition fval_isnan (v : fval) : bool :=
  match v with FNaN => true | _ => false end.

(** A frame indexed by time with one column per node, as [pivot] holds
    it: the index labels, the column labels and the rows of values. *)
Record frame : Type := Frame {
  f_index : list Z;
  f_columns : list Z;
  f_values : list (list fval)
}.

(** [.dropna(axis=0, how='all')]: drop the rows whose entries are all
    missing. *)
Fixpoint dropna_rows (idx : list Z) (vals : list (list fval))
  : list Z * list (list fval) :=
  match idx, vals with
  | i :: idx', r :: vals' =>
      let rest := dropna_rows idx' vals' in
      if forallb fval_isnan r then rest
      else (i :: fst rest, r :: snd rest)
  | _, _ => ([], [])
  end.

Definition dropna_all (p : frame) : frame :=
  let kept := dropna_rows (f_index p) (f_values p) in
  Frame (fst kept) (f_columns p) (snd kept).

(** The entries that are strictly below zero. *)
Definition strictly_negative (v : fval) : Prop :=
  match v with
  | FNaN => False
  | FInf negative => negative = true
  | FNum q => (q < 0)%Q
  end.

(** [pivot[pivot < 0] = np.nan] on one entry. *)
Definition mask_entry (v : fval) : fval :=
  if fval_lt0 v then FNaN else v.

Definition mask_negative (p : frame) : frame :=
  Frame (f_index p) (f_columns p) (map (map mask_entry) (f_values p)).

(** [pivot.T.values]: the matrix with one row per column of the frame. *)
Definition transpose_values (p : frame) : list (list fval) :=
  map (fun j => map (fun row => nth j row FNaN) (f_values p))
      (seq 0 (length (f_columns p))).

(** [np.flip(np.arange(n))]. *)
Definition flip_arange (n : nat) : list Z :=
  rev (map Z.of_nat (seq 0 n)).

(** The calls made on the figure and its axes, in order. *)
Inductive draw : Type :=
  | Sca
  | Pcolormesh (x : list Q) (y : list Z) (c : list (list fval)) (cmap : string)
  | XaxisDate
  | SetMajorFormatter (fmt : string)
  | AutofmtXdate
  | Colorbar.

Class PlotLibs : Type := {
  (** the input table of [plot_heatmap] *)
  hydro_table : Type;
  (** [.reset_index().pivot(index='time', columns='node_id',
      values=column).resample('1D').mean()] *)
  pivot_daily_mean : hydro_table → string → result frame;
  (** [mdates.date2num] of one index label *)
  date2num : Z → Q;
  (** one call of the drawing library on a figure that has received the
      given calls: it returns, or raises *)
  draw_call : list draw → draw → result unit
}.

Section PlotHeatmap.
Context `{PlotLibs}.

(** The reformatted frame, after line 37 of plot.py. *)
Definition heatmap_frame (hydrocron_df : hydro_table) (column : string)
  : result frame :=
  daily ← pivot_daily_mean hydrocron_df column;
  mret (mask_negative (dropna_all daily)).

(** A call on the figure: an exception of the drawing library leaves
    the function; otherwise the figure has received the call. *)
Definition call (fig : list draw) (c : draw) : result (list draw) :=
  draw_call fig c;;
  mret (fig ++ [c]).

(** The calls of a list, in order, up to the first that raises. *)
Fixpoint call_all (fig : list draw) (calls : list draw) : result (list draw) :=
  match calls with
  | [] => Ok fig
  | c :: calls' => fig' ← call fig c; call_all fig' calls'
  end.

(** [plot_heatmap]: the figure is the list of calls made on it. *)
Definition plot_heatmap (hydrocron_df : hydro_table) (column : string)
    (fig : list draw) (cmap : string) : result (list draw) :=
  pivot ← heatmap_frame hydrocron_df column;
  fig ← call fig Sca;
  let x := map date2num (f_index pivot) in
  let y := flip_arange (length (f_columns pivot)) in
  fig ← call fig (Pcolormesh x y (transpose_values pivot) cmap);
  fig ← call fig XaxisDate;
  fig ← call fig (SetMajorFormatter "%Y-%m");
  fig ← call fig AutofmtXdate;
  fig ← call fig Colorbar;
  mret fig.

End PlotHeatmap.

(** A row with at least one entry that is not missing. *)
Definition has_value (row : list fval) : bool :=
  negb (forallb fval_isnan row).

(** A frame as pandas holds it: one row of values per index label and
    one entry per column in every row. *)
Definition rectangular (p : frame) : Prop :=
  length (f_index p) = length (f_values p)
  ∧ Forall (fun row => length row = length (f_columns p)) (f_values p).

End Plot.

(** ** notebooks/download.py *)

Module Download.

(** *** pandas timestamps *)

(** A [pd.Timestamp]: the instant in nanoseconds since the Unix epoch
    (its [.value]) and the time zone it is shown in ([None] for a
    tz-naive timestamp).  A timestamp of a coarser unit (seconds,
    milliseconds) can hold an instant outside the 64-bit nanosecond range;
    it is held here by the same count of nanoseconds. *)
Record Timestamp : Type := mkTimestamp {
  value : Z;
  tz : option string
}.

(** The bounds of a 64-bit nanosecond timestamp ([Timestamp.min.value],
    [Timestamp.max.value]); the smallest 64-bit integer is [NaT]. *)
Definition timestamp_min : Z := - 2 ^ 63 + 1.
Definition timestamp_max : Z := 2 ^ 63 - 1.

Definition ns_per_second : Z := 1000000000.
Definition seconds_per_day : Z := 86400.

(** The proleptic Gregorian date (year, month, day) of a day number
    counted from 1970-01-01. *)
Definition civil_from_days (days : Z) : Z * Z * Z :=
  let z := days + 719468 in
  let era := z / 146097 in
  let doe := z - era * 146097 in
  let yoe := (doe - doe / 1460 + doe / 36524 - doe / 146096) / 365 in
  let y := yoe + era * 400 in
  let doy := doe - (365 * yoe + yoe / 4 - yoe / 100) in
  let mp := (5 * doy + 2) / 153 in
  let d := doy - (153 * mp + 2) / 5 + 1 in
  let m := if mp <? 10 then mp + 3 else mp - 9 in
  (if m <=? 2 then y + 1 else y, m, d).

Definition epoch_seconds (v : Z) : Z := v / ns_per_second.
Definition epoch_days (v : Z) : Z := epoch_seconds v / seconds_per_day.
Definition second_of_day (v : Z) : Z := epoch_seconds v mod seconds_per_day.

(** The fields of a timestamp whose zone is UTC. *)
Definition ts_year (t : Timestamp) : Z := fst (fst (civil_from_days (epoch_days (value t)))).
Definition ts_month (t : Timestamp) : Z := snd (fst (civil_from_days (epoch_days (value t)))).
Definition ts_day (t : Timestamp) : Z := snd (civil_from_days (epoch_days (value t))).
Definition ts_hour (t : Timestamp) : Z := second_of_day (value t) / 3600.
Definition ts_minute (t : Timestamp) : Z := second_of_day (value t) mod 3600 / 60.

(** 2021-06-01T13:05:00Z, the instant of the end-to-end scenario. *)
Definition scenario_time : Z := 1622552700 * ns_per_second.

(** [Timestamp.tz_convert]: the same instant in another zone; a tz-naive
    timestamp raises [TypeError]. *)
Definition tz_convert (dt : Timestamp) (zone : string) : result Timestamp :=
  match tz dt with
  | None => Raise TypeError
  | Some _ => Ok (mkTimestamp (value dt) (Some zone))
  end.

(** [Timestamp.floor(freq)] for a fixed frequency of [step] nanoseconds. *)
Definition ts_floor (step : Z) (t : Timestamp) : Timestamp :=
  mkTimestamp (value t - value t mod step) (tz t).

(** The temporal resolution of the grids: two minutes, or one hour. *)
Definition resolution_ns (hourly : bool) : Z :=
  if hourly then 3600 * ns_per_second else 120 * ns_per_second.

(** *** Formatting integers *)

Definition digit_char (d : Z) : ascii := ascii_of_nat (48 + Z.to_nat d).

(** The decimal digits of a non-negative integer, most significant
    first, in front of [acc]. *)
Fixpoint decimal_go (fuel : nat) (n : Z) (acc : string) : string :=
  let acc' := String (digit_char (n mod 10)) acc in
  match fuel with
  | O => acc'
  | S fuel' => if n / 10 =? 0 then acc' else decimal_go fuel' (n / 10) acc'
  end.

Definition decimal (n : Z) : string :=
  decimal_go (Z.to_nat (Z.log2 n)) n "".

(** [f"{z}"]: Python's [str] of an integer. *)
Definition format_d (z : Z) : string :=
  if z <? 0 then "-" +:+ decimal (- z) else decimal z.

(** [s.rjust(width, '0')]. *)
Definition zero_fill (width : nat) (s : string) : string :=
  String.concat "" (repeat "0" (width - String.length s)) +:+ s.

(** [f"{z:02d}"]: at least two characters, zeros between sign and
    digits. *)
Definition format_02d (z : Z) : string :=
  if z <? 0 then "-" +:+ zero_fill 1 (decimal (- z))
  else zero_fill 2 (decimal z).

(** *** The grid file of a timestamp *)

(** [mrms_minute] of lines 82-86. *)
Definition mrms_minute (hourly : bool) (minute : Z) : Z :=
  if hourly then 0 else (minute / 2) * 2.

(** [mrms_url] of lines 88-95. *)
Definition mrms_url (var_name : string) (year month day hour minute : Z)
  : string :=
  "https://noaa-mrms-pds.s3.amazonaws.com/CONUS"
  +:+ ("/" +:+ var_name)
  +:+ ("/" +:+ format_d year +:+ format_02d month +:+ format_02d day)
  +:+ ("/MRMS_" +:+ var_name)
  +:+ ("_" +:+ format_d year +:+ format_02d month +:+ format_02d day
       +:+ "-" +:+ format_02d hour +:+ format_02d minute +:+ "00")
  +:+ ".grib2.gz".

(** The URL requested for a UTC timestamp. *)
Definition url_of (var_name : string) (hourly : bool) (dt_utm0 : Timestamp)
  : string :=
  mrms_url var_name (ts_year dt_utm0) (ts_month dt_utm0) (ts_day dt_utm0)
           (ts_hour dt_utm0) (mrms_minute hourly (ts_minute dt_utm0)).

(** *** The pattern of the specification

    [<YYYYMMDD>] and [<HHMM>] written out: every field has exactly the
    shown number of decimal digits. *)

Fixpoint fixed_digits (width : nat) (n : Z) : string :=
  match width with
  | O => ""
  | S w => fixed_digits w (n / 10) +:+ String (digit_char (n mod 10)) ""
  end.

Definition YYYYMMDD (year month day : Z) : string :=
  fixed_digits 4 year +:+ fixed_digits 2 month +:+ fixed_digits 2 day.

Definition HHMM (hour minute : Z) : string :=
  fixed_digits 2 hour +:+ fixed_digits 2 minute.

Definition spec_url (var_name : string) (year month day hour minute : Z)
  : string :=
  "https://noaa-mrms-pds.s3.amazonaws.com/CONUS/" +:+ var_name +:+ "/"
  +:+ YYYYMMDD year month day +:+ "/MRMS_" +:+ var_name +:+ "_"
  +:+ YYYYMMDD year month day +:+ "-" +:+ HHMM hour minute
  +:+ "00.grib2.gz".

(** *** Numbers *)

(** Python floats are IEEE 754 binary64 numbers. *)
Definition float64 : Type := spec_float.
Definition prec : Z := 53.
Definition emax : Z := 1024.

(** [float(z)] for an integer in the range of a float. *)
Definition float_of_int (z : Z) : float64 :=
  binary_normalize prec emax z 0 false.

(** The float literal with the decimal digits [m] and [k] digits after
    the point, for [m] and [10**k] that a float holds exactly: their
    correctly rounded quotient. *)
Definition float_of_decimal (m k : Z) : float64 :=
  SFdiv prec emax (float_of_int m) (float_of_int (10 ^ k)).

(** The rational [z * 2**e]. *)
Definition scaled (z e : Z) : Q := (inject_Z z * 2 ^ e)%Q.

(** The number that a finite float stands for. *)
Definition float_value (x : float64) : option Q :=
  match x with
  | S754_zero _ => Some 0%Q
  | S754_finite s m e =>
      Some ((if s then - (1) else 1) * inject_Z (Zpos m) * 2 ^ e)%Q
  | _ => None
  end.

(** The float of value [r * 2**e] and sign [s], for [0 <= r < 2**53] and
    [e] not below the least exponent: the mantissa is shifted to 53 bits,
    or as far as the least exponent allows. *)
Definition canonical (s : bool) (r e : Z) : float64 :=
  match r with
  | Zpos _ =>
      let k := Z.max 0 (Z.min (prec - Zdigits2 r) (e - emin prec emax)) in
      S754_finite s (Z.to_pos (r * 2 ^ k)) (e - k)
  | _ => S754_zero s
  end.

(** C's [fmod(x, y)]: for finite [x] and finite non-zero [y], the exact
    remainder of the division truncated towards zero, with the sign of
    [x]. *)
Definition fmod (x y : float64) : float64 :=
  match x, y with
  | S754_nan, _ | _, S754_nan => S754_nan
  | S754_infinity _, _ => S754_nan
  | _, S754_zero _ => S754_nan
  | _, S754_infinity _ => x
  | S754_zero _, _ => x
  | S754_finite sx mx ex, S754_finite _ my ey =>
      let e := Z.min ex ey in
      canonical sx ((Zpos mx * 2 ^ (ex - e)) mod (Zpos my * 2 ^ (ey - e))) e
  end.

Definition is_zero (x : float64) : bool :=
  match x with S754_zero _ => true | _ => false end.

(** [x < 0]; false for NaN. *)
Definition negative (x : float64) : bool := SFltb x (S754_zero false).

Definition sign_bit (x : float64) : bool :=
  match x with
  | S754_zero s | S754_infinity s | S754_finite s _ _ => s
  | S754_nan => false
  end.

(** [x % m] for a float [x] and a non-zero integer [m] in the range of a
    float (the code has 360): the C remainder, moved by [m] when its sign
    differs from that of [m], and a zero of the sign of [m] when it is
    zero. *)
Definition py_mod (x : float64) (m : Z) : float64 :=
  let wx := float_of_int m in
  let md := fmod x wx in
  if is_zero md then S754_zero (sign_bit wx)
  else if xorb (negative wx) (negative md) then SFadd prec emax md wx
  else md.

(** The reading of "reduced modulo 360 into the 0-360 convention" on
    exact numbers: [r] lies in [0, 360) and differs from [x] by a whole
    number of turns. *)
Definition reduced_mod_360 (x r : float64) : Prop :=
  ∃ qx qr k,
    float_value x = Some qx ∧ float_value r = Some qr
    ∧ (0 <= qr)%Q ∧ (qr < 360)%Q ∧ (qx == qr + inject_Z (360 * k))%Q.

(** *** Values exchanged with the libraries *)

(** A decoded JSON document, as [response.json()] returns it. *)
Inductive json : Type :=
  | JNull
  | JBool (b : bool)
  | JNum (q : Q)
  | JStr (s : string)
  | JArr (items : list json)
  | JObj (fields : gmap string json).

(** [j.get(key)]: only a dict has the method; a missing key gives
    [None]. *)
Definition json_get (j : json) (key : string) : result json :=
  match j with
  | JObj fields => Ok (default JNull (fields !! key))
  | _ => Raise AttributeError
  end.

(** [j[key]] with a string key: [KeyError] on a dict without the key,
    [TypeError] on every other value. *)
Definition json_getitem (j : json) (key : string) : result json :=
  match j with
  | JObj fields =>
      match fields !! key with
      | Some v => Ok v
      | None => Raise (KeyError key)
      end
  | _ => Raise TypeError
  end.

(** [StringIO(j)]: the initial value is a string or [None]. *)
Definition string_io (j : json) : result string :=
  match j with
  | JStr s => Ok s
  | JNull => Ok ""
  | _ => Raise TypeError
  end.

(** An HTTP response: [status_code] and [content]. *)
Record response : Type := mkResponse {
  status_code : Z;
  content : list Byte.byte
}.

(** A Python dict with string keys: insertion keeps the position of a
    key that is already present and replaces its value. *)
Fixpoint dict_set {V : Type} (k : string) (v : V) (d : list (string * V))
  : list (string * V) :=
  match d with
  | [] => [(k, v)]
  | (k', v') :: d' =>
      if String.eqb k k' then (k, v) :: d' else (k', v') :: dict_set k v d'
  end.

Fixpoint dict_get {V : Type} (k : string) (d : list (string * V)) : option V :=
  match d with
  | [] => None
  | (k', v') :: d' => if String.eqb k k' then Some v' else dict_get k d'
  end.

(** The interface of the libraries that download.py calls. *)
Class Libs : Type := {
  (** the state of the network and of the remote servers *)
  net : Type;
  (** [requests.get(url, timeout=...)] *)
  requests_get : string → option Z → net → result response * net;
  (** [response.json()] on the body of a response *)
  json_loads : list Byte.byte → result json;
  (** the table that [pd.read_csv] builds *)
  hydro_frame : Type;
  (** [pd.read_csv(StringIO(text), index_col=['node_id', 'time_str'],
      parse_dates=True, na_values=['no_data'])] *)
  read_csv : string → result hydro_frame;
  (** [gzip.open(BytesIO(content), 'rb').read()] *)
  gunzip : list Byte.byte → result (list Byte.byte);
  (** a data variable of a decoded grid file, and a value sampled
      from it *)
  grid : Type;
  sample : Type;
  (** [xr.open_dataset(tmp.name, engine='cfgrib')] on the bytes written
      to the temporary file: the data variables, in order *)
  open_dataset : list Byte.byte → result (list (string * grid));
  (** [g.interp(latitude=lat, longitude=lon, method='nearest').values] *)
  interp_nearest : grid → float64 → float64 → sample;
  (** [template.format(var_name=var_name)] *)
  format_var_name : string → string → result string
}.

Section WithLibs.
Context `{Libs}.

(** A cell of an output row. *)
Inductive cell : Type :=
  | CNode (node_id : Z)
  | CTime (t : Timestamp)
  | CSample (v : sample).

(** A one-row [DataFrame]: column name to cell. *)
Definition out_row : Type := list (string * cell).

(** What the code prints, and the output file it writes.  The temporary
    [.grib2] file of lines 108-114 is not an event: writing it and reading
    it back are folded into [open_dataset]. *)
Inductive event : Type :=
  | PrintHydrocronError (node_id : string) (error : json)
  | PrintException (node_id : string) (e : exn)
  | PrintUrl (url : string)
  | PrintDownloadFailed (dt_utm0 : Timestamp) (status : Z)
  | ToCsv (parent name : string) (precip_df : list out_row).

Record world : Type := mkWorld {
  w_net : net;
  w_log : list event
}.

(** Computations that use the network, print, and may raise. *)
Definition io (A : Type) : Type := world → result A * world.

#[export] Instance io_ret : MRet io := fun A a w => (Ok a, w).
#[export] Instance io_bind : MBind io := fun A B f m w =>
  match m w with
  | (Ok a, w') => f a w'
  | (Raise e, w') => (Raise e, w')
  end.

Definition lift {A} (r : result A) : io A := fun w => (r, w).

Definition emit (ev : event) : io unit :=
  fun w => (Ok tt, mkWorld (w_net w) (w_log w ++ [ev])).

Definition http_get (url : string) (timeout : option Z) : io response :=
  fun w =>
    let '(r, n) := requests_get url timeout (w_net w) in
    (r, mkWorld n (w_log w)).

(** [try: body except Exception as e: handler(e)]. *)
Definition try_except {A} (body : io A) (handler : exn → io A) : io A :=
  fun w =>
    match body w with
    | (Ok a, w') => (Ok a, w')
    | (Raise e, w') => handler e w'
    end.

(** *** fetch_hydrocron *)

Definition hydrocron_url (node_id start_time end_time : string)
    (fields : list string) : string :=
  "https://soto.podaac.earthdatacloud.nasa.gov/hydrocron/v1/timeseries"
  +:+ "?feature=Node&feature_id=" +:+ node_id
  +:+ "&start_time=" +:+ start_time +:+ "&end_time=" +:+ end_time
  +:+ "&output=csv"
  +:+ "&fields=" +:+ String.concat "," fields.

(** The body of the [try] block, lines 35-52. *)
Definition fetch_body (node_id start_time end_time : string)
    (fields : list string) : io (option hydro_frame) :=
  response ← http_get (hydrocron_url node_id start_time end_time fields)
                      (Some 10);
  if negb (status_code response =? 200) then
    body ← lift (json_loads (content response));
    error ← lift (json_get body "error");
    emit (PrintHydrocronError node_id error);;
    mret None
  else
    body ← lift (json_loads (content response));
    results ← lift (json_getitem body "results");
    csv ← lift (json_getitem results "csv");
    text ← lift (string_io csv);
    hydrocron_df ← lift (read_csv text);
    mret (Some hydrocron_df).

(** [info['node_id']]. *)
Definition info_node_id (info : gmap string string) : result string :=
  match info !! "node_id" with
  | Some node_id => Ok node_id
  | None => Raise (KeyError "node_id")
  end.

Definition fetch_hydrocron (info : gmap string string)
    (start_time end_time : string) (fields : list string)
  : io (option hydro_frame) :=
  node_id ← lift (info_node_id info);
  try_except (fetch_body node_id start_time end_time fields)
             (fun e => emit (PrintException node_id e);; mret None).

(** *** download_mrms *)

(** A row of [ts_df]; [time] is the instant in nanoseconds.  A row
    without a time ([NaT]) belongs to no group and is left out. *)
Record ts_row : Type := mkRow {
  node_id : Z;
  lat : float64;
  lon : float64;
  time : Z
}.

(** [ts_df]: the rows and the zone of its [time] column. *)
Record ts_frame : Type := mkFrame {
  time_tz : option string;
  rows : list ts_row
}.

(** [precip_path]: a [pathlib.Path], as parent and name. *)
Record path : Type := mkPath {
  p_parent : string;
  p_name : string
}.

(** [groupby('time')]: one group per distinct instant, keys ascending,
    the rows of a group in their original order. *)
Fixpoint insert_row (r : ts_row) (groups : list (Z * list ts_row))
  : list (Z * list ts_row) :=
  match groups with
  | [] => [(time r, [r])]
  | (k, rs) :: groups' =>
      if time r <? k then (time r, [r]) :: groups
      else if time r =? k then (k, rs ++ [r]) :: groups'
      else (k, rs) :: insert_row r groups'
  end.

Definition groupby_time (rs : list ts_row) : list (Z * list ts_row) :=
  fold_left (fun groups r => insert_row r groups) rs [].

(** [pd.DataFrame({'node_id': n, 'time': dt, var_name: v}, index=[0])]:
    the keys of the dict literal are set from left to right. *)
Definition one_row_frame (var_name : string) (n : Z) (dt : Timestamp)
    (v : sample) : out_row :=
  dict_set var_name (CSample v)
    (dict_set "time" (CTime dt)
      (dict_set "node_id" (CNode n) [])).

(** Lines 118-128: sample one row and build its one-row frame. *)
Definition sample_row (ds : list (string * grid)) (var_name : string)
    (dt : Timestamp) (row : ts_row) : result out_row :=
  ds_var_name ← match map fst ds with
                | name :: _ => Ok name
                | [] => Raise IndexError
                end;
  g ← match dict_get ds_var_name ds with
      | Some g => Ok g
      | None => Raise (KeyError ds_var_name)
      end;
  let var_value := interp_nearest g (lat row) (py_mod (lon row) 360) in
  mret (one_row_frame var_name (node_id row) dt var_value).

(** The inner loop, lines 116-128: [new_rows.append] for every row of
    the group. *)
Fixpoint sample_rows (ds : list (string * grid)) (var_name : string)
    (dt : Timestamp) (swot_df : list ts_row) (new_rows : list out_row)
  : result (list out_row) :=
  match swot_df with
  | [] => Ok new_rows
  | row :: rest =>
      r ← sample_row ds var_name dt row;
      sample_rows ds var_name dt rest (new_rows ++ [r])
  end.

(** One iteration of the outer loop, lines 75-128. *)
Definition process_group (var_name : string) (hourly : bool)
    (zone : option string) (new_rows : list out_row)
    (group : Z * list ts_row) : io (list out_row) :=
  let dt := mkTimestamp (fst group) zone in
  dt_utm0 ← lift (tz_convert dt "UTC");
  let mrms_url := url_of var_name hourly dt_utm0 in
  emit (PrintUrl mrms_url);;
  response ← http_get mrms_url None;
  if negb (status_code response =? 200) then
    emit (PrintDownloadFailed dt_utm0 (status_code response));;
    mret new_rows
  else
    grib_bytes ← lift (gunzip (content response));
    ds ← lift (open_dataset grib_bytes);
    lift (sample_rows ds var_name dt (snd group) new_rows).

(** The outer loop over the groups. *)
Fixpoint process_groups (var_name : string) (hourly : bool)
    (zone : option string) (groups : list (Z * list ts_row))
    (new_rows : list out_row) : io (list out_row) :=
  match groups with
  | [] => mret new_rows
  | group :: rest =>
      new_rows' ← process_group var_name hourly zone new_rows group;
      process_groups var_name hourly zone rest new_rows'
  end.

(** [pd.concat] of one-row frames; an empty list raises. *)
Definition pd_concat (frames : list out_row) : result (list out_row) :=
  match frames with
  | [] => Raise (ValueError "No objects to concatenate")
  | _ => Ok frames
  end.

Definition download_mrms (ts_df : ts_frame) (var_name : string)
    (precip_path : path) (hourly : bool) : io unit :=
  new_rows ← process_groups var_name hourly (time_tz ts_df)
                            (groupby_time (rows ts_df)) [];
  precip_df ← lift (pd_concat new_rows);
  name ← lift (format_var_name (p_name precip_path) var_name);
  emit (ToCsv (p_parent precip_path) name precip_df).

(** *** Observing a run *)

Definition is_write (ev : event) : bool :=
  match ev with ToCsv _ _ _ => true | _ => false end.

Definition is_print (ev : event) : bool := negb (is_write ev).

(** The output files written so far. *)
Definition files_written (w : world) : list event :=
  List.filter is_write (w_log w).

(** The one-row frame of [row] when the first data variable of the
    decoded file is [g]. *)
Definition sampled (g : grid) (var_name : string) (dt : Timestamp)
    (row : ts_row) : out_row :=
  one_row_frame var_name (node_id row) dt
    (interp_nearest g (lat row) (py_mod (lon row) 360)).

(** What [groupby] guarantees of a group of the rows [seen]: it is
    not empty and its rows carry its key. *)
Definition group_ok (seen : list ts_row) (group : Z * list ts_row) : Prop :=
  snd group ≠ [] ∧ ∀ r, r ∈ snd group → r ∈ seen ∧ time r = fst group.

(** A one-row frame built for some row of a group. *)
Definition from_group (var_name : string) (dt : Timestamp)
    (swot_df : list ts_row) (r : out_row) : Prop :=
  ∃ row v, row ∈ swot_df ∧ r = one_row_frame var_name (node_id row) dt v.

(** The invariant as the specification words it: the timestamp of
    every record of the output table is the floor of a source
    timestamp to the resolution of the grids. *)
Definition record_time_is_floor (ts_df : ts_frame) (hourly : bool)
    (precip_df : list out_row) : Prop :=
  ∀ r t, r ∈ precip_df → dict_get "time" r = Some (CTime t) →
    ∃ row, row ∈ rows ts_df
           ∧ t = ts_floor (resolution_ns hourly)
                   (mkTimestamp (time row) (time_tz ts_df)).

(** The state of the network after the requests for [urls], made one
    after the other without timeout. *)
Definition net_after (urls : list string) (n : net) : net :=
  fold_left (fun n url => snd (requests_get url None n)) urls n.

(** The record [r] was built for [row] in a loop over [instants]: the
    request for the URL of the instant of the row, made in the state of
    the network reached from [n0] by the requests for the instants before
    that one, was answered with status 200; and the record holds the node
    and the instant of the row and the value sampled, at the position of
    the row, from the first data variable of the file that this response
    decodes to. *)
Definition built_from_request (var_name : string) (hourly : bool)
    (zone : option string) (instants : list Z) (n0 : net)
    (r : out_row) (row : ts_row) : Prop :=
  ∃ before after resp n' grib_bytes name g rest,
    instants = before ++ time row :: after
    ∧ requests_get (url_of var_name hourly (mkTimestamp (time row) (Some "UTC")))
        None
        (net_after (map (fun k => url_of var_name hourly
                                    (mkTimestamp k (Some "UTC")))
                        before) n0)
      = (Ok resp, n')
    ∧ status_code resp = 200
    ∧ gunzip (content resp) = Ok grib_bytes
    ∧ open_dataset grib_bytes = Ok ((name, g) :: rest)
    ∧ r = one_row_frame var_name (node_id row) (mkTimestamp (time row) zone)
            (interp_nearest g (lat row) (py_mod (lon row) 360)).

(** The URLs printed so far, in order. *)
Definition urls_printed (log : list event) : list string :=
  flat_map (fun ev => match ev with PrintUrl url => [url] | _ => [] end) log.

(** The day number of a proleptic Gregorian date, counted from
    1970-01-01: the inverse of [civil_from_days]. *)
Definition days_from_civil (y m d : Z) : Z :=
  let y' := if m <=? 2 then y - 1 else y in
  let era := y' / 400 in
  let yoe := y' - era * 400 in
  let mp := if 2 <? m then m - 3 else m + 9 in
  let doy := (153 * mp + 2) / 5 + d - 1 in
  let doe := yoe * 365 + yoe / 4 - yoe / 100 + doy in
  era * 146097 + doe - 719468.

End WithLibs.

End Download.

(** ** A concrete network and decoder

    One instance of the library interface, on which the functions run:
    the bucket serves a single grid file, every other grid request is
    answered 404; the time-series service answers its first request with
    a 404 and an error document and is unreachable afterwards. *)

Module Demo.
Import Download.

Definition t_1305 : Z := scenario_time.
(** 2021-06-01T14:31:10Z in nanoseconds. *)
Definition t_1431 : Z := 1622557870 * ns_per_second.

Definition served_url : string :=
  "https://noaa-mrms-pds.s3.amazonaws.com/CONUS/PrecipRate/20210601/MRMS_PrecipRate_20210601-130400.grib2.gz".

Definition error_document : list Byte.byte := [Byte.x7b; Byte.x7d].

Definition demo_get (url : string) (timeout : option Z) (served : nat)
  : result response * nat :=
  if String.eqb url served_url then
    (Ok (mkResponse 200 [Byte.x1f; Byte.x8b]), S served)
  else if String.prefix "https://noaa-mrms-pds" url then
    (Ok (mkResponse 404 []), S served)
  else
    match served with
    | O => (Ok (mkResponse 404 error_document), S served)
    | S _ => (Raise (LibraryError "ConnectionError"), S served)
    end.

Definition demo_json (body : list Byte.byte) : result json :=
  match body with
  | [Byte.x7b; Byte.x7d] => Ok (JObj {[ "error" := JStr "Not Found" ]})
  | _ => Raise (LibraryError "JSONDecodeError")
  end.

(** A grid with one cell per degree: the value of a cell encodes its
    position, and the nearest cell is found by rounding. *)
Definition demo_grid : Type := Z → Z → Q.
Definition the_grid : demo_grid := fun i j => inject_Z (1000 * i + j).
Definition nearest_degree (x : float64) : Z :=
  match float_value x with
  | Some q => Qfloor (q + (1 # 2))
  | None => 0
  end.
Definition demo_interp (g : demo_grid) (latitude longitude : float64) : Q :=
  g (nearest_degree latitude) (nearest_degree longitude).

Definition demo_format (template var_name : string) : result string :=
  if String.eqb template "mrms_{var_name}.csv"
  then Ok ("mrms_" +:+ var_name +:+ ".csv")
  else Raise (KeyError template).

#[export] Instance demo_libs : Libs := {|
  net := nat;
  requests_get := demo_get;
  json_loads := demo_json;
  hydro_frame := string;
  read_csv := fun text => Ok text;
  gunzip := fun bytes => Ok bytes;
  grid := demo_grid;
  sample := Q;
  open_dataset := fun _ => Ok [("unknown", the_grid)];
  interp_nearest := demo_interp;
  format_var_name := demo_format
|}.

Definition w0 : world := mkWorld (0%nat : net) [].

(** The floats 40.2, -105.3, 35.0 and -10.0. *)
Definition row_a : ts_row :=
  mkRow 71224500010011 (float_of_decimal 402 1) (float_of_decimal (-1053) 1) t_1305.
Definition row_b : ts_row :=
  mkRow 71224500010021 (float_of_int 35) (float_of_int (-10)) t_1305.
Definition row_c : ts_row :=
  mkRow 71224500010011 (float_of_decimal 402 1) (float_of_decimal (-1053) 1) t_1431.
(** A node just west of the Greenwich meridian: longitude -1e-20. *)
Definition row_d : ts_row :=
  mkRow 71224500010031 (float_of_int 35) (float_of_decimal (-1) 20) t_1305.

Definition two_rows : ts_frame := mkFrame (Some "UTC") [row_a; row_b].
Definition three_rows : ts_frame := mkFrame (Some "UTC") [row_c; row_a; row_b].
Definition missed_row : ts_frame := mkFrame (Some "UTC") [row_c].

Definition out_path : path := mkPath "data" "mrms_{var_name}.csv".

Definition demo_info : gmap string string := {[ "node_id" := "71224500010011" ]}.

(** The renderer refuses a mesh without any column. *)
Definition demo_draw_call (fig : list Plot.draw) (c : Plot.draw) : result unit :=
  match c with
  | Plot.Pcolormesh [] _ _ _ =>
      Raise (ValueError "zero-size array to reduction operation minimum which has no identity")
  | _ => Ok tt
  end.

(** A table that is already pivoted and averaged per day. *)
#[export] Instance demo_plot_libs : Plot.PlotLibs := {|
  Plot.hydro_table := Plot.frame;
  Plot.pivot_daily_mean := fun df _ => Ok df;
  Plot.date2num := inject_Z;
  Plot.draw_call := demo_draw_call
|}.

Definition daily_wse : Plot.frame :=
  Plot.Frame [18779; 18780; 18781] [71224500010011; 71224500010021]
    [ [Plot.FNum (1523 # 10); Plot.FNum (-999999999999 # 1)];
      [Plot.FNaN; Plot.FNaN];
      [Plot.FNum 0; Plot.FInf true] ].

End Demo.

(** ** A service that answers every request

    A second instance of the library interface: the time-series service
    answers 200 with a document that holds a CSV table; the bucket answers
    200 for every grid, with a body that cannot be decompressed for the
    variable [Corrupt] and a file without data variable for the variable
    [Empty]. *)

Module Mirror.
Import Download.

Definition csv_text : string :=
  "node_id,time_str,wse" +:+ String (ascii_of_nat 10) ""
  +:+ "71224500010011,2024-01-05T03:12:44Z,152.3" +:+ String (ascii_of_nat 10) "".

Definition mirror_get (url : string) (timeout : option Z) (served : nat)
  : result response * nat :=
  if String.prefix "https://soto.podaac.earthdatacloud.nasa.gov/" url then
    (Ok (mkResponse 200 [Byte.x7b]), S served)
  else if String.prefix "https://noaa-mrms-pds.s3.amazonaws.com/CONUS/Corrupt/" url then
    (Ok (mkResponse 200 []), S served)
  else if String.prefix "https://noaa-mrms-pds.s3.amazonaws.com/CONUS/Empty/" url then
    (Ok (mkResponse 200 [Byte.x00]), S served)
  else
    (Ok (mkResponse 200 [Byte.x1f; Byte.x8b]), S served).

Definition mirror_json (body : list Byte.byte) : result json :=
  match body with
  | [Byte.x7b] =>
      Ok (JObj {[ "status" := JStr "200 OK";
                  "results" := JObj {[ "csv" := JStr csv_text ]} ]})
  | _ => Raise (LibraryError "JSONDecodeError")
  end.

Definition mirror_gunzip (body : list Byte.byte) : result (list Byte.byte) :=
  match body with
  | [] => Raise (LibraryError "BadGzipFile")
  | _ => Ok body
  end.

Definition mirror_open (bytes : list Byte.byte)
  : result (list (string * Demo.demo_grid)) :=
  match bytes with
  | [Byte.x00] => Ok []
  | _ => Ok [("unknown", Demo.the_grid)]
  end.

Definition mirror_libs : Libs := {|
  net := nat;
  requests_get := mirror_get;
  json_loads := mirror_json;
  hydro_frame := string;
  read_csv := fun text => Ok text;
  gunzip := mirror_gunzip;
  grid := Demo.demo_grid;
  sample := Q;
  open_dataset := mirror_open;
  interp_nearest := Demo.demo_interp;
  format_var_name := Demo.demo_format
|}.

Definition m0 : @world mirror_libs := @mkWorld mirror_libs (0%nat) [].

Definition naive_rows : ts_frame :=
  mkFrame None
    [mkRow 71224500010011 (float_of_decimal 402 1)
       (float_of_decimal (-1053) 1) Demo.t_1305].

(** Four rows at three instants, two of them in the same two-minute
    bucket; the second row lies 360 degrees east of the first. *)
Definition four_rows : ts_frame :=
  mkFrame (Some "UTC")
    [mkRow 71224500010021 (float_of_int 35) (float_of_int (-10)) Demo.t_1431;
     mkRow 71224500010011 (float_of_decimal 402 1)
       (float_of_decimal (-1053) 1) Demo.t_1305;
     mkRow 71224500010031 (float_of_decimal 402 1)
       (float_of_decimal 2547 1) Demo.t_1305;
     mkRow 71224500010041 (float_of_int 0) (float_of_int 0)
        (Demo.t_1305 - 50 * ns_per_second)].

(** A daily-mean pivot with a day of negative values only and a day
    without any value. *)
Definition daily_width : Plot.frame :=
  Plot.Frame [19000; 19001; 19002] [71224500010011; 71224500010021]
    [ [Plot.FNum (-1 # 1); Plot.FNum (-2 # 1)];
      [Plot.FNaN; Plot.FNaN];
      [Plot.FNum (3 # 1); Plot.FNaN] ].

End Mirror.

(** ** A network that records its requests

    A third instance: the state of the network is the list of the URLs
    requested so far, in order; every request is answered 200 with the
    grid file of the mirror. *)

Module Recorder.
Import Download.

Definition recorder_get (url : string) (timeout : option Z)
    (asked : list string) : result response * list string :=
  (Ok (mkResponse 200 [Byte.x1f; Byte.x8b]), asked ++ [url]).

Definition recorder_libs : Libs := {|
  net := list string;
  requests_get := recorder_get;
  json_loads := Mirror.mirror_json;
  hydro_frame := string;
  read_csv := fun text => Ok text;
  gunzip := Mirror.mirror_gunzip;
  grid := Demo.demo_grid;
  sample := Q;
  open_dataset := Mirror.mirror_open;
  interp_nearest := Demo.demo_interp;
  format_var_name := Demo.demo_format
|}.

Definition r0 : @world recorder_libs := @mkWorld recorder_libs [] [].

(** 0999-01-01T00:00:00Z in nanoseconds, an instant before the year
    1000. *)
Definition t_year_999 : Z :=
  days_from_civil 999 1 1 * seconds_per_day * ns_per_second.

Definition ancient_row : ts_frame :=
  mkFrame (Some "UTC")
    [mkRow 71224500010011 (float_of_decimal 402 1)
       (float_of_decimal (-1053) 1) t_year_999].

End Recorder.

(** * Properties of utilities.py *)

Section UtilitiesFacts.
Import Utilities.

Example filter_bits_flagged : filter_bits (2 ^ 14 + 5) default_bits = Ok false.
Proof. reflexivity. Qed.

Example filter_bits_negative_mask : filter_bits (- 1) [0] = Ok false.
Proof. reflexivity. Qed.

Example filter_bits_negative_position : filter_bits 5 [3; -1] = Raise TypeError.
Proof. reflexivity. Qed.

Lemma land_pow2 (a b : Z) :
  0 ≤ b → Z.land a (2 ^ b) = if Z.testbit a b then 2 ^ b else 0.
Proof.
  intros Hb. apply Z.bits_inj'. intros n Hn.
  rewrite Z.land_spec, Z.pow2_bits_eqb by lia.
  destruct (Z.eqb_spec b n) as [->|Hne].
  - destruct (Z.testbit a n) eqn:E; simpl.
    + rewrite Z.pow2_bits_eqb by lia. now rewrite Z.eqb_refl.
    + now rewrite Z.bits_0.
  - rewrite andb_false_r.
    destruct (Z.testbit a b).
    + rewrite Z.pow2_bits_eqb by lia. symmetry. now apply Z.eqb_neq.
    + now rewrite Z.bits_0.
Qed.

Lemma flag_testbit (bitmask bit : Z) :
  0 ≤ bit → flag bitmask bit = Ok (Z.testbit bitmask bit).
Proof.
  intros Hb. unfold flag.
  destruct (Z.ltb_spec bit 0) as [?|_]; [lia|].
  rewrite land_pow2 by lia.
  assert (0 < 2 ^ bit) by (apply Z.pow_pos_nonneg; lia).
  destruct (Z.testbit bitmask bit); [|reflexivity].
  f_equal. apply Z.ltb_lt. lia.
Qed.

Lemma land_pow2_zero (a b : Z) :
  0 ≤ b → Z.land a (2 ^ b) = 0 ↔ Z.testbit a b = false.
Proof.
  intros Hb. rewrite land_pow2 by lia.
  assert (0 < 2 ^ b) by (apply Z.pow_pos_nonneg; lia).
  destruct (Z.testbit a b); split; intros; try lia; congruence.
Qed.

Lemma flagged_testbits (bitmask : Z) (bits : list Z) :
  Forall (λ b, 0 ≤ b) bits →
  flagged bitmask bits = Ok (map (Z.testbit bitmask) bits).
Proof.
  unfold flagged. induction 1 as [|b bits Hb _ IH]; [reflexivity|].
  cbn [mapM map]. rewrite flag_testbit by exact Hb. cbn.
  unfold flagged in IH. cbn in IH. rewrite IH. reflexivity.
Qed.

Lemma any_false_iff (l : list bool) :
  any l = false ↔ Forall (λ b, b = false) l.
Proof.
  unfold any. induction l as [|b l IH]; cbn.
  - split; [constructor|reflexivity].
  - rewrite orb_false_iff, IH. split.
    + intros [-> Hl]. now constructor.
    + inversion 1; subst. now split.
Qed.

(** C10: for non-negative bit positions, [filter_bits] returns true
    exactly when every listed bit of the bitmask is clear, that is when
    [bitmask & 2**b] is 0 for every listed [b]; with the default list it
    returns true exactly when bits 13 and 14 are both clear. *)
Theorem filter_bits_all_clear (bitmask : Z) (bits_to_check : list Z) :
  Forall (λ b, 0 ≤ b) bits_to_check →
  (∃ r, filter_bits bitmask bits_to_check = Ok r
        ∧ (r = true ↔ ∀ b, b ∈ bits_to_check → Z.land bitmask (2 ^ b) = 0)
        ∧ (r = true ↔ ∀ b, b ∈ bits_to_check → Z.testbit bitmask b = false))
  ∧ (filter_bits_default bitmask = Ok true
     ↔ Z.testbit bitmask 13 = false ∧ Z.testbit bitmask 14 = false).
Proof.
  intros Hpos. split.
  - exists (negb (any (map (Z.testbit bitmask) bits_to_check))).
    split; [unfold filter_bits; now rewrite flagged_testbits|].
    assert (Hbits : negb (any (map (Z.testbit bitmask) bits_to_check)) = true
                    ↔ ∀ b, b ∈ bits_to_check → Z.testbit bitmask b = false).
    { rewrite negb_true_iff, any_false_iff, Forall_map, Forall_forall.
      reflexivity. }
    split; [|exact Hbits].
    rewrite Hbits. rewrite Forall_forall in Hpos.
    split; intros Hall b Hin; apply (land_pow2_zero bitmask b (Hpos b Hin));
      now apply Hall.
  - unfold filter_bits_default, filter_bits, default_bits.
    rewrite flagged_testbits by (repeat constructor; lia).
    cbn [map]. generalize (Z.testbit bitmask 13) (Z.testbit bitmask 14).
    intros [] []; cbv; (split; [intros ?|intros [? ?]]); congruence || auto.
Qed.

Lemma filter_bits_all_clear_witness :
  Forall (λ b, 0 ≤ b) [13; 14]
  ∧ (filter_bits_default 8192 = Ok true
     ↔ Z.testbit 8192 13 = false ∧ Z.testbit 8192 14 = false).
Proof.
  assert (Hpos : Forall (λ b, 0 ≤ b) [13; 14]) by (repeat constructor; lia).
  split; [exact Hpos|].
  exact (proj2 (filter_bits_all_clear 8192 [13; 14] Hpos)).
Defined.
End UtilitiesFacts.

(** * Properties of plot.py *)

Section PlotFacts.
Import Plot.
Context `{PlotLibs}.

Lemma fval_lt0_spec (v : fval) :
  fval_lt0 v = true ↔ strictly_negative v.
Proof.
  destruct v as [|[]|q]; cbn; try (split; congruence || tauto).
  rewrite negb_true_iff. split.
  - intros Hle. apply Qnot_le_lt. intros Hq.
    apply Qle_bool_iff in Hq. congruence.
  - intros Hlt. destruct (Qle_bool 0 q) eqn:E; [|reflexivity].
    apply Qle_bool_iff in E. exfalso. exact (Qlt_not_le _ _ Hlt E).
Qed.

Lemma mask_entry_spec (v : fval) :
  (strictly_negative v → mask_entry v = FNaN)
  ∧ (¬ strictly_negative v → mask_entry v = v).
Proof.
  unfold mask_entry. pose proof (fval_lt0_spec v) as Hv.
  destruct (fval_lt0 v); split; intros Hn; try reflexivity.
  - exfalso. apply Hn, Hv. reflexivity.
  - apply Hv in Hn. discriminate.
Qed.

Lemma mask_lookup (vals : list (list fval)) (i j : nat) row v :
  vals !! i = Some row → row !! j = Some v →
  ∃ row', map (map mask_entry) vals !! i = Some row'
          ∧ length row' = length row
          ∧ row' !! j = Some (mask_entry v).
Proof.
  intros Hi Hj. exists (map mask_entry row). split; [|split].
  - change (map (map mask_entry) vals) with (map mask_entry <$> vals).
    rewrite list_lookup_fmap, Hi. reflexivity.
  - apply length_map.
  - change (map mask_entry row) with (mask_entry <$> row).
    rewrite list_lookup_fmap, Hj. reflexivity.
Qed.

Lemma transpose_lookup (p : frame) (i j : nat) row v :
  f_values p !! i = Some row → row !! j = Some v →
  (j < length (f_columns p))%nat →
  ∃ col, transpose_values p !! j = Some col ∧ col !! i = Some v.
Proof.
  intros Hi Hj Hlt. unfold transpose_values.
  exists (map (λ r, nth j r FNaN) (f_values p)). split.
  - change (map ?f ?l) with (f <$> l).
    rewrite list_lookup_fmap, lookup_seq_lt by exact Hlt. reflexivity.
  - change (map ?f ?l) with (f <$> l).
    rewrite list_lookup_fmap, Hi. cbn. f_equal.
    apply nth_lookup_Some with (d := FNaN) in Hj. exact Hj.
Qed.

Lemma call_ok (fig : list draw) (c : draw) (fig' : list draw) :
  call fig c = Ok fig' → fig' = fig ++ [c].
Proof.
  unfold call. destruct (draw_call fig c) as [[]|e]; intros Hc.
  - injection Hc as <-. reflexivity.
  - discriminate Hc.
Qed.

Lemma call_all_ok (calls : list draw) (fig fig' : list draw) :
  call_all fig calls = Ok fig' → fig' = fig ++ calls.
Proof.
  revert fig. induction calls as [|c calls IH]; intros fig; cbn.
  - intros [= <-]. symmetry. apply app_nil_r.
  - destruct (call fig c) as [fig1|e] eqn:E; intros Hrest;
      [|discriminate Hrest].
    apply IH in Hrest. apply call_ok in E. subst.
    rewrite <- app_assoc. reflexivity.
Qed.

(** C8: the frame that [plot_heatmap] renders is the daily-mean pivot
    without its fully-empty rows in which every strictly negative entry
    is replaced by NaN and every other entry is left as it is; index,
    columns and shape are unchanged.  The calls on the figure come after
    the replacement: they are the six calls below, in order and up to
    the first that raises, and the matrix handed to [pcolormesh] is the
    transpose of the masked frame; when the function returns, the figure
    has received exactly these calls. *)
Theorem plot_heatmap_masks_negative
    (hydrocron_df : hydro_table) (column cmap : string) (fig : list draw)
    (daily : frame) :
  pivot_daily_mean hydrocron_df column = Ok daily →
  let kept := dropna_all daily in
  ∃ pivot,
    let calls := [Sca;
                  Pcolormesh (map date2num (f_index pivot))
                             (flip_arange (length (f_columns pivot)))
                             (transpose_values pivot) cmap;
                  XaxisDate; SetMajorFormatter "%Y-%m"; AutofmtXdate;
                  Colorbar] in
    heatmap_frame hydrocron_df column = Ok pivot
    ∧ plot_heatmap hydrocron_df column fig cmap = call_all fig calls
    ∧ (∀ fig', plot_heatmap hydrocron_df column fig cmap = Ok fig' →
               fig' = fig ++ calls)
    ∧ f_index pivot = f_index kept
    ∧ f_columns pivot = f_columns kept
    ∧ length (f_values pivot) = length (f_values kept)
    ∧ ∀ (i j : nat) row v,
        f_values kept !! i = Some row → row !! j = Some v →
        ∃ row' v',
          f_values pivot !! i = Some row' ∧ length row' = length row
          ∧ row' !! j = Some v'
          ∧ (strictly_negative v → v' = FNaN)
          ∧ (¬ strictly_negative v → v' = v)
          ∧ ((j < length (f_columns pivot))%nat →
             ∃ col, transpose_values pivot !! j = Some col
                    ∧ col !! i = Some v').
Proof.
  intros Hdaily kept. exists (mask_negative kept).
  assert (Hrun : plot_heatmap hydrocron_df column fig cmap
    = call_all fig
        [Sca;
         Pcolormesh (map date2num (f_index (mask_negative kept)))
                    (flip_arange (length (f_columns (mask_negative kept))))
                    (transpose_values (mask_negative kept)) cmap;
         XaxisDate; SetMajorFormatter "%Y-%m"; AutofmtXdate; Colorbar]).
  { unfold plot_heatmap, heatmap_frame. rewrite Hdaily. reflexivity. }
  cbv zeta. split_and!.
  - unfold heatmap_frame. rewrite Hdaily. reflexivity.
  - exact Hrun.
  - intros fig' Hok. rewrite Hrun in Hok. exact (call_all_ok _ _ _ Hok).
  - reflexivity.
  - reflexivity.
  - apply length_map.
  - intros i j row v Hi Hj.
    destruct (mask_lookup _ i j row v Hi Hj) as (row' & Hrow' & Hlen & Hv').
    exists row', (mask_entry v).
    destruct (mask_entry_spec v) as [Hneg Hpos].
    repeat split; try assumption.
    intros Hlt. exact (transpose_lookup (mask_negative kept) i j row' _ Hrow' Hv' Hlt).
Qed.
End PlotFacts.

(** * Timestamps, formatting and the URL of a grid file *)

Section FormatFacts.
Import Download.

Example civil_epoch : civil_from_days 0 = (1970, 1, 1).
Proof. reflexivity. Qed.

Example civil_leap_day : civil_from_days 11016 = (2000, 2, 29).
Proof. reflexivity. Qed.

Example civil_before_epoch : civil_from_days (-1) = (1969, 12, 31).
Proof. reflexivity. Qed.

Example format_examples :
  (format_d 2021, format_02d 6, format_02d 13, format_02d 0, format_d (-45))
  = ("2021", "06", "13", "00", "-45").
Proof. reflexivity. Qed.

Example url_example :
  url_of "PrecipRate" true (mkTimestamp scenario_time (Some "UTC"))
  = "https://noaa-mrms-pds.s3.amazonaws.com/CONUS/PrecipRate/20210601/MRMS_PrecipRate_20210601-130000.grib2.gz".
Proof. reflexivity. Qed.

Lemma decimal_go_small fuel n acc :
  0 ≤ n < 10 → decimal_go fuel n acc = String (digit_char (n mod 10)) acc.
Proof.
  intros Hn. assert (n / 10 = 0) as Hq by (apply Z.div_small; lia).
  destruct fuel; cbn [decimal_go]; [reflexivity|].
  rewrite Hq. reflexivity.
Qed.

Lemma decimal_go_step fuel n acc :
  10 ≤ n →
  decimal_go (S fuel) n acc
  = decimal_go fuel (n / 10) (String (digit_char (n mod 10)) acc).
Proof.
  intros Hn. cbn [decimal_go].
  destruct (Z.eqb_spec (n / 10) 0) as [Hq|_]; [|reflexivity].
  exfalso. assert (1 ≤ n / 10) by (apply Z.div_le_lower_bound; lia). lia.
Qed.

Lemma log2_lower (k n : Z) : 0 ≤ k → 2 ^ k ≤ n → k ≤ Z.log2 n.
Proof.
  intros Hk Hn. rewrite <- (Z.log2_pow2 k) by exact Hk.
  now apply Z.log2_le_mono.
Qed.

Lemma decimal_1 n : 0 ≤ n < 10 → decimal n = fixed_digits 1 n.
Proof. intros Hn. unfold decimal. now rewrite decimal_go_small. Qed.

Lemma decimal_2 n : 10 ≤ n < 100 → decimal n = fixed_digits 2 n.
Proof.
  intros Hn. unfold decimal.
  assert (3 ≤ Z.log2 n) as Hlog by (apply log2_lower; lia).
  destruct (Z.to_nat (Z.log2 n)) as [|fuel] eqn:E; [lia|].
  rewrite decimal_go_step by lia.
  rewrite decimal_go_small
    by (split; [apply Z.div_pos|apply Z.div_lt_upper_bound]; lia).
  reflexivity.
Qed.

Lemma decimal_4 n : 1000 ≤ n < 10000 → decimal n = fixed_digits 4 n.
Proof.
  intros Hn. unfold decimal.
  assert (9 ≤ Z.log2 n) as Hlog by (apply log2_lower; lia).
  destruct (Z.to_nat (Z.log2 n)) as [|[|[|fuel]]] eqn:E; try lia.
  assert (100 ≤ n / 10 < 1000)
    by (split; [apply Z.div_le_lower_bound|apply Z.div_lt_upper_bound]; lia).
  assert (10 ≤ n / 10 / 10 < 100)
    by (split; [apply Z.div_le_lower_bound|apply Z.div_lt_upper_bound]; lia).
  assert (0 ≤ n / 10 / 10 / 10 < 10)
    by (split; [apply Z.div_pos|apply Z.div_lt_upper_bound]; lia).
  rewrite !decimal_go_step by lia.
  rewrite decimal_go_small by lia.
  reflexivity.
Qed.

Lemma format_d_year year :
  1000 ≤ year < 10000 → format_d year = fixed_digits 4 year.
Proof.
  intros Hy. unfold format_d.
  destruct (Z.ltb_spec year 0); [lia|]. now apply decimal_4.
Qed.

Lemma format_02d_two n :
  0 ≤ n < 100 → format_02d n = fixed_digits 2 n.
Proof.
  intros Hn. unfold format_02d.
  destruct (Z.ltb_spec n 0); [lia|].
  destruct (Z_lt_le_dec n 10) as [Hlt|Hge].
  - rewrite decimal_1 by lia. cbn.
    assert (n / 10 = 0) as -> by (apply Z.div_small; lia). reflexivity.
  - rewrite decimal_2 by lia. reflexivity.
Qed.

Lemma string_app_cons (c : ascii) (s1 s2 : string) :
  String c s1 +:+ s2 = String c (s1 +:+ s2).
Proof. reflexivity. Qed.

Lemma string_app_length (s1 s2 : string) :
  String.length (s1 +:+ s2) = (String.length s1 + String.length s2)%nat.
Proof.
  induction s1 as [|c s1 IH]; [reflexivity|].
  rewrite string_app_cons. cbn [String.length Nat.add]. now rewrite IH.
Qed.

Lemma string_app_assoc (s1 s2 s3 : string) :
  (s1 +:+ s2) +:+ s3 = s1 +:+ (s2 +:+ s3).
Proof.
  induction s1 as [|c s1 IH]; [reflexivity|].
  rewrite !string_app_cons. now rewrite IH.
Qed.

Lemma fixed_digits_length width n :
  String.length (fixed_digits width n) = width.
Proof.
  revert n. induction width as [|w IH]; intros n; cbn [fixed_digits].
  - reflexivity.
  - rewrite string_app_length, IH. cbn. lia.
Qed.

(** The calendar fields of every 64-bit timestamp. *)

Lemma civil_from_days_range (days : Z) :
  -106752 ≤ days ≤ 106751 →
  let '(y, m, d) := civil_from_days days in
  1600 ≤ y ≤ 2400 ∧ 1 ≤ m ≤ 12 ∧ 1 ≤ d ≤ 31.
Proof.
  intros Hd. unfold civil_from_days.
  set (z := days + 719468).
  set (era := z / 146097).
  set (doe := z - era * 146097).
  set (yoe := (doe - doe / 1460 + doe / 36524 - doe / 146096) / 365).
  set (doy := doe - (365 * yoe + yoe / 4 - yoe / 100)).
  set (mp := (5 * doy + 2) / 153).
  assert (Hera : 4 ≤ era ≤ 5) by (subst era z; Z.to_euclidean_division_equations; lia).
  assert (Hdoe : 0 ≤ doe ≤ 146096) by (subst doe era; Z.to_euclidean_division_equations; lia).
  assert (Hyoe : 0 ≤ yoe ≤ 399) by (subst yoe; Z.to_euclidean_division_equations; lia).
  assert (Hdoy : 0 ≤ doy ≤ 365).
  { subst doy yoe. Z.to_euclidean_division_equations. lia. }
  assert (Hmp : 0 ≤ mp ≤ 11) by (subst mp; Z.to_euclidean_division_equations; lia).
  assert (Hday : 1 ≤ doy - (153 * mp + 2) / 5 + 1 ≤ 31).
  { subst mp. Z.to_euclidean_division_equations. lia. }
  destruct (Z.ltb_spec mp 10);
    match goal with |- context [?m <=? 2] => destruct (Z.leb_spec m 2) end;
    lia.
Qed.

Lemma epoch_days_range (v : Z) :
  timestamp_min ≤ v ≤ timestamp_max → -106752 ≤ epoch_days v ≤ 106751.
Proof.
  unfold timestamp_min, timestamp_max, epoch_days, epoch_seconds,
    ns_per_second, seconds_per_day.
  intros Hv. Z.to_euclidean_division_equations. lia.
Qed.

Lemma ts_time_range (t : Timestamp) :
  0 ≤ ts_hour t < 24 ∧ 0 ≤ ts_minute t < 60.
Proof.
  unfold ts_hour, ts_minute, second_of_day, seconds_per_day.
  Z.to_euclidean_division_equations. lia.
Qed.

Lemma ts_date_range (t : Timestamp) :
  timestamp_min ≤ value t ≤ timestamp_max →
  1600 ≤ ts_year t ≤ 2400 ∧ 1 ≤ ts_month t ≤ 12 ∧ 1 ≤ ts_day t ≤ 31.
Proof.
  intros Hv. unfold ts_year, ts_month, ts_day.
  pose proof (civil_from_days_range _ (epoch_days_range _ Hv)) as Hc.
  destruct (civil_from_days (epoch_days (value t))) as [[y m] d]. exact Hc.
Qed.

Lemma mrms_minute_range hourly minute :
  0 ≤ minute < 60 → 0 ≤ mrms_minute hourly minute < 60.
Proof.
  intros Hm. unfold mrms_minute. destruct hourly; [lia|].
  Z.to_euclidean_division_equations. lia.
Qed.

Lemma mrms_url_pattern var_name year month day hour minute :
  1000 ≤ year < 10000 → 0 ≤ month < 100 → 0 ≤ day < 100 →
  0 ≤ hour < 100 → 0 ≤ minute < 100 →
  mrms_url var_name year month day hour minute
  = spec_url var_name year month day hour minute.
Proof.
  intros Hy Hm Hd Hh Hmin. unfold mrms_url, spec_url, YYYYMMDD, HHMM.
  rewrite (format_d_year year Hy), (format_02d_two month Hm),
    (format_02d_two day Hd), (format_02d_two hour Hh),
    (format_02d_two minute Hmin).
  rewrite !string_app_assoc. reflexivity.
Qed.

(** The timestamp floored to the resolution of the grids has the fields
    of the bucketed key. *)
Lemma floor_days hourly v :
  epoch_days (v - v mod resolution_ns hourly) = epoch_days v.
Proof.
  unfold epoch_days, epoch_seconds, resolution_ns, ns_per_second,
    seconds_per_day.
  destruct hourly; Z.to_euclidean_division_equations; lia.
Qed.

Lemma floor_fields hourly t :
  let f := ts_floor (resolution_ns hourly) t in
  ts_year f = ts_year t ∧ ts_month f = ts_month t ∧ ts_day f = ts_day t
  ∧ ts_hour f = ts_hour t
  ∧ ts_minute f = mrms_minute hourly (ts_minute t).
Proof.
  cbn zeta. unfold ts_year, ts_month, ts_day, ts_floor. cbn [value].
  rewrite floor_days. repeat (split; [reflexivity|]).
  unfold ts_hour, ts_minute, mrms_minute, second_of_day, epoch_seconds,
    resolution_ns, ns_per_second, seconds_per_day. cbn [value].
  destruct hourly; Z.to_euclidean_division_equations; lia.
Qed.

(** C3: the minute of the bucketed key is 0 in hourly mode and otherwise
    the largest even number that does not exceed the minute of the
    timestamp; 47 gives 46 and 0 gives 0.  The URL of a timestamp is
    built with that minute. *)
Theorem mrms_minute_bucket (hourly : bool) (minute : Z) :
  (if hourly then mrms_minute hourly minute = 0
   else Z.even (mrms_minute hourly minute) = true
        ∧ mrms_minute hourly minute ≤ minute
        ∧ ∀ e, Z.even e = true → e ≤ minute → e ≤ mrms_minute hourly minute)
  ∧ (∀ var_name dt_utm0, ts_minute dt_utm0 = minute →
       url_of var_name hourly dt_utm0
       = mrms_url var_name (ts_year dt_utm0) (ts_month dt_utm0)
           (ts_day dt_utm0) (ts_hour dt_utm0) (mrms_minute hourly minute))
  ∧ mrms_minute false 47 = 46
  ∧ mrms_minute false 0 = 0.
Proof.
  split; [|split; [|split; reflexivity]].
  - destruct hourly; [reflexivity|]. unfold mrms_minute.
    split; [|split].
    + rewrite Z.mul_comm, Z.even_mul. reflexivity.
    + Z.to_euclidean_division_equations. lia.
    + intros e He Hle. apply Z.even_spec in He. destruct He as [k ->].
      Z.to_euclidean_division_equations. lia.
  - intros var_name dt_utm0 <-. reflexivity.
Qed.

(** Month and day of every day number, also outside the 64-bit range. *)
Lemma civil_month_day_range (days : Z) :
  let '(y, m, d) := civil_from_days days in
  1 ≤ m ≤ 12 ∧ 1 ≤ d ≤ 31.
Proof.
  unfold civil_from_days.
  set (z := days + 719468).
  set (era := z / 146097).
  set (doe := z - era * 146097).
  set (yoe := (doe - doe / 1460 + doe / 36524 - doe / 146096) / 365).
  set (doy := doe - (365 * yoe + yoe / 4 - yoe / 100)).
  set (mp := (5 * doy + 2) / 153).
  assert (Hdoe : 0 ≤ doe ≤ 146096) by (subst doe era; Z.to_euclidean_division_equations; lia).
  assert (Hyoe : 0 ≤ yoe ≤ 399) by (subst yoe; Z.to_euclidean_division_equations; lia).
  assert (Hdoy : 0 ≤ doy ≤ 365).
  { subst doy yoe. Z.to_euclidean_division_equations. lia. }
  assert (Hmp : 0 ≤ mp ≤ 11) by (subst mp; Z.to_euclidean_division_equations; lia).
  assert (Hday : 1 ≤ doy - (153 * mp + 2) / 5 + 1 ≤ 31).
  { subst mp. Z.to_euclidean_division_equations. lia. }
  destruct (Z.ltb_spec mp 10); lia.
Qed.

Lemma ts_month_day_range (t : Timestamp) :
  1 ≤ ts_month t ≤ 12 ∧ 1 ≤ ts_day t ≤ 31.
Proof.
  unfold ts_month, ts_day.
  pose proof (civil_month_day_range (epoch_days (value t))) as Hc.
  destruct (civil_from_days (epoch_days (value t))) as [[y m] d]. exact Hc.
Qed.

(** The URL of a timestamp whose year has four digits is the pattern of
    the specification. *)
Lemma url_of_pattern var_name hourly (dt_utm0 : Timestamp) :
  1000 ≤ ts_year dt_utm0 < 10000 →
  url_of var_name hourly dt_utm0
  = spec_url var_name (ts_year dt_utm0) (ts_month dt_utm0) (ts_day dt_utm0)
      (ts_hour dt_utm0) (mrms_minute hourly (ts_minute dt_utm0)).
Proof.
  intros Hy.
  destruct (ts_month_day_range dt_utm0) as (Hm & Hd).
  destruct (ts_time_range dt_utm0) as (Hh & Hmin).
  pose proof (mrms_minute_range hourly _ Hmin) as Hb.
  unfold url_of. apply mrms_url_pattern; lia.
Qed.

End FormatFacts.

(** * Properties of download.py *)

Section NumberFacts.
Import Download.

Lemma two_power_pos (e : Z) : (0 < 2 ^ e)%Q.
Proof. apply Qpower_0_lt. reflexivity. Qed.

Lemma scaled_shift (z e n : Z) :
  0 ≤ n → (scaled (z * 2 ^ n) (e - n) == scaled z e)%Q.
Proof.
  intros Hn. unfold scaled.
  rewrite inject_Z_mult, Zpower_Qpower by exact Hn.
  change (inject_Z 2) with 2%Q.
  rewrite <- Qmult_assoc, <- Qpower_plus by discriminate.
  replace (n + (e - n)) with e by lia. reflexivity.
Qed.

Lemma scaled_plus (a b e : Z) :
  (scaled (a + b) e == scaled a e + scaled b e)%Q.
Proof. unfold scaled. rewrite inject_Z_plus. ring. Qed.

Lemma scaled_mult (a b e : Z) :
  (scaled (a * b) e == scaled a e * inject_Z b)%Q.
Proof. unfold scaled. rewrite inject_Z_mult. ring. Qed.

Lemma scaled_lt (a b e : Z) : a < b → (scaled a e < scaled b e)%Q.
Proof.
  intros Hab. unfold scaled. apply Qmult_lt_compat_r.
  - apply two_power_pos.
  - now rewrite <- Zlt_Qlt.
Qed.

(** The value of a finite float. *)
Lemma float_value_finite (s : bool) (m : positive) (e : Z) :
  ∃ q, float_value (S754_finite s m e) = Some q
       ∧ (q == (if s then - scaled (Zpos m) e else scaled (Zpos m) e))%Q.
Proof.
  eexists. split; [reflexivity|]. unfold scaled. destruct s; ring.
Qed.

(** [canonical] keeps the value. *)
Lemma float_value_canonical (s : bool) (r e : Z) :
  0 ≤ r →
  ∃ q, float_value (canonical s r e) = Some q
       ∧ (q == (if s then - scaled r e else scaled r e))%Q.
Proof.
  intros Hr. destruct r as [|p|p]; [| |lia].
  - exists 0%Q. split; [reflexivity|]. unfold scaled. destruct s; ring.
  - unfold canonical.
    set (k := Z.max 0 (Z.min (prec - Zdigits2 (Z.pos p)) (e - emin prec emax))).
    assert (Hk : 0 ≤ k) by (subst k; lia).
    destruct (float_value_finite s (Z.to_pos (Z.pos p * 2 ^ k)) (e - k))
      as (q & Hq & Eq).
    exists q. split; [exact Hq|]. rewrite Eq.
    rewrite Z2Pos.id by (assert (0 < 2 ^ k) by (apply Z.pow_pos_nonneg; lia); lia).
    destruct s; rewrite scaled_shift by exact Hk; reflexivity.
Qed.

Lemma is_zero_canonical (s : bool) (r e : Z) :
  0 ≤ r → is_zero (canonical s r e) = (r =? 0).
Proof. intros Hr. destruct r; [reflexivity|reflexivity|lia]. Qed.

Lemma negative_canonical (s : bool) (r e : Z) :
  0 < r → negative (canonical s r e) = s.
Proof. intros Hr. destruct r; [lia| |lia]. destruct s; reflexivity. Qed.

Lemma float_360 : float_of_int 360 = S754_finite false 6333186975989760 (-44).
Proof. reflexivity. Qed.

(** The C remainder of a finite float by 360.0 is exact: it has the sign
    of the float, is smaller than 360 in magnitude and differs from the
    float by a whole number of turns. *)
Lemma fmod_360 (s : bool) (m : positive) (e : Z) :
  ∃ r e' q k,
    fmod (S754_finite s m e) (float_of_int 360) = canonical s r e'
    ∧ 0 ≤ r < 45 * 2 ^ (3 - e') ∧ e' ≤ -44
    ∧ (0 <= q)%Q ∧ (q < 360)%Q
    ∧ (q == scaled r e')%Q
    ∧ 0 ≤ k
    ∧ (scaled (Zpos m) e == q + inject_Z (360 * k))%Q.
Proof.
  rewrite float_360. cbn [fmod].
  set (e' := Z.min e (-44)).
  set (X := Z.pos m * 2 ^ (e - e')).
  set (Y := 6333186975989760 * 2 ^ (-44 - e')).
  assert (He1 : 0 ≤ e - e') by (subst e'; lia).
  assert (He2 : 0 ≤ -44 - e') by (subst e'; lia).
  assert (HX : 0 < X) by (subst X; apply Z.mul_pos_pos; [lia|apply Z.pow_pos_nonneg; lia]).
  assert (HY : 0 < Y) by (subst Y; apply Z.mul_pos_pos; [lia|apply Z.pow_pos_nonneg; lia]).
  assert (HY45 : Y = 45 * 2 ^ (3 - e')).
  { subst Y. replace (3 - e') with (47 + (-44 - e')) by lia.
    rewrite Z.pow_add_r by lia. lia. }
  pose proof (Z.mod_pos_bound X Y HY) as Hr.
  pose proof (Z.div_mod X Y ltac:(lia)) as Hdiv.
  assert (Hk : 0 ≤ X / Y) by (apply Z.div_pos; lia).
  assert (EX : (scaled X e' == scaled (Zpos m) e)%Q).
  { subst X. replace e' with (e - (e - e')) at 2 by lia.
    now apply scaled_shift. }
  assert (EY : (scaled Y e' == 360)%Q).
  { subst Y. replace e' with (-44 - (-44 - e')) at 2 by lia.
    rewrite scaled_shift by exact He2. reflexivity. }
  exists (X mod Y), e', (scaled (X mod Y) e'), (X / Y).
  split_and!; try reflexivity; try lia.
  - unfold scaled. apply Qmult_le_0_compat.
    + change 0%Q with (inject_Z 0). rewrite <- Zle_Qle. lia.
    + apply Qlt_le_weak, two_power_pos.
  - rewrite <- EY. apply scaled_lt. lia.
  - rewrite <- EX. rewrite Hdiv at 1.
    rewrite scaled_plus, scaled_mult, EY, inject_Z_mult.
    change (inject_Z 360) with 360%Q. ring.
Qed.

(** [lon % 360] of a finite float that is not negative is its exact
    reduction into [0, 360). *)
Lemma py_mod_360_nonneg (m : positive) (e : Z) :
  reduced_mod_360 (S754_finite false m e) (py_mod (S754_finite false m e) 360).
Proof.
  destruct (fmod_360 false m e)
    as (r & e' & q & k & Hfmod & [Hr _] & _ & H0 & H360 & Eq & Hk & Ex).
  destruct (float_value_finite false m e) as (qx & Hqx & Eqx).
  unfold reduced_mod_360, py_mod. cbv zeta. rewrite Hfmod.
  rewrite is_zero_canonical by exact Hr.
  destruct (Z.eqb_spec r 0) as [->|Hne].
  - exists qx, 0%Q, k. split_and!; [exact Hqx|reflexivity|apply Qle_refl|reflexivity|].
    rewrite Eqx, Ex, Eq. unfold scaled. ring.
  - rewrite negative_canonical by lia.
    change (negative (float_of_int 360)) with false. cbn [xorb].
    destruct (float_value_canonical false r e' Hr) as (qr & Hqr & Eqr).
    exists qx, qr, k. split_and!; [exact Hqx|exact Hqr| | |].
    + rewrite Eqr, <- Eq. exact H0.
    + rewrite Eqr, <- Eq. exact H360.
    + rewrite Eqx, Ex, Eqr, Eq. reflexivity.
Qed.

(** [lon % 360] of a negative finite float: the exact C remainder [md]
    lies in (-360, 0] and differs from the float by a whole number of
    turns; the result is [+0.0] when it is zero and otherwise the float
    sum [md + 360.0], rounded to nearest. *)
Lemma py_mod_360_neg (m : positive) (e : Z) :
  let lon := S754_finite true m e in
  let md := fmod lon (float_of_int 360) in
  ∃ qx qm k,
    float_value lon = Some qx ∧ float_value md = Some qm
    ∧ (- (360) < qm)%Q ∧ (qm <= 0)%Q
    ∧ (qx == qm + inject_Z (360 * k))%Q
    ∧ py_mod lon 360
      = if is_zero md then S754_zero false
        else SFadd prec emax md (float_of_int 360).
Proof.
  cbv zeta.
  destruct (fmod_360 true m e)
    as (r & e' & q & k & Hfmod & [Hr _] & _ & H0 & H360 & Eq & Hk & Ex).
  destruct (float_value_finite true m e) as (qx & Hqx & Eqx).
  destruct (float_value_canonical true r e' Hr) as (qm & Hqm & Eqm).
  exists qx, qm, (- k). rewrite Hfmod.
  split_and!; [exact Hqx|exact Hqm| | | |].
  - rewrite Eqm, <- Eq. apply Qopp_lt_compat in H360. exact H360.
  - rewrite Eqm, <- Eq. apply Qopp_le_compat in H0. exact H0.
  - rewrite Eqx, Ex, Eqm, Eq.
    replace (360 * - k) with (- (360 * k)) by lia.
    rewrite inject_Z_opp. ring.
  - unfold py_mod. cbv zeta. rewrite Hfmod.
    rewrite is_zero_canonical by exact Hr.
    destruct (Z.eqb_spec r 0) as [->|Hne]; [reflexivity|].
    rewrite negative_canonical by lia. reflexivity.
Qed.

(** *** Rounding *)

Lemma digits2_size (p : positive) : digits2_pos p = Pos.size p.
Proof. induction p as [p IH|p IH|]; cbn; congruence. Qed.

(** A positive integer of [d] binary digits is at least [2**(d-1)]. *)
Lemma Zdigits2_lower (m : Z) : 0 < m → 2 ^ (Zdigits2 m - 1) ≤ m.
Proof.
  destruct m as [|p|p]; try lia. intros _. cbn [Zdigits2].
  rewrite digits2_size.
  pose proof (Pos.size_le p) as Hle.
  assert (H2 : 2 ^ Z.pos (Pos.size p) ≤ 2 * Z.pos p).
  { change (2 * Z.pos p) with (Z.pos p~0).
    rewrite <- Pos2Z.inj_pow. apply Pos2Z.pos_le_pos. exact Hle. }
  replace (Z.pos (Pos.size p)) with (Z.succ (Z.pos (Pos.size p) - 1)) in H2 by lia.
  rewrite Z.pow_succ_r in H2 by lia. lia.
Qed.

(** A mantissa below [45 * 2**(3 - e)], that is a value below 360, has
    its most significant digit below [2**9]. *)
Lemma digits_below_360 (m e : Z) :
  0 < m → e ≤ 3 → m ≤ 45 * 2 ^ (3 - e) → Zdigits2 m + e ≤ 9.
Proof.
  intros Hm He Hlt. pose proof (Zdigits2_lower m Hm) as Hd.
  assert (H45 : 45 * 2 ^ (3 - e) < 2 ^ (9 - e)).
  { replace (9 - e) with (6 + (3 - e)) by lia.
    rewrite Z.pow_add_r by lia.
    assert (0 < 2 ^ (3 - e)) by (apply Z.pow_pos_nonneg; lia). lia. }
  destruct (Z_lt_le_dec (Zdigits2 m - 1) (9 - e)) as [?|Hge]; [lia|].
  assert (2 ^ (9 - e) ≤ 2 ^ (Zdigits2 m - 1))
    by (apply Z.pow_le_mono_r; lia).
  lia.
Qed.

Lemma shr_1_m (mrs : shr_record) :
  0 ≤ shr_m mrs → shr_m (shr_1 mrs) = shr_m mrs / 2.
Proof.
  destruct mrs as [m r s]. cbn [shr_m shr_1].
  destruct m as [|[p|p|]|p]; intros Hm; cbn [shr_m]; try lia;
    try reflexivity.
  - change (Z.pos p~1) with (2 * Z.pos p + 1).
    Z.to_euclidean_division_equations. lia.
  - change (Z.pos p~0) with (2 * Z.pos p).
    Z.to_euclidean_division_equations. lia.
Qed.

Lemma iter_shr_1_m (n : positive) (mrs : shr_record) :
  0 ≤ shr_m mrs →
  shr_m (SpecFloat.iter_pos shr_1 n mrs) = shr_m mrs / 2 ^ Z.pos n.
Proof.
  revert mrs. induction n as [n IH|n IH|]; intros mrs Hm;
    cbn [SpecFloat.iter_pos].
  - assert (Hp : 0 < 2 ^ Z.pos n) by (apply Z.pow_pos_nonneg; lia).
    assert (H1 : 0 ≤ shr_m (shr_1 mrs))
      by (rewrite shr_1_m by exact Hm; apply Z.div_pos; lia).
    assert (H2 : 0 ≤ shr_m (SpecFloat.iter_pos shr_1 n (shr_1 mrs)))
      by (rewrite IH by exact H1; apply Z.div_pos; lia).
    rewrite IH by exact H2. rewrite IH by exact H1. rewrite shr_1_m by exact Hm.
    rewrite !Z.div_div by lia.
    f_equal. change (Z.pos n~1) with (2 * Z.pos n + 1).
    replace (2 * Z.pos n + 1) with (1 + Z.pos n + Z.pos n) by lia.
    rewrite !Z.pow_add_r by lia. lia.
  - assert (Hp : 0 < 2 ^ Z.pos n) by (apply Z.pow_pos_nonneg; lia).
    assert (H2 : 0 ≤ shr_m (SpecFloat.iter_pos shr_1 n mrs))
      by (rewrite IH by exact Hm; apply Z.div_pos; lia).
    rewrite IH by exact H2. rewrite IH by exact Hm.
    rewrite Z.div_div by lia.
    f_equal. change (Z.pos n~0) with (2 * Z.pos n).
    replace (2 * Z.pos n) with (Z.pos n + Z.pos n) by lia.
    rewrite Z.pow_add_r by lia. lia.
  - rewrite shr_1_m by exact Hm. reflexivity.
Qed.

(** [shr_fexp] on a mantissa of a value below 360: the exponent does not
    decrease and stays at most 3, and the mantissa is divided
    accordingly. *)
Lemma shr_fexp_below_360 (m e : Z) (l : location) :
  0 ≤ m → e ≤ 3 → m ≤ 45 * 2 ^ (3 - e) →
  let '(mrs, e1) := shr_fexp prec emax m e l in
  e ≤ e1 ≤ 3 ∧ shr_m mrs = m / 2 ^ (e1 - e).
Proof.
  intros Hm He Hlt. unfold shr_fexp, shr.
  assert (Hrec : shr_m (shr_record_of_loc m l) = m)
    by (destruct l as [|[]]; reflexivity).
  assert (Hfexp : fexp prec emax (Zdigits2 m + e) ≤ 3).
  { unfold fexp, emin, prec, emax.
    destruct (Z.eq_dec m 0) as [->|Hne]; [cbn; lia|].
    pose proof (digits_below_360 m e ltac:(lia) He Hlt). lia. }
  destruct (fexp prec emax (Zdigits2 m + e) - e) as [|n|n] eqn:En.
  - rewrite Z.sub_diag, Z.div_1_r. split; [lia|exact Hrec].
  - split; [lia|]. rewrite iter_shr_1_m by (rewrite Hrec; exact Hm).
    rewrite Hrec. f_equal. f_equal. lia.
  - rewrite Z.sub_diag, Z.div_1_r. split; [lia|exact Hrec].
Qed.

Lemma round_nearest_even_range (m : Z) (l : location) :
  m ≤ round_nearest_even m l ≤ m + 1.
Proof.
  unfold round_nearest_even. destruct l as [|[]]; try lia.
  destruct (Z.even m); lia.
Qed.

Lemma div_below_360 (m e e1 : Z) :
  0 ≤ m → e ≤ e1 → e1 ≤ 3 → m ≤ 45 * 2 ^ (3 - e) →
  0 ≤ m / 2 ^ (e1 - e) ≤ 45 * 2 ^ (3 - e1).
Proof.
  intros Hm He He1 Hle.
  assert (Hp : 0 < 2 ^ (e1 - e)) by (apply Z.pow_pos_nonneg; lia).
  split; [apply Z.div_pos; lia|].
  apply Z.div_le_upper_bound; [exact Hp|].
  replace (3 - e) with ((e1 - e) + (3 - e1)) in Hle by lia.
  rewrite Z.pow_add_r in Hle by lia. lia.
Qed.

Lemma div_strictly_below_360 (m e e1 : Z) :
  0 ≤ m → e ≤ e1 → e1 ≤ 3 → m < 45 * 2 ^ (3 - e) →
  0 ≤ m / 2 ^ (e1 - e) < 45 * 2 ^ (3 - e1).
Proof.
  intros Hm He He1 Hlt.
  assert (Hp : 0 < 2 ^ (e1 - e)) by (apply Z.pow_pos_nonneg; lia).
  split; [apply Z.div_pos; lia|].
  apply Z.div_lt_upper_bound; [exact Hp|].
  replace (3 - e) with ((e1 - e) + (3 - e1)) in Hlt by lia.
  rewrite Z.pow_add_r in Hlt by lia. lia.
Qed.

Lemma scaled_le (a b e : Z) : a ≤ b → (scaled a e <= scaled b e)%Q.
Proof.
  intros Hab. unfold scaled. apply Qmult_le_compat_r.
  - now rewrite <- Zle_Qle.
  - apply Qlt_le_weak, two_power_pos.
Qed.

Lemma scaled_360 (e : Z) : e ≤ 3 → (scaled (45 * 2 ^ (3 - e)) e == 360)%Q.
Proof.
  intros He. replace e with (3 - (3 - e)) at 2 by lia.
  rewrite scaled_shift by lia. reflexivity.
Qed.

(** Rounding a positive value below 360 gives a float of [0, 360]. *)
Lemma round_aux_below_360 (m e : Z) :
  0 < m → e ≤ 3 → m < 45 * 2 ^ (3 - e) →
  ∃ q, float_value (binary_round_aux prec emax false m e loc_Exact) = Some q
       ∧ (0 <= q)%Q ∧ (q <= 360)%Q.
Proof.
  intros Hm He Hlt. unfold binary_round_aux.
  pose proof (shr_fexp_below_360 m e loc_Exact ltac:(lia) He ltac:(lia)) as H1.
  destruct (shr_fexp prec emax m e loc_Exact) as [mrs1 e1].
  destruct H1 as [He1 Hm1].
  pose proof (div_strictly_below_360 m e e1 ltac:(lia) ltac:(lia) ltac:(lia) Hlt)
    as Hb1.
  rewrite <- Hm1 in Hb1.
  pose proof (round_nearest_even_range (shr_m mrs1) (loc_of_shr_record mrs1))
    as Hr.
  set (mr := round_nearest_even (shr_m mrs1) (loc_of_shr_record mrs1)) in *.
  pose proof (shr_fexp_below_360 mr e1 loc_Exact ltac:(lia) ltac:(lia)
                ltac:(lia)) as H2.
  destruct (shr_fexp prec emax mr e1 loc_Exact) as [mrs2 e2].
  destruct H2 as [He2 Hm2].
  pose proof (div_below_360 mr e1 e2 ltac:(lia) ltac:(lia) ltac:(lia) ltac:(lia))
    as Hb2.
  rewrite <- Hm2 in Hb2.
  destruct (shr_m mrs2) as [|p|p]; [| |lia].
  - exists 0%Q. split_and!; [reflexivity|apply Qle_refl|discriminate].
  - destruct (Z.leb_spec e2 (emax - prec)) as [_|Hbig];
      [|unfold emax, prec in Hbig; lia].
    destruct (float_value_finite false p e2) as (q & Hq & Eq).
    exists q. split; [exact Hq|]. rewrite Eq. split.
    + unfold scaled. apply Qmult_le_0_compat; [discriminate|].
      apply Qlt_le_weak, two_power_pos.
    + rewrite <- (scaled_360 e2) by lia. apply scaled_le. lia.
Qed.

Lemma iter_xO (d p : positive) : Z.pos (Pos.iter xO p d) = Z.pos p * 2 ^ Z.pos d.
Proof.
  induction d as [|d IH] using Pos.peano_ind.
  - cbn [Pos.iter]. change (2 ^ 1) with 2. lia.
  - rewrite Pos.iter_succ, Pos2Z.inj_succ, Z.pow_succ_r by lia.
    change (Z.pos (Pos.iter xO p d)~0) with (2 * Z.pos (Pos.iter xO p d)).
    rewrite IH. lia.
Qed.

(** [shl_align] to an exponent that is not larger keeps the value. *)
Lemma shl_align_value (mx : positive) (ex ex' : Z) :
  let '(mz, ez) := shl_align mx ex ex' in
  ez = Z.min ex ex' ∧ Z.pos mz = Z.pos mx * 2 ^ (ex - ez).
Proof.
  unfold shl_align. destruct (ex' - ex) as [|d|d] eqn:Ed.
  - split; [lia|]. rewrite Z.sub_diag. lia.
  - split; [lia|]. rewrite Z.sub_diag. lia.
  - split; [lia|]. rewrite iter_xO. do 2 f_equal. lia.
Qed.

Lemma round_below_360 (p : positive) (e : Z) :
  e ≤ 3 → Z.pos p < 45 * 2 ^ (3 - e) →
  ∃ q, float_value (binary_round prec emax false p e) = Some q
       ∧ (0 <= q)%Q ∧ (q <= 360)%Q.
Proof.
  intros He Hlt. unfold binary_round.
  pose proof (shl_align_value p e (fexp prec emax (Z.pos (digits2_pos p) + e)))
    as Hal.
  destruct (shl_align p e (fexp prec emax (Z.pos (digits2_pos p) + e)))
    as [mz ez].
  destruct Hal as [Hez Hmz].
  apply round_aux_below_360; [lia|lia|].
  rewrite Hmz.
  replace (3 - ez) with ((3 - e) + (e - ez)) by lia.
  rewrite Z.pow_add_r by lia.
  assert (0 < 2 ^ (e - ez)) by (apply Z.pow_pos_nonneg; lia).
  nia.
Qed.

(** The float sum of a negative remainder above -360 and 360.0. *)
Lemma SFadd_360_range (mx : positive) (ex : Z) :
  ex ≤ -44 → Z.pos mx < 45 * 2 ^ (3 - ex) →
  ∃ q, float_value (SFadd prec emax (S754_finite true mx ex) (float_of_int 360))
       = Some q
       ∧ (0 <= q)%Q ∧ (q <= 360)%Q.
Proof.
  intros Hex Hlt. rewrite float_360. unfold SFadd.
  replace (Z.min ex (-44)) with ex by lia.
  pose proof (shl_align_value mx ex ex) as Hx.
  pose proof (shl_align_value 6333186975989760 (-44) ex) as Hy.
  destruct (shl_align mx ex ex) as [mx' ex'].
  destruct (shl_align 6333186975989760 (-44) ex) as [my' ey'].
  destruct Hx as [Hex' Hmx']. destruct Hy as [Hey' Hmy'].
  cbn [fst cond_Zopp].
  replace (ex - ex') with 0 in Hmx' by lia.
  replace (-44 - ey') with (-44 - ex) in Hmy' by lia.
  assert (H45 : 45 * 2 ^ (3 - ex) = 6333186975989760 * 2 ^ (-44 - ex)).
  { replace (3 - ex) with (47 + (-44 - ex)) by lia.
    rewrite Z.pow_add_r by lia. lia. }
  set (p := - Z.pos mx' + Z.pos my').
  assert (Hp : 0 < p < 45 * 2 ^ (3 - ex)) by (subst p; lia).
  destruct p as [|p|p]; [lia| |lia].
  cbn [binary_normalize]. apply round_below_360; lia.
Qed.

(** [lon % 360] of a finite longitude is a finite float of [0, 360]. *)
Lemma py_mod_360_range (s : bool) (m : positive) (e : Z) :
  ∃ q, float_value (py_mod (S754_finite s m e) 360) = Some q
       ∧ (0 <= q)%Q ∧ (q <= 360)%Q.
Proof.
  destruct s.
  - destruct (fmod_360 true m e)
      as (r & e' & q & k & Hfmod & Hr & He' & _).
    unfold py_mod. cbv zeta. rewrite Hfmod.
    rewrite is_zero_canonical by lia.
    destruct (Z.eqb_spec r 0) as [->|Hne].
    + exists 0%Q. split_and!; [reflexivity|apply Qle_refl|discriminate].
    + rewrite negative_canonical by lia.
      change (negative (float_of_int 360)) with false. cbn [xorb].
      destruct r as [|r|r]; [lia| |lia]. unfold canonical.
      set (j := Z.max 0 (Z.min (prec - Zdigits2 (Z.pos r)) (e' - emin prec emax))).
      assert (Hj : 0 ≤ j) by (subst j; lia).
      assert (Hpj : 0 < 2 ^ j) by (apply Z.pow_pos_nonneg; lia).
      apply SFadd_360_range; [lia|].
      rewrite Z2Pos.id by lia.
      replace (3 - (e' - j)) with ((3 - e') + j) by lia.
      rewrite Z.pow_add_r by lia. nia.
  - destruct (py_mod_360_nonneg m e)
      as (qx & qr & k & _ & Hqr & H0 & H360 & _).
    exists qr. split_and!; [exact Hqr|exact H0|now apply Qlt_le_weak].
Qed.

End NumberFacts.

Section RunFacts.
Import Download.
Context `{Libs}.

Lemma dict_get_set_eq {V} (k : string) (v : V) d :
  dict_get k (dict_set k v d) = Some v.
Proof.
  induction d as [|[k' v'] d IH]; cbn.
  - now rewrite String.eqb_refl.
  - destruct (String.eqb_spec k k') as [->|Hne]; cbn.
    + now rewrite String.eqb_refl.
    + apply String.eqb_neq in Hne. now rewrite Hne.
Qed.

Lemma dict_get_set_ne {V} (k k' : string) (v : V) d :
  k ≠ k' → dict_get k' (dict_set k v d) = dict_get k' d.
Proof.
  intros Hne. induction d as [|[k0 v0] d IH]; cbn.
  - destruct (String.eqb_spec k' k); [congruence|reflexivity].
  - destruct (String.eqb_spec k k0) as [->|Hk]; cbn.
    + destruct (String.eqb_spec k' k0); [congruence|reflexivity].
    + destruct (String.eqb_spec k' k0); [reflexivity|exact IH].
Qed.

Lemma one_row_frame_sample var_name n dt v :
  dict_get var_name (one_row_frame var_name n dt v) = Some (CSample v).
Proof. apply dict_get_set_eq. Qed.

Lemma one_row_frame_time var_name n dt v :
  var_name ≠ "time" →
  dict_get "time" (one_row_frame var_name n dt v) = Some (CTime dt).
Proof.
  intros Hne. unfold one_row_frame.
  rewrite dict_get_set_ne by exact Hne. apply dict_get_set_eq.
Qed.

Lemma one_row_frame_node var_name n dt v :
  var_name ≠ "node_id" →
  dict_get "node_id" (one_row_frame var_name n dt v) = Some (CNode n).
Proof.
  intros Hne. unfold one_row_frame.
  rewrite dict_get_set_ne by exact Hne. reflexivity.
Qed.

Lemma sample_row_first name g rest var_name dt row :
  sample_row ((name, g) :: rest) var_name dt row
  = Ok (sampled g var_name dt row).
Proof.
  unfold sample_row. cbn. now rewrite String.eqb_refl.
Qed.

Lemma sample_rows_first name g rest var_name dt swot_df new_rows :
  sample_rows ((name, g) :: rest) var_name dt swot_df new_rows
  = Ok (new_rows ++ map (sampled g var_name dt) swot_df).
Proof.
  revert new_rows. induction swot_df as [|row swot_df IH]; intros new_rows.
  - cbn. now rewrite app_nil_r.
  - cbn [sample_rows]. rewrite sample_row_first. cbn.
    rewrite IH, <- app_assoc. reflexivity.
Qed.

Lemma sample_rows_inv ds var_name dt swot_df new_rows out :
  sample_rows ds var_name dt swot_df new_rows = Ok out →
  ∃ added, out = new_rows ++ added
           ∧ Forall (from_group var_name dt swot_df) added.
Proof.
  destruct ds as [|[name g] rest].
  - destruct swot_df as [|row swot_df]; cbn; [|discriminate].
    intros [= <-]. exists []. split; [now rewrite app_nil_r|constructor].
  - rewrite sample_rows_first. intros [= <-].
    eexists. split; [reflexivity|].
    apply Forall_forall. intros r Hr.
    apply list_elem_of_In, in_map_iff in Hr. destruct Hr as (row & <- & Hin).
    exists row, (interp_nearest g (lat row) (py_mod (lon row) 360)).
    split; [now apply list_elem_of_In|reflexivity].
Qed.

(** One iteration of the outer loop. *)

Lemma process_group_skip var_name hourly zone new_rows k swot_df w resp n' :
  let dt_utm0 := mkTimestamp k (Some "UTC") in
  requests_get (url_of var_name hourly dt_utm0) None (w_net w) = (Ok resp, n') →
  status_code resp ≠ 200 →
  process_group var_name hourly (Some zone) new_rows (k, swot_df) w
  = (Ok new_rows,
     mkWorld n' (w_log w ++ [PrintUrl (url_of var_name hourly dt_utm0);
                             PrintDownloadFailed dt_utm0 (status_code resp)])).
Proof.
  intros dt_utm0 Hget Hstatus.
  unfold process_group, mbind, io_bind, lift, emit, http_get. cbn.
  fold dt_utm0. rewrite Hget.
  destruct (Z.eqb_spec (status_code resp) 200) as [?|_]; [contradiction|].
  cbn. rewrite <- app_assoc. reflexivity.
Qed.

Lemma process_group_sampled var_name hourly zone new_rows k swot_df w
    resp n' grib_bytes name g rest :
  let dt_utm0 := mkTimestamp k (Some "UTC") in
  requests_get (url_of var_name hourly dt_utm0) None (w_net w) = (Ok resp, n') →
  status_code resp = 200 →
  gunzip (content resp) = Ok grib_bytes →
  open_dataset grib_bytes = Ok ((name, g) :: rest) →
  process_group var_name hourly (Some zone) new_rows (k, swot_df) w
  = (Ok (new_rows ++ map (sampled g var_name (mkTimestamp k (Some zone))) swot_df),
     mkWorld n' (w_log w ++ [PrintUrl (url_of var_name hourly dt_utm0)])).
Proof.
  intros dt_utm0 Hget Hstatus Hgz Hds.
  unfold process_group, mbind, io_bind, lift, emit, http_get. cbn.
  fold dt_utm0. rewrite Hget, Hstatus. cbn. rewrite Hgz, Hds.
  rewrite sample_rows_first. reflexivity.
Qed.

Lemma process_group_inv var_name hourly zone new_rows group w out w' :
  process_group var_name hourly zone new_rows group w = (Ok out, w') →
  ∃ added prints,
    out = new_rows ++ added
    ∧ Forall (from_group var_name (mkTimestamp (fst group) zone) (snd group)) added
    ∧ w_log w' = w_log w ++ prints
    ∧ forallb is_print prints = true.
Proof.
  destruct group as [k swot_df].
  unfold process_group, mbind, io_bind, lift, emit, http_get. cbn.
  destruct zone as [zone|]; cbn; [|discriminate].
  destruct (requests_get _ None (w_net w)) as [[resp|e] n']; cbn; [|discriminate].
  destruct (status_code resp =? 200); cbn.
  - destruct (gunzip (content resp)) as [grib_bytes|e]; cbn; [|discriminate].
    destruct (open_dataset grib_bytes) as [ds|e]; cbn; [|discriminate].
    destruct (sample_rows ds var_name _ swot_df new_rows) as [rows'|e] eqn:E;
      [|discriminate].
    intros [= <- <-]. apply sample_rows_inv in E as (added & -> & Hadded).
    exists added, [PrintUrl (url_of var_name hourly (mkTimestamp k (Some "UTC")))].
    split_and!; [reflexivity|exact Hadded|reflexivity|reflexivity].
  - intros [= <- <-].
    exists [], [PrintUrl (url_of var_name hourly (mkTimestamp k (Some "UTC")));
                PrintDownloadFailed (mkTimestamp k (Some "UTC")) (status_code resp)].
    split_and!; [now rewrite app_nil_r|constructor| |reflexivity].
    cbn. now rewrite <- app_assoc.
Qed.

(** The outer loop. *)

Lemma process_groups_inv var_name hourly zone groups new_rows w out w' :
  process_groups var_name hourly zone groups new_rows w = (Ok out, w') →
  ∃ added prints,
    out = new_rows ++ added
    ∧ Forall (λ r, ∃ group, group ∈ groups
                  ∧ from_group var_name (mkTimestamp (fst group) zone)
                               (snd group) r) added
    ∧ w_log w' = w_log w ++ prints
    ∧ forallb is_print prints = true.
Proof.
  revert new_rows w. induction groups as [|group groups IH]; intros new_rows w.
  - cbn. intros [= <- <-]. exists [], [].
    split_and!; [now rewrite app_nil_r|constructor|now rewrite app_nil_r|reflexivity].
  - cbn [process_groups]. unfold mbind at 1, io_bind at 1.
    destruct (process_group var_name hourly zone new_rows group w)
      as [[rows1|e] w1] eqn:E1; [|discriminate].
    intros E2.
    apply process_group_inv in E1 as (added1 & prints1 & -> & Hadd1 & Hlog1 & Hp1).
    apply IH in E2 as (added2 & prints2 & -> & Hadd2 & Hlog2 & Hp2).
    exists (added1 ++ added2), (prints1 ++ prints2).
    split_and!.
    + now rewrite app_assoc.
    + apply Forall_app. split.
      * eapply Forall_impl; [exact Hadd1|]. intros r Hr. exists group.
        split; [left|exact Hr].
      * eapply Forall_impl; [exact Hadd2|]. intros r (g & Hg & Hr).
        exists g. split; [now right|exact Hr].
    + rewrite Hlog2, Hlog1, app_assoc. reflexivity.
    + rewrite forallb_app, Hp1, Hp2. reflexivity.
Qed.

Lemma group_ok_mono seen seen' group :
  (∀ r, r ∈ seen → r ∈ seen') → group_ok seen group → group_ok seen' group.
Proof.
  intros Hsub [Hne Hall]. split; [exact Hne|].
  intros r Hr. destruct (Hall r Hr). auto.
Qed.

Lemma insert_row_ok seen r groups :
  Forall (group_ok seen) groups →
  Forall (group_ok (seen ++ [r])) (insert_row r groups).
Proof.
  assert (Hsub : ∀ x, x ∈ seen → x ∈ seen ++ [r])
    by (intros x Hx; apply elem_of_app; now left).
  assert (Hr : r ∈ seen ++ [r])
    by (apply elem_of_app; right; apply list_elem_of_singleton; reflexivity).
  assert (Hnew : group_ok (seen ++ [r]) (time r, [r])).
  { split; [discriminate|]. cbn. intros x Hx.
    apply list_elem_of_singleton in Hx. subst x. now split. }
  induction 1 as [|[k rs] groups Hg Hgs IH]; cbn [insert_row].
  - constructor; [exact Hnew|constructor].
  - destruct (Z.ltb_spec (time r) k).
    + constructor; [exact Hnew|]. constructor.
      * eapply group_ok_mono; eauto.
      * eapply Forall_impl; [exact Hgs|]. intros g. now apply group_ok_mono.
    + destruct (Z.eqb_spec (time r) k) as [Heq|Hne].
      * constructor.
        -- destruct Hg as [Hne Hall]. split.
           ++ cbn. destruct rs; discriminate.
           ++ cbn. intros x Hx. apply elem_of_app in Hx as [Hx|Hx].
              ** destruct (Hall x Hx). auto.
              ** apply list_elem_of_singleton in Hx. subst x. now split.
        -- eapply Forall_impl; [exact Hgs|]. intros g. now apply group_ok_mono.
      * constructor; [eapply group_ok_mono; eauto|exact IH].
Qed.

Lemma groupby_time_ok rs :
  Forall (group_ok rs) (groupby_time rs).
Proof.
  unfold groupby_time.
  assert (Hgen : ∀ todo seen groups,
             Forall (group_ok seen) groups →
             Forall (group_ok (seen ++ todo))
               (fold_left (λ gs r, insert_row r gs) todo groups)).
  { induction todo as [|r todo IH]; intros seen groups Hg; cbn.
    - now rewrite app_nil_r.
    - specialize (IH (seen ++ [r]) _ (insert_row_ok seen r groups Hg)).
      now rewrite <- app_assoc in IH. }
  exact (Hgen rs [] [] (List.Forall_nil _)).
Qed.

Lemma groupby_time_pair a b :
  time a = time b → groupby_time [a; b] = [(time a, [a; b])].
Proof.
  intros Hab. unfold groupby_time. cbn.
  rewrite <- Hab, Z.ltb_irrefl, Z.eqb_refl. reflexivity.
Qed.

Lemma files_written_prints n w prints :
  forallb is_print prints = true →
  files_written (mkWorld n (w_log w ++ prints)) = files_written w.
Proof.
  intros Hp. unfold files_written. cbn [w_log].
  rewrite List.filter_app.
  assert (List.filter is_write prints = []) as ->; [|apply app_nil_r].
  induction prints as [|ev prints IH]; [reflexivity|].
  cbn in Hp |- *. apply andb_true_iff in Hp as [Hev Hp].
  unfold is_print in Hev. apply negb_true_iff in Hev. rewrite Hev. auto.
Qed.

(** Every download of the groups answers with a status other than 200. *)
Lemma process_groups_all_skipped var_name hourly zone groups new_rows w :
  (∀ group n, group ∈ groups →
     ∃ resp n',
       requests_get (url_of var_name hourly (mkTimestamp (fst group) (Some "UTC")))
                    None n = (Ok resp, n')
       ∧ status_code resp ≠ 200) →
  ∃ w', process_groups var_name hourly (Some zone) groups new_rows w
        = (Ok new_rows, w')
        ∧ files_written w' = files_written w.
Proof.
  revert w. induction groups as [|[k swot_df] groups IH]; intros w Hfail.
  - exists w. split; reflexivity.
  - destruct (Hfail (k, swot_df) (w_net w)) as (resp & n' & Hget & Hstatus);
      [left|].
    cbn [process_groups]. unfold mbind at 1, io_bind at 1.
    cbn [fst] in Hget.
    rewrite (process_group_skip var_name hourly zone new_rows k swot_df w
               resp n' Hget Hstatus).
    destruct (IH (mkWorld n' (w_log w ++
                [PrintUrl (url_of var_name hourly (mkTimestamp k (Some "UTC")));
                 PrintDownloadFailed (mkTimestamp k (Some "UTC")) (status_code resp)])))
      as (w' & Hrun & Hfiles).
    { intros group n Hin. apply Hfail. now right. }
    exists w'. split; [exact Hrun|].
    rewrite Hfiles. now apply files_written_prints.
Qed.

End RunFacts.

Section DownloadClaims.
Import Download.
Context `{Libs}.

(** C4, as amended: every row of a group is sampled at its latitude and
    at the float [lon % 360].  For every finite longitude this is a
    finite float of [0, 360], 360.0 included.  For a finite longitude
    that is not negative, it is the exact reduction into [0, 360).  For a
    finite negative longitude, the C remainder [md] is exact, lies in
    (-360, 0] and differs from the longitude by a whole number of turns;
    the longitude passed on is [+0.0] when [md] is zero and otherwise the
    float sum [md + 360.0], rounded to nearest.  A longitude of -10 is
    sampled at 350. *)
Theorem sample_longitude_mod_360
    (name : string) (g : grid) (rest : list (string * grid))
    (var_name : string) (dt : Timestamp) (swot_df : list ts_row)
    (new_rows : list out_row) :
  sample_rows ((name, g) :: rest) var_name dt swot_df new_rows
  = Ok (new_rows
        ++ map (λ row, one_row_frame var_name (node_id row) dt
                         (interp_nearest g (lat row) (py_mod (lon row) 360)))
               swot_df)
  ∧ (∀ s, py_mod (S754_zero s) 360 = S754_zero false)
  ∧ (∀ s m e, ∃ q, float_value (py_mod (S754_finite s m e) 360) = Some q
                   ∧ (0 <= q)%Q ∧ (q <= 360)%Q)
  ∧ (∀ m e, reduced_mod_360 (S754_finite false m e)
                            (py_mod (S754_finite false m e) 360))
  ∧ (∀ m e,
       let longitude := S754_finite true m e in
       let md := fmod longitude (float_of_int 360) in
       ∃ qx qm k,
         float_value longitude = Some qx ∧ float_value md = Some qm
         ∧ (- (360) < qm)%Q ∧ (qm <= 0)%Q
         ∧ (qx == qm + inject_Z (360 * k))%Q
         ∧ py_mod longitude 360
           = if is_zero md then S754_zero false
             else SFadd prec emax md (float_of_int 360))
  ∧ py_mod (float_of_int (-10)) 360 = float_of_int 350.
Proof.
  split_and!.
  - apply sample_rows_first.
  - intros s. reflexivity.
  - apply py_mod_360_range.
  - apply py_mod_360_nonneg.
  - apply py_mod_360_neg.
  - reflexivity.
Qed.

(** C1: two rows that share the timestamp 2021-06-01T13:05:00Z and a
    successful download of the grid of that bucket give exactly two
    output rows, in the order of the input; both carry the timestamp
    2021-06-01T13:05:00Z and each holds the value sampled at the
    (lat, lon) of its own row. *)
Theorem download_mrms_two_rows
    (n1 n2 : Z) (lat1 lon1 lat2 lon2 : float64) (var_name : string)
    (precip_path : path) (hourly : bool) (w : world)
    (resp : response) (n' : net) (grib_bytes : list Byte.byte)
    (name : string) (g : grid) (rest : list (string * grid))
    (fname : string) :
  var_name ≠ "time" →
  requests_get (url_of var_name hourly (mkTimestamp scenario_time (Some "UTC")))
               None (w_net w) = (Ok resp, n') →
  status_code resp = 200 →
  gunzip (content resp) = Ok grib_bytes →
  open_dataset grib_bytes = Ok ((name, g) :: rest) →
  format_var_name (p_name precip_path) var_name = Ok fname →
  ∃ r1 r2,
    download_mrms (mkFrame (Some "UTC")
                     [mkRow n1 lat1 lon1 scenario_time;
                      mkRow n2 lat2 lon2 scenario_time])
                  var_name precip_path hourly w
    = (Ok tt,
       mkWorld n'
         (w_log w
          ++ [PrintUrl (url_of var_name hourly
                          (mkTimestamp scenario_time (Some "UTC")));
              ToCsv (p_parent precip_path) fname [r1; r2]]))
    ∧ dict_get "time" r1 = Some (CTime (mkTimestamp scenario_time (Some "UTC")))
    ∧ dict_get "time" r2 = Some (CTime (mkTimestamp scenario_time (Some "UTC")))
    ∧ dict_get var_name r1
      = Some (CSample (interp_nearest g lat1 (py_mod lon1 360)))
    ∧ dict_get var_name r2
      = Some (CSample (interp_nearest g lat2 (py_mod lon2 360)))
    ∧ (let dt := mkTimestamp scenario_time (Some "UTC") in
       (ts_year dt, ts_month dt, ts_day dt, ts_hour dt, ts_minute dt)
       = (2021, 6, 1, 13, 5)
       ∧ value dt mod (60 * ns_per_second) = 0).
Proof.
  intros Hvar Hget Hstatus Hgz Hds Hfmt.
  set (dt := mkTimestamp scenario_time (Some "UTC")).
  set (a := mkRow n1 lat1 lon1 scenario_time).
  set (b := mkRow n2 lat2 lon2 scenario_time).
  exists (sampled g var_name dt a), (sampled g var_name dt b).
  split_and!.
  - unfold download_mrms. cbn [rows time_tz].
    rewrite (groupby_time_pair a b eq_refl).
    change (time a) with scenario_time.
    cbn [process_groups]. unfold mbind, mret, io_bind, io_ret.
    rewrite (process_group_sampled var_name hourly "UTC" [] scenario_time
               [a; b] w resp n' grib_bytes name g rest Hget Hstatus Hgz Hds).
    unfold lift, emit. cbn.
    rewrite Hfmt. cbn. rewrite <- app_assoc. reflexivity.
  - now apply one_row_frame_time.
  - now apply one_row_frame_time.
  - apply one_row_frame_sample.
  - apply one_row_frame_sample.
  - split; reflexivity.
Qed.

(** C5: when the service answers with a status other than 200, or when
    anything raises inside the [try] block (the request, the decoding of
    the body, the parsing of the table), [fetch_hydrocron] returns
    [None] and raises nothing. *)
Theorem fetch_hydrocron_returns_none
    (info : gmap string string) (node : string)
    (start_time end_time : string) (fields : list string) (w : world) :
  info !! "node_id" = Some node →
  (∃ resp n',
      requests_get (hydrocron_url node start_time end_time fields)
                   (Some 10) (w_net w) = (Ok resp, n')
      ∧ status_code resp ≠ 200)
  ∨ (∃ e, fst (fetch_body node start_time end_time fields w) = Raise e) →
  fst (fetch_hydrocron info start_time end_time fields w) = Ok None.
Proof.
  intros Hnode Hcase. unfold fetch_hydrocron, info_node_id. rewrite Hnode.
  unfold mbind at 1, io_bind at 1, lift at 1. unfold try_except.
  destruct Hcase as [(resp & n' & Hget & Hstatus)|[e He]].
  - unfold fetch_body, mbind, mret, io_bind, io_ret, lift, emit, http_get.
    rewrite Hget.
    destruct (Z.eqb_spec (status_code resp) 200) as [?|_]; [contradiction|].
    cbn. destruct (json_loads (content resp)) as [body|e]; [|reflexivity].
    destruct (json_get body "error") as [error|e]; reflexivity.
  - destruct (fetch_body node start_time end_time fields w) as [[r|e'] w1];
      cbn in He; [discriminate|]. reflexivity.
Qed.


(** C9: when no row is accumulated, because the table is empty or
    because every download answers with a status other than 200, the
    concatenation raises [ValueError] and no file is written. *)
Theorem no_rows_raises
    (ts_df : ts_frame) (var_name : string) (precip_path : path)
    (hourly : bool) (w : world) :
  rows ts_df = []
  ∨ ((∃ zone, time_tz ts_df = Some zone)
     ∧ ∀ row n, row ∈ rows ts_df →
         ∃ resp n',
           requests_get (url_of var_name hourly
                           (mkTimestamp (time row) (Some "UTC")))
                        None n = (Ok resp, n')
           ∧ status_code resp ≠ 200) →
  ∃ w',
    process_groups var_name hourly (time_tz ts_df)
                   (groupby_time (rows ts_df)) [] w = (Ok [], w')
    ∧ download_mrms ts_df var_name precip_path hourly w
      = (Raise (ValueError "No objects to concatenate"), w')
    ∧ files_written w' = files_written w.
Proof.
  intros Hcase.
  assert (Hloop : ∃ w',
             process_groups var_name hourly (time_tz ts_df)
               (groupby_time (rows ts_df)) [] w = (Ok [], w')
             ∧ files_written w' = files_written w).
  { destruct Hcase as [Hempty|[[zone Hzone] Hfail]].
    - rewrite Hempty. exists w. split; reflexivity.
    - rewrite Hzone. apply process_groups_all_skipped.
      intros [k swot_df] n Hgroup.
      pose proof (groupby_time_ok (rows ts_df)) as Hok.
      rewrite Forall_forall in Hok.
      destruct (Hok _ Hgroup) as [Hne Hall]. cbn [fst snd] in *.
      destruct swot_df as [|row swot_df]; [contradiction|].
      destruct (Hall row ltac:(left)) as [Hin <-].
      now apply Hfail. }
  destruct Hloop as (w' & Hrun & Hfiles).
  exists w'. split_and!; [exact Hrun| |exact Hfiles].
  unfold download_mrms. unfold mbind at 1, io_bind at 1.
  rewrite Hrun. reflexivity.
Qed.

End DownloadClaims.

(** * Runs on the concrete network *)

Section Runs.
Import Download Demo.

Lemma served_request :
  requests_get (url_of "PrecipRate" false (mkTimestamp scenario_time (Some "UTC")))
               None (w_net w0)
  = (Ok (mkResponse 200 [Byte.x1f; Byte.x8b]), 1%nat).
Proof. reflexivity. Qed.

Lemma missed_request (n : nat) :
  requests_get (url_of "PrecipRate" false (mkTimestamp t_1431 (Some "UTC")))
               None n
  = (Ok (mkResponse 404 []), S n).
Proof. reflexivity. Qed.

Lemma download_mrms_two_rows_witness :
  fst (download_mrms two_rows "PrecipRate" out_path false w0) = Ok tt
  ∧ List.length (files_written
                   (snd (download_mrms two_rows "PrecipRate" out_path false w0)))
    = 1%nat.
Proof.
  destruct (download_mrms_two_rows
              71224500010011 71224500010021 (float_of_decimal 402 1)
              (float_of_decimal (-1053) 1) (float_of_int 35) (float_of_int (-10))
              "PrecipRate" out_path false w0
              (mkResponse 200 [Byte.x1f; Byte.x8b]) 1%nat [Byte.x1f; Byte.x8b]
              "unknown" the_grid [] "mrms_PrecipRate.csv"
              ltac:(discriminate) served_request eq_refl eq_refl eq_refl eq_refl)
    as (r1 & r2 & Hrun & _).
  unfold two_rows, row_a, row_b, t_1305. rewrite Hrun. split; reflexivity.
Defined.

(** C2 as the specification states it fails: the table written for two
    rows stamped 13:05 holds a record stamped 13:05, and the floor of
    every source timestamp to the two-minute resolution is 13:04. *)
Lemma record_time_not_floored :
  ∃ precip_df,
    files_written (snd (download_mrms two_rows "PrecipRate" out_path false w0))
    = [ToCsv "data" "mrms_PrecipRate.csv" precip_df]
    ∧ ¬ record_time_is_floor two_rows false precip_df.
Proof.
  exists (map (@sampled demo_libs the_grid "PrecipRate"
                 (mkTimestamp scenario_time (Some "UTC")))
              [row_a; row_b]).
  split; [reflexivity|].
  intros Hfloor.
  destruct (Hfloor _ (mkTimestamp scenario_time (Some "UTC"))
              (list_elem_of_here _ _) eq_refl) as (row & Hrow & Heq).
  apply (f_equal value) in Heq. cbn [value ts_floor] in Heq.
  assert (Htime : time row = scenario_time).
  { apply elem_of_cons in Hrow as [->|Hrow]; [reflexivity|].
    apply list_elem_of_singleton in Hrow. subst row. reflexivity. }
  rewrite Htime in Heq. vm_compute in Heq. discriminate.
Qed.

(** C4 as the specification states it fails: the row at longitude
    -1e-20 is sampled at longitude 360.0, which is not a number of
    [0, 360). *)
Lemma longitude_sampled_at_360 :
  sample_row [("unknown", the_grid)] "PrecipRate"
    (mkTimestamp t_1305 (Some "UTC")) row_d
  = Ok (one_row_frame "PrecipRate" (node_id row_d)
          (mkTimestamp t_1305 (Some "UTC"))
          (interp_nearest the_grid (lat row_d) (float_of_int 360)))
  ∧ py_mod (lon row_d) 360 = float_of_int 360
  ∧ ¬ reduced_mod_360 (lon row_d) (py_mod (lon row_d) 360).
Proof.
  split_and!; [reflexivity|reflexivity|].
  intros (qx & qr & k & _ & Hqr & _ & Hlt & _).
  vm_compute in Hqr. injection Hqr as <-.
  vm_compute in Hlt. discriminate Hlt.
Qed.

Lemma fetch_hydrocron_returns_none_witness :
  fst (fetch_hydrocron demo_info "2024-01-01T00:00:00Z" "2024-02-01T00:00:00Z"
         ["wse"; "width"] w0) = Ok None
  ∧ fst (fetch_hydrocron demo_info "2024-01-01T00:00:00Z" "2024-02-01T00:00:00Z"
           ["wse"; "width"] (mkWorld (1%nat : net) [])) = Ok None.
Proof.
  split.
  - apply (fetch_hydrocron_returns_none demo_info "71224500010011");
      [reflexivity|].
    left. exists (mkResponse 404 error_document), 1%nat.
    split; [reflexivity|discriminate].
  - apply (fetch_hydrocron_returns_none demo_info "71224500010011");
      [reflexivity|].
    right. exists (LibraryError "ConnectionError"). reflexivity.
Defined.


Lemma no_rows_raises_witness :
  fst (download_mrms missed_row "PrecipRate" out_path false w0)
  = Raise (ValueError "No objects to concatenate")
  ∧ fst (download_mrms (mkFrame None []) "PrecipRate" out_path false w0)
    = Raise (ValueError "No objects to concatenate").
Proof.
  split.
  - destruct (no_rows_raises missed_row "PrecipRate" out_path false w0)
      as (w' & _ & Hrun & _).
    + right. split; [exists "UTC"; reflexivity|].
      intros row n Hrow. apply list_elem_of_singleton in Hrow. subst row.
      exists (mkResponse 404 []), (S n).
      split; [apply missed_request|discriminate].
    + rewrite Hrun. reflexivity.
  - destruct (no_rows_raises (mkFrame None []) "PrecipRate" out_path false w0)
      as (w' & _ & Hrun & _).
    + left. reflexivity.
    + rewrite Hrun. reflexivity.
Defined.

Lemma plot_heatmap_masks_negative_witness :
  ∃ pivot,
    @Plot.heatmap_frame demo_plot_libs daily_wse "wse" = Ok pivot
    ∧ Plot.f_index pivot = [18779; 18781]
    ∧ ∃ row', Plot.f_values pivot !! 0%nat = Some row'
              ∧ row' !! 1%nat = Some Plot.FNaN.
Proof.
  destruct (@plot_heatmap_masks_negative demo_plot_libs daily_wse "wse"
              "viridis" [] daily_wse eq_refl)
    as (pivot & Hframe & _ & _ & Hindex & _ & _ & Hentries).
  exists pivot. split_and!; [exact Hframe|exact Hindex|].
  destruct (Hentries 0%nat 1%nat
              [Plot.FNum (1523 # 10); Plot.FNum (-999999999999 # 1)]
              (Plot.FNum (-999999999999 # 1)) eq_refl eq_refl)
    as (row' & v' & Hrow' & _ & Hv' & Hneg & _).
  exists row'. split; [exact Hrow'|].
  rewrite Hv', (Hneg eq_refl). reflexivity.
Defined.
End Runs.

(** * More on utilities.py *)

Section MoreUtilities.
Import Utilities.

Lemma flagged_cons (bitmask b : Z) (bits : list Z) :
  flagged bitmask (b :: bits)
  = (y ← flag bitmask b; k ← flagged bitmask bits; mret (y :: k)).
Proof. reflexivity. Qed.

Lemma find_negative (bits : list Z) :
  match List.find (λ b, b <? 0) bits with
  | Some b => ∃ done rest, bits = done ++ b :: rest
                           ∧ Forall (λ b, 0 ≤ b) done ∧ b < 0
  | None => Forall (λ b, 0 ≤ b) bits
  end.
Proof.
  induction bits as [|b bits IH]; cbn [List.find]; [constructor|].
  destruct (Z.ltb_spec b 0) as [Hneg|Hpos].
  - exists [], bits. split_and!; [reflexivity|constructor|exact Hneg].
  - destruct (List.find (λ b, b <? 0) bits) as [b'|].
    + destruct IH as (done & rest & -> & Hdone & Hb').
      exists (b :: done), rest. split_and!; [reflexivity| |exact Hb'].
      now constructor.
    + now constructor.
Qed.

Lemma find_negative_first (done : list Z) (b : Z) (rest : list Z) :
  Forall (λ b, 0 ≤ b) done → b < 0 →
  List.find (λ b, b <? 0) (done ++ b :: rest) = Some b.
Proof.
  intros Hdone Hb. induction Hdone as [|b0 done Hb0 _ IH]; cbn [app List.find].
  - destruct (Z.ltb_spec b 0); [reflexivity|lia].
  - destruct (Z.ltb_spec b0 0); [lia|exact IH].
Qed.

Lemma find_negative_none (bits : list Z) :
  Forall (λ b, 0 ≤ b) bits → List.find (λ b, b <? 0) bits = None.
Proof.
  induction 1 as [|b bits Hb _ IH]; cbn [List.find]; [reflexivity|].
  destruct (Z.ltb_spec b 0); [lia|exact IH].
Qed.

Lemma flagged_cases (bitmask : Z) (bits : list Z) :
  flagged bitmask bits
  = match List.find (λ b, b <? 0) bits with
    | Some b =>
        Raise (if b <=? - float_overflow then OverflowError else TypeError)
    | None => Ok (map (Z.testbit bitmask) bits)
    end.
Proof.
  induction bits as [|b bits IH]; [reflexivity|].
  rewrite flagged_cons, IH. cbn [List.find map].
  destruct (Z.ltb_spec b 0) as [Hneg|Hpos].
  - unfold flag. destruct (Z.ltb_spec b 0); [|lia].
    destruct (b <=? - float_overflow); reflexivity.
  - rewrite flag_testbit by exact Hpos.
    destruct (List.find _ bits); reflexivity.
Qed.

Lemma filter_bits_cases (bitmask : Z) (bits : list Z) :
  filter_bits bitmask bits
  = match List.find (λ b, b <? 0) bits with
    | Some b =>
        Raise (if b <=? - float_overflow then OverflowError else TypeError)
    | None => Ok (forallb (λ b, negb (Z.testbit bitmask b)) bits)
    end.
Proof.
  unfold filter_bits. rewrite flagged_cases.
  destruct (List.find _ bits); [reflexivity|].
  change (Ok (negb (any (map (Z.testbit bitmask) bits)))
          = Ok (forallb (λ b, negb (Z.testbit bitmask b)) bits)).
  f_equal.
  unfold any. induction bits as [|b bits IH]; [reflexivity|].
  cbn. rewrite <- IH. now destruct (Z.testbit bitmask b).
Qed.

Example filter_bits_error_order :
  filter_bits 5 [3; -1; - 10 ^ 400] = Raise TypeError
  ∧ filter_bits 5 [3; - 10 ^ 400; -1] = Raise OverflowError
  ∧ filter_bits 5 [- float_overflow] = Raise OverflowError
  ∧ filter_bits 5 [- float_overflow + 1] = Raise TypeError.
Proof. split_and!; reflexivity. Qed.

(** X1: [filter_bits] returns exactly when no listed position is
    negative, whatever the bitmask is.  When it raises, the exception is
    that of the first negative position of the list: [OverflowError] when
    its magnitude is too large for a float, [TypeError] otherwise. *)
Theorem filter_bits_raises (bitmask : Z) (bits_to_check : list Z) :
  (is_ok (filter_bits bitmask bits_to_check) = true
   ↔ Forall (λ b, 0 ≤ b) bits_to_check)
  ∧ ∀ e, filter_bits bitmask bits_to_check = Raise e
      ↔ ∃ done b rest,
          bits_to_check = done ++ b :: rest
          ∧ Forall (λ b, 0 ≤ b) done ∧ b < 0
          ∧ e = (if b <=? - float_overflow then OverflowError else TypeError).
Proof.
  rewrite filter_bits_cases.
  pose proof (find_negative bits_to_check) as Hfind.
  destruct (List.find (λ b, b <? 0) bits_to_check) as [b|] eqn:E.
  - destruct Hfind as (done & rest & Hbits & Hdone & Hb).
    split; split.
    + discriminate.
    + intros Hall. rewrite Hbits in Hall.
      apply Forall_app in Hall as [_ Hall].
      apply Forall_cons in Hall as [Hb0 _]. lia.
    + intros [= <-]. exists done, b, rest. now split_and!.
    + intros (done' & b' & rest' & Hbits' & Hdone' & Hb' & ->).
      rewrite Hbits', (find_negative_first done' b' rest' Hdone' Hb') in E.
      now injection E as ->.
  - split; split.
    + intros _. exact Hfind.
    + reflexivity.
    + discriminate.
    + intros (done' & b' & rest' & Hbits' & Hdone' & Hb' & _).
      rewrite Hbits', (find_negative_first done' b' rest' Hdone' Hb') in E.
      discriminate.
Qed.

(** X2: two lists with the same members, in any order and with any
    repetition, give the same outcome: both calls return the same boolean
    or both raise.  They raise the same exception when no position is so
    far below zero that its conversion to a float overflows. *)
Theorem filter_bits_same_positions (bitmask : Z) (bits1 bits2 : list Z) :
  (∀ b, b ∈ bits1 ↔ b ∈ bits2) →
  (∀ r, filter_bits bitmask bits1 = Ok r ↔ filter_bits bitmask bits2 = Ok r)
  ∧ is_ok (filter_bits bitmask bits1) = is_ok (filter_bits bitmask bits2)
  ∧ ((∀ b, b ∈ bits1 → - float_overflow < b) →
     filter_bits bitmask bits1 = filter_bits bitmask bits2).
Proof.
  intros Hsame. rewrite !filter_bits_cases.
  assert (Hneg : ∀ l b0, List.find (λ b, b <? 0) l = Some b0 → b0 ∈ l ∧ b0 < 0).
  { intros l b0 E. apply find_some in E as [Hin Hb].
    split; [now apply list_elem_of_In|now apply Z.ltb_lt]. }
  assert (Hpos : ∀ l l', (∀ b, b ∈ l ↔ b ∈ l') →
             List.find (λ b, b <? 0) l = None →
             List.find (λ b, b <? 0) l' = None).
  { intros l l' Hll E. apply find_negative_none, Forall_forall.
    intros b Hb. apply Hll in Hb.
    pose proof (find_negative l) as Hfind. rewrite E in Hfind.
    rewrite Forall_forall in Hfind. now apply Hfind. }
  destruct (List.find (λ b, b <? 0) bits1) as [b1|] eqn:E1;
    destruct (List.find (λ b, b <? 0) bits2) as [b2|] eqn:E2.
  - split_and!; [split; discriminate|reflexivity|].
    intros Hbound. destruct (Hneg _ _ E1) as [Hin1 _].
    destruct (Hneg _ _ E2) as [Hin2 _]. apply Hsame in Hin2.
    apply Hbound in Hin1. apply Hbound in Hin2.
    destruct (Z.leb_spec b1 (- float_overflow)); [lia|].
    destruct (Z.leb_spec b2 (- float_overflow)); [lia|reflexivity].
  - rewrite (Hpos bits2 bits1) in E1; [discriminate| |exact E2].
    intros b. symmetry. apply Hsame.
  - rewrite (Hpos bits1 bits2 Hsame E1) in E2. discriminate.
  - assert (Heq : forallb (λ b, negb (Z.testbit bitmask b)) bits1
                  = forallb (λ b, negb (Z.testbit bitmask b)) bits2).
    { apply eq_true_iff_eq. rewrite !forallb_forall.
      split; intros Hall b Hin; apply Hall;
        apply list_elem_of_In, Hsame, list_elem_of_In, Hin. }
    rewrite Heq. split_and!; [reflexivity|reflexivity|reflexivity].
Qed.

Lemma filter_bits_same_positions_witness :
  filter_bits 8192 [14; 13; 14] = filter_bits 8192 [13; 14]
  ∧ is_ok (filter_bits 8192 [-1; - 10 ^ 400; 3])
    = is_ok (filter_bits 8192 [3; - 10 ^ 400; -1; 3]).
Proof.
  split.
  - apply filter_bits_same_positions.
    + intros b. rewrite !elem_of_cons, !elem_of_nil. tauto.
    + intros b. rewrite !elem_of_cons, elem_of_nil.
      unfold float_overflow.
      assert (0 < 2 ^ 1024 - 2 ^ 970) by (vm_compute; reflexivity).
      intros [->|[->|[->|[]]]]; lia.
  - apply filter_bits_same_positions.
    intros b. rewrite !elem_of_cons, !elem_of_nil. tauto.
Defined.

Lemma land_mask_zero (bitmask : Z) (bits : list Z) :
  Forall (λ b, 0 ≤ b) bits →
  Z.land bitmask (bits_mask bits) = 0
  ↔ Forall (λ b, Z.testbit bitmask b = false) bits.
Proof.
  induction 1 as [|b bits Hb _ IH]; cbn [bits_mask fold_right].
  - rewrite Z.land_0_r. split; [constructor|reflexivity].
  - fold (bits_mask bits).
    rewrite Z.land_lor_distr_r, Z.lor_eq_0_iff, IH, land_pow2_zero by exact Hb.
    split; [intros [? ?]; now constructor|inversion 1; now split].
Qed.

(** X3: for non-negative positions, [filter_bits] is one mask test: it
    returns true exactly when the bitmask and the mask of the listed bits
    have no bit in common. *)
Theorem filter_bits_mask (bitmask : Z) (bits_to_check : list Z) :
  Forall (λ b, 0 ≤ b) bits_to_check →
  filter_bits bitmask bits_to_check
  = Ok (Z.land bitmask (bits_mask bits_to_check) =? 0).
Proof.
  intros Hpos. rewrite filter_bits_cases, (find_negative_none _ Hpos).
  f_equal. apply eq_true_iff_eq.
  rewrite Z.eqb_eq, (land_mask_zero bitmask bits_to_check Hpos),
    forallb_forall, Forall_forall.
  split; intros Hall b Hin.
  - apply negb_true_iff, Hall. now apply list_elem_of_In.
  - apply negb_true_iff, Hall. now apply list_elem_of_In.
Qed.

Lemma filter_bits_mask_witness :
  Forall (λ b, 0 ≤ b) default_bits
  ∧ bits_mask default_bits = 24576
  ∧ filter_bits 24577 default_bits = Ok (Z.land 24577 24576 =? 0).
Proof.
  assert (Hpos : Forall (λ b, 0 ≤ b) default_bits) by (repeat constructor; lia).
  split; [exact Hpos|]. split; [reflexivity|].
  exact (filter_bits_mask 24577 default_bits Hpos).
Defined.

End MoreUtilities.

(** * More on plot.py *)

Section MorePlot.
Import Plot.
Context `{PlotLibs}.

Lemma dropna_rows_combine (idx : list Z) (vals : list (list fval)) :
  length (fst (dropna_rows idx vals)) = length (snd (dropna_rows idx vals))
  ∧ combine (fst (dropna_rows idx vals)) (snd (dropna_rows idx vals))
    = List.filter (λ ir, has_value (snd ir)) (combine idx vals).
Proof.
  revert vals. induction idx as [|i idx IH]; intros [|r vals];
    cbn [dropna_rows combine List.filter fst snd]; try (split; reflexivity).
  destruct (IH vals) as [Hlen Hcomb]. unfold has_value at 1. cbn [snd].
  destruct (forallb fval_isnan r); cbn [negb fst snd].
  - split; assumption.
  - cbn [length combine]. split; [now rewrite Hlen|now rewrite Hcomb].
Qed.

Lemma dropna_rows_sub (idx : list Z) (vals : list (list fval)) :
  Forall (λ row, row ∈ vals ∧ has_value row = true) (snd (dropna_rows idx vals)).
Proof.
  revert vals. induction idx as [|i idx IH]; intros [|r vals];
    cbn [dropna_rows snd]; try constructor.
  specialize (IH vals).
  assert (Hrest : Forall (λ row, row ∈ r :: vals ∧ has_value row = true)
                    (snd (dropna_rows idx vals))).
  { eapply Forall_impl; [exact IH|]. intros row [Hin Hv].
    split; [now right|exact Hv]. }
  destruct (forallb fval_isnan r) eqn:E; cbn [snd]; [exact Hrest|].
  constructor; [|exact Hrest].
  split; [left|]. unfold has_value. now rewrite E.
Qed.

Lemma combine_map_snd {A B C} (f : B → C) (l : list A) (l' : list B) :
  combine l (map f l') = map (λ ab, (fst ab, f (snd ab))) (combine l l').
Proof.
  revert l'. induction l as [|a l IH]; intros [|b l']; cbn; try reflexivity.
  now rewrite IH.
Qed.

(** X4: the rows of the rendered frame are the days of the daily-mean
    pivot that hold at least one value, in their order, with the negative
    entries masked: a day is dropped by its unmasked values only, so a day
    whose values are all negative stays, as a row of missing entries. *)
Theorem heatmap_frame_rows
    (hydrocron_df : hydro_table) (column : string) (daily : frame) :
  pivot_daily_mean hydrocron_df column = Ok daily →
  ∃ pivot,
    heatmap_frame hydrocron_df column = Ok pivot
    ∧ f_columns pivot = f_columns daily
    ∧ length (f_index pivot) = length (f_values pivot)
    ∧ combine (f_index pivot) (f_values pivot)
      = map (λ ir, (fst ir, map mask_entry (snd ir)))
          (List.filter (λ ir, has_value (snd ir))
             (combine (f_index daily) (f_values daily))).
Proof.
  intros Hdaily. exists (mask_negative (dropna_all daily)).
  unfold heatmap_frame. rewrite Hdaily.
  destruct (dropna_rows_combine (f_index daily) (f_values daily)) as [Hlen Hcomb].
  split_and!; try reflexivity.
  - cbn. now rewrite length_map.
  - cbn [mask_negative dropna_all f_index f_values].
    rewrite combine_map_snd, Hcomb. reflexivity.
Qed.

Lemma mask_entry_not_negative (v : fval) : ¬ strictly_negative (mask_entry v).
Proof.
  unfold mask_entry. destruct (fval_lt0 v) eqn:E; cbn; [tauto|].
  intros Hneg. apply fval_lt0_spec in Hneg. congruence.
Qed.

Lemma mask_entry_idem (v : fval) : mask_entry (mask_entry v) = mask_entry v.
Proof.
  unfold mask_entry at 2 3. destruct (fval_lt0 v) eqn:E; [reflexivity|].
  unfold mask_entry. now rewrite E.
Qed.

(** X5: no entry of the rendered frame is strictly negative, and masking
    it again changes nothing. *)
Theorem heatmap_frame_not_negative
    (hydrocron_df : hydro_table) (column : string) (pivot : frame) :
  heatmap_frame hydrocron_df column = Ok pivot →
  (∀ row v, row ∈ f_values pivot → v ∈ row → ¬ strictly_negative v)
  ∧ mask_negative pivot = pivot.
Proof.
  unfold heatmap_frame.
  destruct (pivot_daily_mean hydrocron_df column) as [daily|e]; [|discriminate].
  intros [= <-]. split.
  - intros row v Hrow Hv. cbn [mask_negative f_values] in Hrow.
    apply list_elem_of_In, in_map_iff in Hrow as (row0 & <- & _).
    apply list_elem_of_In, in_map_iff in Hv as (v0 & <- & _).
    apply mask_entry_not_negative.
  - unfold mask_negative. cbn [f_index f_columns f_values]. f_equal.
    rewrite List.map_map. apply map_ext. intros row.
    rewrite List.map_map. apply map_ext. intros v. apply mask_entry_idem.
Qed.

Lemma rectangular_dropna (p : frame) : rectangular p → rectangular (dropna_all p).
Proof.
  intros [_ Hrows]. split.
  - apply dropna_rows_combine.
  - cbn [dropna_all f_values f_columns].
    eapply Forall_impl; [apply dropna_rows_sub|].
    intros row [Hin _]. rewrite Forall_forall in Hrows. now apply Hrows.
Qed.

Lemma rectangular_mask (p : frame) : rectangular p → rectangular (mask_negative p).
Proof.
  intros [Hlen Hrows]. split; cbn [mask_negative f_index f_values f_columns].
  - now rewrite length_map.
  - apply Forall_forall. intros row Hrow.
    apply list_elem_of_In, in_map_iff in Hrow as (row0 & <- & Hin).
    rewrite length_map. rewrite Forall_forall in Hrows.
    now apply Hrows, list_elem_of_In.
Qed.

Lemma flip_arange_length (n : nat) : length (flip_arange n) = n.
Proof. unfold flip_arange. now rewrite length_rev, length_map, length_seq. Qed.

Lemma flip_arange_lookup (n j : nat) :
  (j < n)%nat → flip_arange n !! j = Some (Z.of_nat (n - 1 - j)).
Proof.
  intros Hj. unfold flip_arange. rewrite rev_alt.
  change (rev_append ?l []) with (reverse l).
  rewrite reverse_lookup by (rewrite length_map, length_seq; exact Hj).
  rewrite length_map, length_seq.
  change (map ?f ?l) with (f <$> l).
  rewrite list_lookup_fmap, lookup_seq_lt by lia.
  cbn. do 2 f_equal. lia.
Qed.

(** X6: when [plot_heatmap] returns for a rectangular daily frame, the
    figure has received the six calls below, and the mesh and the matrix
    handed to [pcolormesh] agree: [x] holds the date number of every kept
    day, [y] counts down from the number of nodes minus one to zero, the
    matrix has one row per node and one column per kept day, and its
    entry (j, i) is the entry (i, j) of the rendered frame. *)
Theorem plot_heatmap_shape
    (hydrocron_df : hydro_table) (column cmap : string) (fig fig' : list draw)
    (daily : frame) :
  pivot_daily_mean hydrocron_df column = Ok daily →
  rectangular daily →
  plot_heatmap hydrocron_df column fig cmap = Ok fig' →
  ∃ pivot x y c,
    heatmap_frame hydrocron_df column = Ok pivot
    ∧ fig' = fig ++ [Sca; Pcolormesh x y c cmap; XaxisDate;
                     SetMajorFormatter "%Y-%m"; AutofmtXdate; Colorbar]
    ∧ x = map date2num (f_index pivot)
    ∧ y = rev (map Z.of_nat (seq 0 (length (f_columns daily))))
    ∧ (∀ j, (j < length (f_columns daily))%nat →
         y !! j = Some (Z.of_nat (length (f_columns daily) - 1 - j)))
    ∧ length x = length (f_index pivot)
    ∧ length y = length (f_columns daily)
    ∧ length c = length y
    ∧ Forall (λ col, length col = length x) c
    ∧ ∀ i j, (i < length x)%nat → (j < length y)%nat →
        ∃ row col v, f_values pivot !! i = Some row ∧ row !! j = Some v
                     ∧ c !! j = Some col ∧ col !! i = Some v.
Proof.
  intros Hdaily Hrect Hrun.
  pose proof (rectangular_mask _ (rectangular_dropna _ Hrect)) as [Hlen Hrows].
  set (pivot := mask_negative (dropna_all daily)) in *.
  exists pivot, (map date2num (f_index pivot)),
    (flip_arange (length (f_columns pivot))), (transpose_values pivot).
  assert (Hframe : heatmap_frame hydrocron_df column = Ok pivot)
    by (unfold heatmap_frame; now rewrite Hdaily).
  split_and!.
  - exact Hframe.
  - unfold plot_heatmap in Hrun. rewrite Hframe in Hrun.
    exact (call_all_ok
             [Sca;
              Pcolormesh (map date2num (f_index pivot))
                         (flip_arange (length (f_columns pivot)))
                         (transpose_values pivot) cmap;
              XaxisDate; SetMajorFormatter "%Y-%m"; AutofmtXdate; Colorbar]
             fig fig' Hrun).
  - reflexivity.
  - reflexivity.
  - intros j Hj. now apply flip_arange_lookup.
  - apply length_map.
  - apply flip_arange_length.
  - unfold transpose_values. now rewrite length_map, length_seq, flip_arange_length.
  - unfold transpose_values. apply Forall_forall. intros col Hcol.
    apply list_elem_of_In, in_map_iff in Hcol as (j & <- & _).
    now rewrite !length_map.
  - intros i j Hi Hj. rewrite length_map, Hlen in Hi.
    rewrite flip_arange_length in Hj.
    destruct (lookup_lt_is_Some_2 (f_values pivot) i Hi) as [row Hrow].
    assert (Hrowlen : length row = length (f_columns pivot)).
    { rewrite Forall_forall in Hrows. apply Hrows.
      eapply list_elem_of_lookup_2. exact Hrow. }
    destruct (lookup_lt_is_Some_2 row j ltac:(lia)) as [v Hv].
    exists row, (map (λ r, nth j r FNaN) (f_values pivot)), v.
    split_and!; [exact Hrow|exact Hv| |].
    + unfold transpose_values. change (map ?f ?l) with (f <$> l).
      rewrite list_lookup_fmap, lookup_seq_lt by exact Hj. reflexivity.
    + change (map ?f ?l) with (f <$> l).
      rewrite list_lookup_fmap, Hrow. cbn. f_equal.
      now apply nth_lookup_Some with (d := FNaN) in Hv.
Qed.

End MorePlot.

Section MorePlotRuns.
Import Plot Demo.

Lemma heatmap_frame_rows_witness :
  ∃ pivot,
    @heatmap_frame demo_plot_libs Mirror.daily_width "width" = Ok pivot
    ∧ combine (f_index pivot) (f_values pivot)
      = [(19000, [FNaN; FNaN]); (19002, [FNum (3 # 1); FNaN])].
Proof.
  destruct (@heatmap_frame_rows demo_plot_libs Mirror.daily_width "width"
              Mirror.daily_width eq_refl)
    as (pivot & Hframe & _ & _ & Hrows).
  exists pivot. split; [exact Hframe|]. rewrite Hrows. reflexivity.
Defined.

Lemma heatmap_frame_not_negative_witness :
  mask_negative (mask_negative (dropna_all daily_wse))
  = mask_negative (dropna_all daily_wse).
Proof.
  exact (proj2 (@heatmap_frame_not_negative demo_plot_libs daily_wse "wse"
                  (mask_negative (dropna_all daily_wse)) eq_refl)).
Defined.

Lemma daily_wse_rectangular : rectangular daily_wse.
Proof. split; [reflexivity|]. repeat constructor. Qed.

Lemma plot_heatmap_shape_witness :
  ∃ pivot x y c,
    @heatmap_frame demo_plot_libs daily_wse "wse" = Ok pivot
    ∧ @plot_heatmap demo_plot_libs daily_wse "wse" [] "viridis"
      = Ok ([] ++ [Sca; Pcolormesh x y c "viridis"; XaxisDate;
                   SetMajorFormatter "%Y-%m"; AutofmtXdate; Colorbar])
    ∧ y = [1; 0]
    ∧ length c = 2%nat.
Proof.
  destruct (@plot_heatmap_shape demo_plot_libs daily_wse "wse" "viridis" []
              _ daily_wse eq_refl daily_wse_rectangular eq_refl)
    as (pivot & x & y & c & Hframe & Hfig & _ & Hy & _ & _ & _ & Hc & _).
  exists pivot, x, y, c.
  split_and!; [exact Hframe|now rewrite <- Hfig|exact Hy|].
  rewrite Hc, Hy. reflexivity.
Defined.

(** The renderer refuses a frame without any kept day: the call raises
    and the figure is not returned. *)
Example plot_heatmap_no_day :
  @plot_heatmap demo_plot_libs
    (Frame [19000] [71224500010011] [[FNaN]]) "wse" [] "viridis"
  = Raise (ValueError "zero-size array to reduction operation minimum which has no identity").
Proof. reflexivity. Qed.
End MorePlotRuns.

(** * Buckets and URLs *)

Section MoreTimestamps.
Import Download.

Lemma civil_round_trip (days : Z) :
  days_from_civil (fst (fst (civil_from_days days)))
                  (snd (fst (civil_from_days days)))
                  (snd (civil_from_days days)) = days.
Proof.
  unfold civil_from_days. cbn [fst snd].
  set (z := days + 719468).
  set (era := z / 146097).
  set (doe := z - era * 146097).
  set (yoe := (doe - doe / 1460 + doe / 36524 - doe / 146096) / 365).
  set (doy := doe - (365 * yoe + yoe / 4 - yoe / 100)).
  set (mp := (5 * doy + 2) / 153).
  assert (Hdoe : 0 ≤ doe ≤ 146096)
    by (subst doe era; Z.to_euclidean_division_equations; lia).
  assert (Hyoe : 0 ≤ yoe ≤ 399)
    by (subst yoe; Z.to_euclidean_division_equations; lia).
  assert (Hdoy : 0 ≤ doy ≤ 365)
    by (subst doy yoe; Z.to_euclidean_division_equations; lia).
  assert (Hmp : 0 ≤ mp ≤ 11)
    by (subst mp; Z.to_euclidean_division_equations; lia).
  assert (Hq : (yoe + era * 400) / 400 = era)
    by (Z.to_euclidean_division_equations; lia).
  unfold days_from_civil.
  destruct (Z.ltb_spec mp 10).
  - destruct (Z.leb_spec (mp + 3) 2); [lia|].
    destruct (Z.ltb_spec 2 (mp + 3)); [|lia].
    replace (mp + 3 - 3) with mp by lia. rewrite Hq.
    replace (yoe + era * 400 - era * 400) with yoe by lia.
    subst doy z. lia.
  - destruct (Z.leb_spec (mp - 9) 2); [|lia].
    destruct (Z.ltb_spec 2 (mp - 9)); [lia|].
    replace (mp - 9 + 9) with mp by lia.
    replace (yoe + era * 400 + 1 - 1) with (yoe + era * 400) by lia.
    rewrite Hq. replace (yoe + era * 400 - era * 400) with yoe by lia.
    subst doy z. lia.
Qed.

(** The instant of the bucket, rebuilt from the bucketed key. *)
Lemma floor_value (hourly : bool) (t : Timestamp) :
  value t - value t mod resolution_ns hourly
  = (epoch_days (value t) * 86400 + ts_hour t * 3600
     + mrms_minute hourly (ts_minute t) * 60) * ns_per_second.
Proof.
  unfold epoch_days, ts_hour, ts_minute, mrms_minute, second_of_day,
    epoch_seconds, resolution_ns, ns_per_second, seconds_per_day.
  destruct hourly; Z.to_euclidean_division_equations; lia.
Qed.

Lemma digit_char_inj (a b : Z) :
  0 ≤ a < 10 → 0 ≤ b < 10 → digit_char a = digit_char b → a = b.
Proof.
  intros Ha Hb Heq. unfold digit_char in Heq.
  apply (f_equal nat_of_ascii) in Heq.
  rewrite !nat_ascii_embedding in Heq by lia. lia.
Qed.

Lemma string_app_split (a a' b b' : string) :
  String.length a = String.length a' →
  a +:+ b = a' +:+ b' → a = a' ∧ b = b'.
Proof.
  revert a'. induction a as [|c a IH]; intros [|c' a'] Hlen Heq;
    try discriminate.
  - now split.
  - rewrite !string_app_cons in Heq. injection Heq as -> Heq.
    cbn in Hlen. destruct (IH a' ltac:(lia) Heq) as [-> ->]. now split.
Qed.

Lemma fixed_digits_inj (width : nat) (n n' : Z) :
  fixed_digits width n = fixed_digits width n' →
  n mod 10 ^ Z.of_nat width = n' mod 10 ^ Z.of_nat width.
Proof.
  revert n n'. induction width as [|w IH]; intros n n' Heq.
  - now rewrite !Z.mod_1_r.
  - cbn [fixed_digits] in Heq.
    apply string_app_split in Heq as [Hhi Hlo];
      [|now rewrite !fixed_digits_length].
    injection Hlo as Hlo.
    apply digit_char_inj in Hlo; try (apply Z.mod_pos_bound; lia).
    apply IH in Hhi.
    rewrite Nat2Z.inj_succ, Z.pow_succ_r by lia.
    rewrite !(Z.rem_mul_r _ 10 (10 ^ Z.of_nat w))
      by (try apply Z.pow_pos_nonneg; lia).
    now rewrite Hlo, Hhi.
Qed.

Lemma fixed_digits_inj_range (width : nat) (n n' : Z) :
  0 ≤ n < 10 ^ Z.of_nat width → 0 ≤ n' < 10 ^ Z.of_nat width →
  fixed_digits width n = fixed_digits width n' → n = n'.
Proof.
  intros Hn Hn' Heq. apply fixed_digits_inj in Heq.
  now rewrite !Z.mod_small in Heq.
Qed.

Lemma spec_url_key_inj var_name y m d h mi y' m' d' h' mi' :
  0 ≤ y < 10000 → 0 ≤ m < 100 → 0 ≤ d < 100 → 0 ≤ h < 100 → 0 ≤ mi < 100 →
  0 ≤ y' < 10000 → 0 ≤ m' < 100 → 0 ≤ d' < 100 → 0 ≤ h' < 100 →
  0 ≤ mi' < 100 →
  spec_url var_name y m d h mi = spec_url var_name y' m' d' h' mi' →
  (y, m, d, h, mi) = (y', m', d', h', mi').
Proof.
  intros Hy Hm Hd Hh Hmi Hy' Hm' Hd' Hh' Hmi' Heq.
  unfold spec_url in Heq.
  do 3 apply (inj (String.app _)) in Heq.
  apply string_app_split in Heq as [Hdate Heq];
    [|unfold YYYYMMDD; now rewrite !string_app_length, !fixed_digits_length].
  do 3 apply (inj (String.app _)) in Heq.
  apply string_app_split in Heq as [_ Heq];
    [|unfold YYYYMMDD; now rewrite !string_app_length, !fixed_digits_length].
  apply (inj (String.app _)) in Heq.
  apply string_app_split in Heq as [Htime _];
    [|unfold HHMM; now rewrite !string_app_length, !fixed_digits_length].
  unfold YYYYMMDD in Hdate. unfold HHMM in Htime.
  apply string_app_split in Hdate as [Hyear Hdate];
    [|now rewrite !fixed_digits_length].
  apply string_app_split in Hdate as [Hmonth Hday];
    [|now rewrite !fixed_digits_length].
  apply string_app_split in Htime as [Hhour Hminute];
    [|now rewrite !fixed_digits_length].
  apply fixed_digits_inj_range in Hyear, Hmonth, Hday, Hhour, Hminute;
    try (cbn; lia).
  congruence.
Qed.

(** X7: two timestamps request the same grid file exactly when they fall
    into the same bucket, that is when their floors to the resolution of
    the grids are the same instant. *)
Theorem same_url_iff_same_bucket
    (var_name : string) (hourly : bool) (t1 t2 : Timestamp) :
  timestamp_min ≤ value t1 ≤ timestamp_max →
  timestamp_min ≤ value t2 ≤ timestamp_max →
  url_of var_name hourly t1 = url_of var_name hourly t2
  ↔ value (ts_floor (resolution_ns hourly) t1)
    = value (ts_floor (resolution_ns hourly) t2).
Proof.
  intros H1 H2. cbn [ts_floor value]. rewrite !floor_value.
  destruct (ts_date_range t1 H1) as (Hy1 & Hm1 & Hd1).
  destruct (ts_date_range t2 H2) as (Hy2 & Hm2 & Hd2).
  destruct (ts_time_range t1) as (Hh1 & Hmin1).
  destruct (ts_time_range t2) as (Hh2 & Hmin2).
  pose proof (mrms_minute_range hourly _ Hmin1) as Hb1.
  pose proof (mrms_minute_range hourly _ Hmin2) as Hb2.
  split.
  - unfold url_of. rewrite !mrms_url_pattern by lia. intros Heq.
    apply spec_url_key_inj in Heq; try lia.
    injection Heq as Hy Hm Hd Hh Hmi.
    assert (Hdays : epoch_days (value t1) = epoch_days (value t2)).
    { rewrite <- (civil_round_trip (epoch_days (value t1))),
        <- (civil_round_trip (epoch_days (value t2))).
      unfold ts_year, ts_month, ts_day in Hy, Hm, Hd.
      now rewrite Hy, Hm, Hd. }
    now rewrite Hdays, Hh, Hmi.
  - intros Heq. unfold ns_per_second in Heq.
    assert (Hdays : epoch_days (value t1) = epoch_days (value t2)) by lia.
    assert (Hh : ts_hour t1 = ts_hour t2) by lia.
    assert (Hmi : mrms_minute hourly (ts_minute t1)
                  = mrms_minute hourly (ts_minute t2)) by lia.
    unfold url_of, ts_year, ts_month, ts_day. now rewrite Hdays, Hh, Hmi.
Qed.

Lemma same_url_iff_same_bucket_witness :
  url_of "PrecipRate" false (mkTimestamp scenario_time (Some "UTC"))
  = url_of "PrecipRate" false
      (mkTimestamp (scenario_time - 50 * ns_per_second) (Some "UTC")).
Proof.
  apply (same_url_iff_same_bucket "PrecipRate" false
           (mkTimestamp scenario_time (Some "UTC"))
           (mkTimestamp (scenario_time - 50 * ns_per_second) (Some "UTC"))).
  - vm_compute. split; discriminate.
  - vm_compute. split; discriminate.
  - reflexivity.
Defined.

End MoreTimestamps.

(** * More on fetch_hydrocron *)

Section MoreFetch.
Import Download.
Context `{Libs}.

(** X9: with a node identifier in [info], [fetch_hydrocron] returns a
    table exactly when the service answers 200 with a JSON object whose
    [results] is an object with a [csv] entry that is a string (or null,
    read as the empty text) and that text parses as CSV; the table is the
    parsed one. *)
Theorem fetch_hydrocron_table_iff
    (info : gmap string string) (node : string)
    (start_time end_time : string) (fields : list string) (w : world)
    (df : hydro_frame) :
  info !! "node_id" = Some node →
  fst (fetch_hydrocron info start_time end_time fields w) = Ok (Some df)
  ↔ ∃ resp n' doc results csv text,
      requests_get (hydrocron_url node start_time end_time fields)
                   (Some 10) (w_net w) = (Ok resp, n')
      ∧ status_code resp = 200
      ∧ json_loads (content resp) = Ok (JObj doc)
      ∧ doc !! "results" = Some (JObj results)
      ∧ results !! "csv" = Some csv
      ∧ (csv = JStr text ∨ (csv = JNull ∧ text = ""))
      ∧ read_csv text = Ok df.
Proof.
  intros Hnode. unfold fetch_hydrocron, info_node_id. rewrite Hnode.
  unfold try_except, fetch_body, mbind, mret, io_bind, io_ret, lift, emit,
    http_get.
  split.
  - destruct (requests_get _ (Some 10) (w_net w)) as [[resp|e] n'] eqn:Hget;
      [|discriminate].
    destruct (Z.eqb_spec (status_code resp) 200) as [Hstatus|Hstatus]; cbn.
    + destruct (json_loads (content resp)) as [body|e] eqn:Hbody;
        [|discriminate].
      destruct body as [| | | |items|doc]; cbn; try discriminate.
      destruct (doc !! "results") as [res|] eqn:Hres; cbn; [|discriminate].
      destruct res as [| | | |items|results]; cbn; try discriminate.
      destruct (results !! "csv") as [csv|] eqn:Hcsv; cbn; [|discriminate].
      destruct csv as [| | |text| |]; cbn; try discriminate.
      * destruct (read_csv "") as [df'|e] eqn:Hread; cbn; [|discriminate].
        intros [= <-]. exists resp, n', doc, results, JNull, "".
        split_and!; auto.
      * destruct (read_csv text) as [df'|e] eqn:Hread; cbn; [|discriminate].
        intros [= <-]. exists resp, n', doc, results, (JStr text), text.
        split_and!; auto.
    + destruct (json_loads (content resp)) as [body|e]; [|discriminate].
      destruct (json_get body "error"); discriminate.
  - intros (resp & n' & doc & results & csv & text & Hget & Hstatus & Hbody
            & Hres & Hcsv & Htext & Hread).
    rewrite Hget, Hstatus. cbn. rewrite Hbody. cbn. rewrite Hres. cbn.
    rewrite Hcsv. destruct Htext as [->|[-> ->]]; cbn; now rewrite Hread.
Qed.

(** X10: a call without a node identifier raises [KeyError] before any
    request and prints nothing; every other call returns, makes exactly
    one request, and prints exactly one line when it returns no table and
    none when it returns one. *)
Theorem fetch_hydrocron_effects
    (info : gmap string string) (start_time end_time : string)
    (fields : list string) (w : world) :
  match info !! "node_id" with
  | None =>
      fetch_hydrocron info start_time end_time fields w
      = (Raise (KeyError "node_id"), w)
  | Some node =>
      ∃ r prints,
        fst (fetch_hydrocron info start_time end_time fields w) = Ok r
        ∧ w_net (snd (fetch_hydrocron info start_time end_time fields w))
          = snd (requests_get (hydrocron_url node start_time end_time fields)
                              (Some 10) (w_net w))
        ∧ w_log (snd (fetch_hydrocron info start_time end_time fields w))
          = w_log w ++ prints
        ∧ length prints = match r with Some _ => 0%nat | None => 1%nat end
        ∧ forallb is_print prints = true
  end.
Proof.
  unfold fetch_hydrocron, info_node_id.
  destruct (info !! "node_id") as [node|]; [|reflexivity].
  unfold try_except, fetch_body, mbind, mret, io_bind, io_ret, lift, emit,
    http_get.
  destruct (requests_get _ (Some 10) (w_net w)) as [[resp|e] n'] eqn:Hget; cbn.
  - destruct (status_code resp =? 200); cbn.
    + destruct (json_loads (content resp)) as [body|e]; cbn.
      * destruct (json_getitem body "results") as [results|e]; cbn.
        -- destruct (json_getitem results "csv") as [csv|e]; cbn.
           ++ destruct (string_io csv) as [text|e]; cbn.
              ** destruct (read_csv text) as [df|e]; cbn.
                 --- exists (Some df), []. now rewrite app_nil_r.
                 --- exists None. eexists [_]. split_and!; reflexivity.
              ** exists None. eexists [_]. split_and!; reflexivity.
           ++ exists None. eexists [_]. split_and!; reflexivity.
        -- exists None. eexists [_]. split_and!; reflexivity.
      * exists None. eexists [_]. split_and!; reflexivity.
    + destruct (json_loads (content resp)) as [body|e]; cbn.
      * destruct (json_get body "error") as [error|e]; cbn;
          exists None; eexists [_]; split_and!; reflexivity.
      * exists None. eexists [_]. split_and!; reflexivity.
  - exists None. eexists [_]. split_and!; reflexivity.
Qed.

End MoreFetch.

Section MoreFetchRuns.
Import Download Mirror.

Lemma fetch_hydrocron_table_iff_witness :
  fst (@fetch_hydrocron mirror_libs Demo.demo_info "2024-01-01T00:00:00Z"
         "2024-02-01T00:00:00Z" ["wse"] m0)
  = Ok (Some csv_text).
Proof.
  apply (@fetch_hydrocron_table_iff mirror_libs Demo.demo_info "71224500010011"
           "2024-01-01T00:00:00Z" "2024-02-01T00:00:00Z" ["wse"] m0 csv_text);
    [reflexivity|].
  exists (mkResponse 200 [Byte.x7b]), 1%nat,
    {[ "status" := JStr "200 OK";
       "results" := JObj {[ "csv" := JStr csv_text ]} ]},
    {[ "csv" := JStr csv_text ]}, (JStr csv_text), csv_text.
  split_and!; try reflexivity. left. reflexivity.
Defined.
End MoreFetchRuns.

(** * More on download_mrms *)

Section MoreGroupby.
Import Download.
Context `{Libs}.

Lemma insert_row_keys (r : ts_row) (groups : list (Z * list ts_row)) (k : Z) :
  k ∈ map fst (insert_row r groups) ↔ k = time r ∨ k ∈ map fst groups.
Proof.
  induction groups as [|[k0 rs] groups IH]; cbn [insert_row map fst].
  - rewrite list_elem_of_singleton, elem_of_nil. tauto.
  - destruct (Z.ltb_spec (time r) k0).
    + cbn [map fst]. rewrite !elem_of_cons. tauto.
    + destruct (Z.eqb_spec (time r) k0) as [Heq|Hne]; cbn [map fst].
      * rewrite !elem_of_cons. rewrite Heq. tauto.
      * rewrite !elem_of_cons, IH. tauto.
Qed.

Lemma insert_row_sorted (r : ts_row) (groups : list (Z * list ts_row)) :
  StronglySorted Z.lt (map fst groups) →
  StronglySorted Z.lt (map fst (insert_row r groups)).
Proof.
  induction groups as [|[k0 rs] groups IH]; cbn [insert_row map fst];
    intros Hs.
  - repeat constructor.
  - apply StronglySorted_inv in Hs as [Hs Hall].
    destruct (Z.ltb_spec (time r) k0).
    + cbn [map fst]. constructor; [constructor; assumption|].
      constructor; [assumption|].
      eapply Forall_impl; [exact Hall|]. cbn. intros; lia.
    + destruct (Z.eqb_spec (time r) k0) as [Heq|Hne]; cbn [map fst].
      * constructor; assumption.
      * constructor; [now apply IH|].
        apply Forall_forall. intros k Hk. apply insert_row_keys in Hk as [->|Hk].
        -- lia.
        -- rewrite Forall_forall in Hall. now apply Hall.
Qed.

Lemma insert_row_perm (r : ts_row) (groups : list (Z * list ts_row)) :
  flat_map snd (insert_row r groups) ≡ₚ flat_map snd groups ++ [r].
Proof.
  induction groups as [|[k0 rs] groups IH]; cbn [insert_row flat_map snd].
  - reflexivity.
  - destruct (Z.ltb_spec (time r) k0).
    + cbn [flat_map snd app]. apply Permutation_cons_append.
    + destruct (Z.eqb_spec (time r) k0); cbn [flat_map snd].
      * rewrite <- !app_assoc. apply Permutation_app_head.
        apply Permutation_app_comm.
      * rewrite IH, app_assoc. reflexivity.
Qed.

Lemma groupby_time_facts (rs : list ts_row) :
  StronglySorted Z.lt (map fst (groupby_time rs))
  ∧ (∀ k, k ∈ map fst (groupby_time rs) ↔ ∃ row, row ∈ rs ∧ time row = k)
  ∧ flat_map snd (groupby_time rs) ≡ₚ rs.
Proof.
  unfold groupby_time.
  assert (Hgen : ∀ todo seen groups,
    StronglySorted Z.lt (map fst groups) →
    (∀ k, k ∈ map fst groups ↔ ∃ row, row ∈ seen ∧ time row = k) →
    flat_map snd groups ≡ₚ seen →
    let out := fold_left (λ gs r, insert_row r gs) todo groups in
    StronglySorted Z.lt (map fst out)
    ∧ (∀ k, k ∈ map fst out ↔ ∃ row, row ∈ seen ++ todo ∧ time row = k)
    ∧ flat_map snd out ≡ₚ seen ++ todo).
  { induction todo as [|r todo IH]; intros seen groups Hs Hk Hp; cbn.
    - rewrite app_nil_r. auto.
    - specialize (IH (seen ++ [r]) (insert_row r groups)).
      rewrite <- app_assoc in IH. apply IH.
      + now apply insert_row_sorted.
      + intros k. rewrite insert_row_keys, Hk. split.
        * intros [->|(row & Hin & Htime)].
          -- exists r. split; [|reflexivity]. apply elem_of_app. right.
             now apply list_elem_of_singleton.
          -- exists row. split; [|exact Htime]. apply elem_of_app. now left.
        * intros (row & Hin & Htime). apply elem_of_app in Hin as [Hin|Hin].
          -- right. eauto.
          -- apply list_elem_of_singleton in Hin. subst row. now left.
      + rewrite insert_row_perm. now apply Permutation_app_tail. }
  apply (Hgen rs [] []).
  - constructor.
  - intros k. cbn. rewrite elem_of_nil. split; [tauto|].
    intros (row & Hin & _). now apply elem_of_nil in Hin.
  - reflexivity.
Qed.

Lemma groupby_time_nonempty (rs : list ts_row) :
  rs ≠ [] → groupby_time rs ≠ [].
Proof.
  intros Hne Hnil. destruct (groupby_time_facts rs) as (_ & _ & Hperm).
  rewrite Hnil in Hperm. cbn in Hperm.
  apply Permutation_nil_l in Hperm. congruence.
Qed.

Lemma filter_time_none (k : Z) (rs : list ts_row) :
  (∀ row, row ∈ rs → time row ≠ k) →
  List.filter (λ row, time row =? k) rs = [].
Proof.
  induction rs as [|r rs IH]; intros Hall; [reflexivity|]. cbn.
  destruct (Z.eqb_spec (time r) k) as [Heq|_].
  - exfalso. apply (Hall r); [left|exact Heq].
  - apply IH. intros row Hrow. apply Hall. now right.
Qed.

Lemma filter_time_snoc (k : Z) (seen : list ts_row) (r : ts_row) :
  List.filter (λ row, time row =? k) (seen ++ [r])
  = List.filter (λ row, time row =? k) seen
    ++ (if time r =? k then [r] else []).
Proof. rewrite List.filter_app. reflexivity. Qed.

Lemma insert_row_filter (seen : list ts_row) (r : ts_row)
    (groups : list (Z * list ts_row)) :
  StronglySorted Z.lt (map fst groups) →
  Forall (λ g, snd g = List.filter (λ row, time row =? fst g) seen) groups →
  (time r ∉ map fst groups →
   List.filter (λ row, time row =? time r) seen = []) →
  Forall (λ g, snd g = List.filter (λ row, time row =? fst g) (seen ++ [r]))
    (insert_row r groups).
Proof.
  assert (Hother : ∀ g : Z * list ts_row,
             fst g ≠ time r →
             snd g = List.filter (λ row, time row =? fst g) seen →
             snd g = List.filter (λ row, time row =? fst g) (seen ++ [r])).
  { intros g Hne ->. rewrite filter_time_snoc.
    destruct (Z.eqb_spec (time r) (fst g)); [congruence|].
    now rewrite app_nil_r. }
  induction groups as [|[k0 rs] groups IH]; cbn [insert_row map fst];
    intros Hs Hall Hnew.
  - constructor; [|constructor]. cbn [fst snd].
    rewrite filter_time_snoc, Z.eqb_refl, Hnew; [reflexivity|].
    apply not_elem_of_nil.
  - apply StronglySorted_inv in Hs as [Hs Hlt].
    apply Forall_cons in Hall as [Hk0 Hall]. cbn [fst snd] in Hk0.
    rewrite Forall_forall in Hlt.
    destruct (Z.ltb_spec (time r) k0) as [Hlt0|Hge].
    + constructor; [|constructor].
      * cbn [fst snd]. rewrite filter_time_snoc, Z.eqb_refl, Hnew; [reflexivity|].
        intros Hin. apply elem_of_cons in Hin as [Heq|Hin]; [lia|].
        specialize (Hlt _ Hin). lia.
      * apply Hother; [cbn; lia|exact Hk0].
      * eapply Forall_impl; [|exact (λ g Hg, Hg)].
        apply Forall_forall. intros g Hg. apply Hother.
        -- assert (fst g ∈ map fst groups)
             by (apply list_elem_of_In, in_map, list_elem_of_In, Hg).
           specialize (Hlt _ H0). lia.
        -- rewrite Forall_forall in Hall. now apply Hall.
    + destruct (Z.eqb_spec (time r) k0) as [Heq|Hne].
      * constructor.
        -- cbn [fst snd]. rewrite filter_time_snoc, Heq, Z.eqb_refl, <- Hk0.
           reflexivity.
        -- apply Forall_forall. intros g Hg. apply Hother.
           ++ assert (fst g ∈ map fst groups)
                by (apply list_elem_of_In, in_map, list_elem_of_In, Hg).
              specialize (Hlt _ H0). lia.
           ++ rewrite Forall_forall in Hall. now apply Hall.
      * constructor.
        -- apply Hother; [cbn; congruence|exact Hk0].
        -- apply IH; [exact Hs|exact Hall|].
           intros Hnot. apply Hnew. intros Hin.
           apply elem_of_cons in Hin as [Heq|Hin]; [congruence|contradiction].
Qed.

Lemma groupby_time_filter (rs : list ts_row) :
  Forall (λ g, snd g = List.filter (λ row, time row =? fst g) rs)
    (groupby_time rs).
Proof.
  unfold groupby_time.
  assert (Hgen : ∀ todo seen groups,
    StronglySorted Z.lt (map fst groups) →
    (∀ k, k ∈ map fst groups ↔ ∃ row, row ∈ seen ∧ time row = k) →
    Forall (λ g, snd g = List.filter (λ row, time row =? fst g) seen) groups →
    Forall (λ g, snd g = List.filter (λ row, time row =? fst g) (seen ++ todo))
      (fold_left (λ gs r, insert_row r gs) todo groups)).
  { induction todo as [|r todo IH]; intros seen groups Hs Hk Hf; cbn.
    - now rewrite app_nil_r.
    - specialize (IH (seen ++ [r]) (insert_row r groups)).
      rewrite <- app_assoc in IH. apply IH.
      + now apply insert_row_sorted.
      + intros k. rewrite insert_row_keys, Hk. split.
        * intros [->|(row & Hin & Htime)].
          -- exists r. split; [|reflexivity]. apply elem_of_app. right.
             now apply list_elem_of_singleton.
          -- exists row. split; [|exact Htime]. apply elem_of_app. now left.
        * intros (row & Hin & Htime). apply elem_of_app in Hin as [Hin|Hin].
          -- right. eauto.
          -- apply list_elem_of_singleton in Hin. subst row. now left.
      + apply insert_row_filter; [exact Hs|exact Hf|].
        intros Hnot. apply filter_time_none. intros row Hrow Htime.
        apply Hnot, Hk. eauto. }
  apply (Hgen rs [] []).
  - constructor.
  - intros k. cbn. rewrite elem_of_nil. split; [tauto|].
    intros (row & Hin & _). now apply elem_of_nil in Hin.
  - constructor.
Qed.

(** The rows of the groups, in the order of the loop: instant after
    instant, and for each instant the rows of the table that carry it, in
    the order of the table. *)
Lemma groupby_time_rows (rs : list ts_row) :
  flat_map snd (groupby_time rs)
  = flat_map (λ k, List.filter (λ row, time row =? k) rs)
      (map fst (groupby_time rs)).
Proof.
  pose proof (groupby_time_filter rs) as Hf.
  induction Hf as [|[k swot_df] groups Hg _ IH]; [reflexivity|].
  cbn [flat_map map fst snd] in *. now rewrite IH, <- Hg.
Qed.

End MoreGroupby.

Section MoreDownload.
Import Download.
Context `{Libs}.

Lemma filter_write_prints (prints : list event) :
  forallb is_print prints = true → List.filter is_write prints = [].
Proof.
  induction prints as [|ev prints IH]; [reflexivity|].
  cbn. intros Hp. apply andb_true_iff in Hp as [Hev Hp].
  unfold is_print in Hev. apply negb_true_iff in Hev. rewrite Hev. auto.
Qed.

Lemma files_written_log (w w' : world) (prints : list event) :
  w_log w' = w_log w ++ prints → forallb is_print prints = true →
  files_written w' = files_written w.
Proof.
  intros Hlog Hp. unfold files_written.
  rewrite Hlog, List.filter_app, (filter_write_prints _ Hp). apply app_nil_r.
Qed.

Lemma urls_printed_app (l1 l2 : list event) :
  urls_printed (l1 ++ l2) = urls_printed l1 ++ urls_printed l2.
Proof. apply flat_map_app. Qed.

(** Whatever happens in an iteration, it only prints. *)
Lemma process_group_log var_name hourly zone new_rows group w :
  ∃ prints,
    w_log (snd (process_group var_name hourly zone new_rows group w))
    = w_log w ++ prints
    ∧ forallb is_print prints = true.
Proof.
  destruct group as [k swot_df].
  unfold process_group, mbind, io_bind, lift, emit, http_get. cbn.
  destruct zone as [zone|]; cbn; [|exists []; now rewrite app_nil_r].
  destruct (requests_get _ None (w_net w)) as [[resp|e] n']; cbn;
    [|eexists [_]; split; reflexivity].
  destruct (status_code resp =? 200); cbn.
  - destruct (gunzip (content resp)) as [grib_bytes|e]; cbn;
      [|eexists [_]; split; reflexivity].
    destruct (open_dataset grib_bytes) as [ds|e]; cbn;
      eexists [_]; split; reflexivity.
  - eexists [_; _]. rewrite <- app_assoc. split; reflexivity.
Qed.

Lemma process_groups_log var_name hourly zone groups new_rows w :
  ∃ prints,
    w_log (snd (process_groups var_name hourly zone groups new_rows w))
    = w_log w ++ prints
    ∧ forallb is_print prints = true.
Proof.
  revert new_rows w. induction groups as [|group groups IH]; intros new_rows w.
  - exists []. cbn. now rewrite app_nil_r.
  - cbn [process_groups]. unfold mbind at 1, io_bind at 1.
    destruct (process_group_log var_name hourly zone new_rows group w)
      as (prints1 & Hlog1 & Hp1).
    destruct (process_group var_name hourly zone new_rows group w)
      as [[rows1|e] w1]; cbn [snd] in *.
    + destruct (IH rows1 w1) as (prints2 & Hlog2 & Hp2).
      exists (prints1 ++ prints2). split.
      * now rewrite Hlog2, Hlog1, app_assoc.
      * now rewrite forallb_app, Hp1, Hp2.
    + exists prints1. now split.
Qed.

(** X11: a non-empty table whose time column is tz-naive makes
    [download_mrms] raise [TypeError] at once: nothing is requested,
    printed or written. *)
Theorem naive_times_raise
    (ts_df : ts_frame) (var_name : string) (precip_path : path)
    (hourly : bool) (w : world) :
  time_tz ts_df = None → rows ts_df ≠ [] →
  download_mrms ts_df var_name precip_path hourly w = (Raise TypeError, w).
Proof.
  intros Hzone Hrows. unfold download_mrms. rewrite Hzone.
  pose proof (groupby_time_nonempty _ Hrows) as Hgroups.
  destruct (groupby_time (rows ts_df)) as [|[k swot_df] groups]; [congruence|].
  reflexivity.
Qed.

Lemma download_mrms_unfold ts_df var_name precip_path hourly w :
  download_mrms ts_df var_name precip_path hourly w
  = match process_groups var_name hourly (time_tz ts_df)
            (groupby_time (rows ts_df)) [] w with
    | (Ok out, w1) =>
        match pd_concat out with
        | Ok precip_df =>
            match format_var_name (p_name precip_path) var_name with
            | Ok name =>
                (Ok tt,
                 mkWorld (w_net w1)
                   (w_log w1 ++ [ToCsv (p_parent precip_path) name precip_df]))
            | Raise e => (Raise e, w1)
            end
        | Raise e => (Raise e, w1)
        end
    | (Raise e, w1) => (Raise e, w1)
    end.
Proof. reflexivity. Qed.

(** X12: [download_mrms] writes at most one output file (the CSV table;
    the temporary file that holds a decoded grid is not an output): a
    call that raises writes none, and a call that returns writes exactly
    one, a non-empty table, under the formatted name in the parent of
    [precip_path]. *)
Theorem download_mrms_writes_once
    (ts_df : ts_frame) (var_name : string) (precip_path : path)
    (hourly : bool) (w : world) :
  match fst (download_mrms ts_df var_name precip_path hourly w) with
  | Ok _ =>
      ∃ name precip_df,
        format_var_name (p_name precip_path) var_name = Ok name
        ∧ precip_df ≠ []
        ∧ files_written (snd (download_mrms ts_df var_name precip_path hourly w))
          = files_written w ++ [ToCsv (p_parent precip_path) name precip_df]
  | Raise _ =>
      files_written (snd (download_mrms ts_df var_name precip_path hourly w))
      = files_written w
  end.
Proof.
  rewrite download_mrms_unfold.
  destruct (process_groups_log var_name hourly (time_tz ts_df)
              (groupby_time (rows ts_df)) [] w) as (prints & Hlog & Hp).
  destruct (process_groups var_name hourly (time_tz ts_df)
              (groupby_time (rows ts_df)) [] w) as [[out|e] w1];
    cbn [fst snd] in *.
  - destruct out as [|r0 out]; cbn [pd_concat fst snd].
    + eapply files_written_log; eassumption.
    + destruct (format_var_name (p_name precip_path) var_name) as [name|e];
        cbn [fst snd].
      * exists name, (r0 :: out). split_and!; [reflexivity|discriminate|].
        unfold files_written. cbn [w_log].
        rewrite Hlog, !List.filter_app, (filter_write_prints _ Hp), app_nil_r.
        reflexivity.
      * eapply files_written_log; eassumption.
  - eapply files_written_log; eassumption.
Qed.

(** X13: when the request for a group raises, or its 200 response cannot
    be decompressed or decoded, or the decoded file holds no data
    variable, the error leaves [download_mrms] as it is: the rows
    accumulated so far are lost and the remaining groups are never
    requested. *)
Theorem failed_decode_aborts
    (var_name : string) (hourly : bool) (zone : string) (k : Z)
    (swot_df : list ts_row) (rest : list (Z * list ts_row)) (w : world)
    (n' : net) (e : exn) :
  swot_df ≠ [] →
  requests_get (url_of var_name hourly (mkTimestamp k (Some "UTC")))
               None (w_net w) = (Raise e, n')
  ∨ (∃ resp,
       requests_get (url_of var_name hourly (mkTimestamp k (Some "UTC")))
                    None (w_net w) = (Ok resp, n')
       ∧ status_code resp = 200
       ∧ (gunzip (content resp) = Raise e
          ∨ ∃ grib_bytes,
              gunzip (content resp) = Ok grib_bytes
              ∧ (open_dataset grib_bytes = Raise e
                 ∨ (open_dataset grib_bytes = Ok [] ∧ e = IndexError)))) →
  (∀ new_rows,
     process_groups var_name hourly (Some zone) ((k, swot_df) :: rest) new_rows w
     = (Raise e,
        mkWorld n'
          (w_log w ++ [PrintUrl (url_of var_name hourly
                                   (mkTimestamp k (Some "UTC")))])))
  ∧ (∀ ts_df precip_path,
       time_tz ts_df = Some zone →
       groupby_time (rows ts_df) = (k, swot_df) :: rest →
       download_mrms ts_df var_name precip_path hourly w
       = (Raise e,
          mkWorld n'
            (w_log w ++ [PrintUrl (url_of var_name hourly
                                     (mkTimestamp k (Some "UTC")))]))).
Proof.
  intros Hswot Hcause.
  assert (Hloop : ∀ new_rows,
     process_groups var_name hourly (Some zone) ((k, swot_df) :: rest) new_rows w
     = (Raise e,
        mkWorld n'
          (w_log w ++ [PrintUrl (url_of var_name hourly
                                   (mkTimestamp k (Some "UTC")))]))).
  { intros new_rows. cbn [process_groups].
    unfold process_group, mbind, io_bind, lift, emit, http_get. cbn.
    destruct Hcause as [Hget|(resp & Hget & Hstatus & Hdecode)]; rewrite Hget.
    - reflexivity.
    - rewrite Hstatus. cbn.
      destruct Hdecode as [Hgz|(grib_bytes & Hgz & Hds)]; rewrite Hgz;
        [reflexivity|].
      destruct Hds as [Hds|[Hds ->]]; rewrite Hds; [reflexivity|].
      destruct swot_df as [|row swot_df]; [contradiction|]. reflexivity. }
  split; [exact Hloop|].
  intros ts_df precip_path Hzone Hgroups.
  unfold download_mrms. rewrite Hzone, Hgroups.
  unfold mbind at 1, io_bind at 1. now rewrite Hloop.
Qed.

Lemma sorted_prefix (l1 l2 : list Z) :
  l1 `prefix_of` l2 → StronglySorted Z.lt l2 → StronglySorted Z.lt l1.
Proof.
  intros [k ->]. induction l1 as [|x l1 IH]; intros Hs; [constructor|].
  cbn in Hs. apply StronglySorted_inv in Hs as [Hs Hall].
  constructor; [now apply IH|].
  apply Forall_app in Hall as [Hall _]. exact Hall.
Qed.

Lemma net_after_app (urls1 urls2 : list string) (n : net) :
  net_after (urls1 ++ urls2) n = net_after urls2 (net_after urls1 n).
Proof. apply fold_left_app. Qed.

(** An iteration asks for the URL of its group at most once, prints what
    it asks for, and has asked when it does not raise. *)
Lemma process_group_requests var_name hourly zone new_rows k swot_df w :
  let url := url_of var_name hourly (mkTimestamp k (Some "UTC")) in
  let R := process_group var_name hourly zone new_rows (k, swot_df) w in
  ∃ asked,
    (asked = [] ∨ asked = [url])
    ∧ w_net (snd R) = net_after asked (w_net w)
    ∧ urls_printed (w_log (snd R)) = urls_printed (w_log w) ++ asked
    ∧ (is_ok (fst R) = true → asked = [url]).
Proof.
  cbv zeta.
  unfold process_group, mbind, io_bind, lift, emit, http_get, urls_printed.
  cbn.
  destruct zone as [zone|]; cbn.
  - exists [url_of var_name hourly (mkTimestamp k (Some "UTC"))].
    unfold net_after. cbn [fold_left].
    destruct (requests_get _ None (w_net w)) as [[resp|e] n']; cbn;
      [|rewrite flat_map_app; now split_and!; [right|..]].
    destruct (status_code resp =? 200); cbn.
    + destruct (gunzip (content resp)) as [grib_bytes|e]; cbn;
        [|rewrite flat_map_app; now split_and!; [right|..]].
      destruct (open_dataset grib_bytes) as [ds|e]; cbn;
        [|rewrite flat_map_app; now split_and!; [right|..]].
      destruct (sample_rows ds var_name _ swot_df new_rows); cbn;
        rewrite flat_map_app; now split_and!; [right|..].
    + rewrite !flat_map_app. cbn. rewrite app_nil_r.
      now split_and!; [right|..].
  - exists []. rewrite app_nil_r. split_and!; [now left|reflexivity|reflexivity|].
    discriminate.
Qed.

Lemma process_groups_cons var_name hourly zone group groups new_rows w :
  process_groups var_name hourly zone (group :: groups) new_rows w
  = match process_group var_name hourly zone new_rows group w with
    | (Ok rows1, w1) => process_groups var_name hourly zone groups rows1 w1
    | (Raise e, w1) => (Raise e, w1)
    end.
Proof. reflexivity. Qed.

Lemma process_groups_requests var_name hourly zone groups new_rows w :
  let url := λ k, url_of var_name hourly (mkTimestamp k (Some "UTC")) in
  let R := process_groups var_name hourly zone groups new_rows w in
  ∃ done,
    done `prefix_of` map fst groups
    ∧ w_net (snd R) = net_after (map url done) (w_net w)
    ∧ urls_printed (w_log (snd R)) = urls_printed (w_log w) ++ map url done
    ∧ (is_ok (fst R) = true → done = map fst groups).
Proof.
  cbv zeta. revert new_rows w.
  induction groups as [|[k swot_df] groups IH]; intros new_rows w.
  - exists []. cbn. rewrite app_nil_r. now split_and!.
  - rewrite process_groups_cons.
    destruct (process_group_requests var_name hourly zone new_rows k swot_df w)
      as (asked & Hasked & Hnet & Hlog & Hok).
    destruct (process_group var_name hourly zone new_rows (k, swot_df) w)
      as [[rows1|e] w1]; cbn [fst snd is_ok] in *.
    + rewrite (Hok eq_refl) in Hnet, Hlog.
      destruct (IH rows1 w1) as (done & Hpre & Hnet2 & Hlog2 & Hok2).
      exists (k :: done). cbn [map fst]. split_and!.
      * now apply prefix_cons.
      * rewrite Hnet2, Hnet. reflexivity.
      * rewrite Hlog2, Hlog, <- app_assoc. reflexivity.
      * intros Hrun. now rewrite (Hok2 Hrun).
    + destruct Hasked as [->| ->].
      * exists []. split_and!; [apply prefix_nil|exact Hnet|exact Hlog|discriminate].
      * exists [k]. cbn [map fst]. split_and!;
          [apply prefix_cons, prefix_nil|exact Hnet|exact Hlog|discriminate].
Qed.

(** The same for a whole call: the steps after the loop ask for
    nothing. *)
Lemma download_mrms_requests ts_df var_name precip_path hourly w :
  let url := λ k, url_of var_name hourly (mkTimestamp k (Some "UTC")) in
  let R := download_mrms ts_df var_name precip_path hourly w in
  ∃ done,
    done `prefix_of` map fst (groupby_time (rows ts_df))
    ∧ w_net (snd R) = net_after (map url done) (w_net w)
    ∧ urls_printed (w_log (snd R)) = urls_printed (w_log w) ++ map url done
    ∧ (is_ok (fst R) = true → done = map fst (groupby_time (rows ts_df))).
Proof.
  cbv zeta. rewrite download_mrms_unfold.
  destruct (process_groups_requests var_name hourly (time_tz ts_df)
              (groupby_time (rows ts_df)) [] w)
    as (done & Hpre & Hnet & Hlog & Hok).
  exists done.
  destruct (process_groups var_name hourly (time_tz ts_df)
              (groupby_time (rows ts_df)) [] w) as [[out|e] w1];
    cbn [fst snd is_ok] in *.
  - destruct (pd_concat out) as [precip_df|e]; cbn [fst snd];
      [|split_and!; [assumption..|discriminate]].
    destruct (format_var_name (p_name precip_path) var_name) as [name|e];
      cbn [fst snd w_net w_log];
      [|split_and!; [assumption..|discriminate]].
    split_and!; [exact Hpre|exact Hnet| |exact Hok].
    rewrite urls_printed_app, Hlog. cbn. now rewrite app_nil_r.
  - split_and!; [assumption..|discriminate].
Qed.

(** An iteration that does not raise. *)
Lemma process_group_ok_inv var_name hourly zone new_rows k swot_df w out w' :
  process_group var_name hourly zone new_rows (k, swot_df) w = (Ok out, w') →
  ∃ resp,
    requests_get (url_of var_name hourly (mkTimestamp k (Some "UTC"))) None
                 (w_net w) = (Ok resp, w_net w')
    ∧ (out = new_rows
       ∨ ∃ grib_bytes name g rest,
           status_code resp = 200
           ∧ gunzip (content resp) = Ok grib_bytes
           ∧ open_dataset grib_bytes = Ok ((name, g) :: rest)
           ∧ out = new_rows
                   ++ map (sampled g var_name (mkTimestamp k zone)) swot_df).
Proof.
  unfold process_group, mbind, io_bind, lift, emit, http_get. cbn.
  destruct zone as [zone|]; cbn; [|discriminate].
  destruct (requests_get _ None (w_net w)) as [[resp|e] n']; cbn; [|discriminate].
  destruct (Z.eqb_spec (status_code resp) 200) as [Hstatus|_]; cbn.
  - destruct (gunzip (content resp)) as [grib_bytes|e] eqn:Hgz; cbn;
      [|discriminate].
    destruct (open_dataset grib_bytes) as [[|[name g] rest]|e] eqn:Hds; cbn;
      [| |discriminate].
    + destruct swot_df as [|row swot_df]; cbn; [|discriminate].
      intros [= <- <-]. exists resp. split; [reflexivity|now left].
    + rewrite sample_rows_first. intros [= <- <-]. exists resp.
      split; [reflexivity|]. right. exists grib_bytes, name, g, rest.
      now split_and!.
  - intros [= <- <-]. exists resp. split; [reflexivity|now left].
Qed.

(** Every row that the loop accumulates was built for a row of a group
    from the response to the request of that group; the rows of a group
    are taken together, in their order, or not at all. *)
Lemma process_groups_provenance var_name hourly zone seen n0 all groups :
  ∀ before new_rows w out w',
    all = before ++ map fst groups →
    Forall (group_ok seen) groups →
    w_net w = net_after (map (λ k, url_of var_name hourly
                                     (mkTimestamp k (Some "UTC")))
                             before) n0 →
    process_groups var_name hourly zone groups new_rows w = (Ok out, w') →
    ∃ added picked,
      out = new_rows ++ added
      ∧ picked `sublist_of` flat_map snd groups
      ∧ Forall2 (λ r row, row ∈ seen
                          ∧ built_from_request var_name hourly zone all n0 r row)
                added picked.
Proof.
  induction groups as [|[k swot_df] groups IH];
    intros before new_rows w out w' Hall Hok Hnet.
  - cbn. intros [= <- <-]. exists [], [].
    split_and!; [now rewrite app_nil_r|constructor|constructor].
  - rewrite process_groups_cons.
    destruct (process_group var_name hourly zone new_rows (k, swot_df) w)
      as [[rows1|e] w1] eqn:E1; [|discriminate].
    intros E2.
    apply process_group_ok_inv in E1 as (resp & Hget & Hcase).
    apply Forall_cons in Hok as [Hgroup Hok].
    assert (Hnet1 : w_net w1
              = net_after (map (λ k, url_of var_name hourly
                                       (mkTimestamp k (Some "UTC")))
                               (before ++ [k])) n0).
    { rewrite map_app, net_after_app, <- Hnet. unfold net_after. cbn.
      now rewrite Hget. }
    assert (Hall1 : all = (before ++ [k]) ++ map fst groups)
      by (now rewrite <- app_assoc).
    destruct (IH (before ++ [k]) rows1 w1 out w' Hall1 Hok Hnet1 E2)
      as (added2 & picked2 & -> & Hsub2 & Hrel2).
    cbn [flat_map snd].
    destruct Hcase as [->|(grib_bytes & name & g & rest & Hstatus & Hgz & Hds & ->)].
    + exists added2, picked2.
      split_and!; [reflexivity|now apply sublist_inserts_l|exact Hrel2].
    + exists (map (sampled g var_name (mkTimestamp k zone)) swot_df ++ added2),
        (swot_df ++ picked2).
      split_and!.
      * now rewrite app_assoc.
      * apply sublist_app; [reflexivity|exact Hsub2].
      * apply Forall2_app; [|exact Hrel2].
        change (map ?f ?l) with (f <$> l). apply Forall2_fmap_l.
        apply Forall_Forall2_diag, Forall_forall. intros row Hrow.
        destruct Hgroup as [_ Hrows]. destruct (Hrows row Hrow) as [Hseen Htime].
        cbn [fst snd] in Htime. split; [exact Hseen|].
        exists before, (map fst groups), resp, (w_net w1), grib_bytes, name, g, rest.
        rewrite Htime. rewrite <- Hnet.
        split_and!; try assumption; reflexivity.
Qed.

End MoreDownload.

(** * Requests and records *)

Section RecordsAndRequests.
Import Download.
Context `{Libs}.

(** C2, as amended: every record of the written table carries the
    timestamp of its own source row, unchanged (for a variable name other
    than the column name of the timestamp).  The loop goes through the
    distinct instants of the table in ascending order and, for each, the
    rows that carry it in the order of the table; the records are built
    in that order for the rows whose download answered 200: each holds
    the node of its row and the value sampled at the position of its row
    from the file returned by the request for the instant of its row.
    The floor of that instant to the resolution of the grids only names
    the file that is requested. *)
Theorem record_time_is_source_time
    (ts_df : ts_frame) (var_name : string) (precip_path : path)
    (hourly : bool) (w w' : world) :
  var_name ≠ "time" →
  download_mrms ts_df var_name precip_path hourly w = (Ok tt, w') →
  ∃ prints name precip_df instants picked,
    w_log w' = w_log w ++ prints ++ [ToCsv (p_parent precip_path) name precip_df]
    ∧ forallb is_print prints = true
    ∧ StronglySorted Z.lt instants
    ∧ (∀ k, k ∈ instants ↔ ∃ row, row ∈ rows ts_df ∧ time row = k)
    ∧ picked `sublist_of`
        flat_map (λ k, List.filter (λ row, time row =? k) (rows ts_df)) instants
    ∧ Forall2
        (λ r row,
           row ∈ rows ts_df
           ∧ built_from_request var_name hourly (time_tz ts_df) instants
               (w_net w) r row
           ∧ dict_get "time" r
             = Some (CTime (mkTimestamp (time row) (time_tz ts_df)))
           ∧ url_of var_name hourly (mkTimestamp (time row) (Some "UTC"))
             = let bucket := ts_floor (resolution_ns hourly)
                               (mkTimestamp (time row) (Some "UTC")) in
               mrms_url var_name (ts_year bucket) (ts_month bucket)
                 (ts_day bucket) (ts_hour bucket) (ts_minute bucket))
        precip_df picked.
Proof.
  intros Hvar. rewrite download_mrms_unfold.
  destruct (process_groups var_name hourly (time_tz ts_df)
              (groupby_time (rows ts_df)) [] w) as [[out|e] w1] eqn:Eloop;
    [|discriminate].
  destruct (process_groups_log var_name hourly (time_tz ts_df)
              (groupby_time (rows ts_df)) [] w) as (prints & Hlog & Hp).
  rewrite Eloop in Hlog. cbn [snd] in Hlog.
  apply (process_groups_provenance var_name hourly (time_tz ts_df)
           (rows ts_df) (w_net w) (map fst (groupby_time (rows ts_df)))
           (groupby_time (rows ts_df)) [] [] w out w1 eq_refl
           (groupby_time_ok (rows ts_df)) eq_refl) in Eloop
    as (added & picked & -> & Hsub & Hrel).
  destruct (groupby_time_facts (rows ts_df)) as (Hsorted & Hkeys & _).
  rewrite groupby_time_rows in Hsub.
  cbn [app] in *.
  destruct added as [|r0 added']; [discriminate|]. cbn [pd_concat].
  destruct (format_var_name (p_name precip_path) var_name) as [fname|e];
    [|discriminate].
  intros [= <-].
  exists prints, fname, (r0 :: added'), (map fst (groupby_time (rows ts_df))),
    picked.
  split_and!; [cbn [w_log]; now rewrite Hlog, <- app_assoc|exact Hp
              |exact Hsorted|exact Hkeys|exact Hsub|].
  eapply Forall2_impl; [exact Hrel|].
  intros r row [Hin Hbuilt]. split_and!; [exact Hin|exact Hbuilt| |].
  - destruct Hbuilt as (before & after & resp & n' & grib_bytes
                        & name & g & rest & _ & _ & _ & _ & _ & ->).
    now apply one_row_frame_time.
  - cbv zeta. unfold url_of.
    destruct (floor_fields hourly (mkTimestamp (time row) (Some "UTC")))
      as (-> & -> & -> & -> & ->).
    reflexivity.
Qed.

(** C7, as amended: when the year of every row has four digits, the URLs
    that [download_mrms] requests are, one per distinct instant and in
    ascending order of time, exactly the pattern of the specification,
    with four digits for the year and two for each of month, day, hour and
    minute; they are also the URLs it prints; and a call that returns has
    requested the URL of every row.  The year itself is not padded. *)
Theorem mrms_url_matches_pattern
    (ts_df : ts_frame) (var_name : string) (precip_path : path)
    (hourly : bool) (w : world) :
  (∀ row, row ∈ rows ts_df →
     1000 ≤ ts_year (mkTimestamp (time row) (Some "UTC")) < 10000) →
  let pattern := λ k,
    let t := mkTimestamp k (Some "UTC") in
    spec_url var_name (ts_year t) (ts_month t) (ts_day t) (ts_hour t)
             (mrms_minute hourly (ts_minute t)) in
  let R := download_mrms ts_df var_name precip_path hourly w in
  ∃ done,
    StronglySorted Z.lt done
    ∧ (∀ k, k ∈ done → ∃ row, row ∈ rows ts_df ∧ time row = k)
    ∧ w_net (snd R) = net_after (map pattern done) (w_net w)
    ∧ urls_printed (w_log (snd R)) = urls_printed (w_log w) ++ map pattern done
    ∧ (fst R = Ok tt → ∀ row, row ∈ rows ts_df → time row ∈ done)
    ∧ Forall (λ k,
                let t := mkTimestamp k (Some "UTC") in
                url_of var_name hourly t = pattern k
                ∧ String.length (YYYYMMDD (ts_year t) (ts_month t) (ts_day t))
                  = 8%nat
                ∧ String.length (HHMM (ts_hour t)
                                      (mrms_minute hourly (ts_minute t)))
                  = 4%nat) done.
Proof.
  intros Hyear. cbv zeta.
  destruct (download_mrms_requests ts_df var_name precip_path hourly w)
    as (done & Hpre & Hnet & Hlog & Hok).
  destruct (groupby_time_facts (rows ts_df)) as (Hsorted & Hkeys & _).
  assert (Hrows : ∀ k, k ∈ done → ∃ row, row ∈ rows ts_df ∧ time row = k).
  { intros k Hk. apply Hkeys. destruct Hpre as [more ->].
    apply elem_of_app. now left. }
  assert (Hurl : ∀ k, k ∈ done →
            url_of var_name hourly (mkTimestamp k (Some "UTC"))
            = spec_url var_name
                (ts_year (mkTimestamp k (Some "UTC")))
                (ts_month (mkTimestamp k (Some "UTC")))
                (ts_day (mkTimestamp k (Some "UTC")))
                (ts_hour (mkTimestamp k (Some "UTC")))
                (mrms_minute hourly (ts_minute (mkTimestamp k (Some "UTC"))))).
  { intros k Hk. destruct (Hrows k Hk) as (row & Hrow & <-).
    apply url_of_pattern. now apply Hyear. }
  assert (Hmap : map (λ k, url_of var_name hourly (mkTimestamp k (Some "UTC"))) done
            = map (λ k, spec_url var_name
                (ts_year (mkTimestamp k (Some "UTC")))
                (ts_month (mkTimestamp k (Some "UTC")))
                (ts_day (mkTimestamp k (Some "UTC")))
                (ts_hour (mkTimestamp k (Some "UTC")))
                (mrms_minute hourly (ts_minute (mkTimestamp k (Some "UTC"))))) done).
  { apply map_ext_in. intros k Hk. apply Hurl. now apply list_elem_of_In. }
  exists done. rewrite <- Hmap. split_and!.
  - exact (sorted_prefix _ _ Hpre Hsorted).
  - exact Hrows.
  - exact Hnet.
  - exact Hlog.
  - intros Hrun row Hrow. rewrite Hrun in Hok. rewrite (Hok eq_refl).
    apply Hkeys. eauto.
  - apply Forall_forall. intros k Hk. split_and!.
    + now apply Hurl.
    + unfold YYYYMMDD. now rewrite !string_app_length, !fixed_digits_length.
    + unfold HHMM. now rewrite !string_app_length, !fixed_digits_length.
Qed.

End RecordsAndRequests.

Section MoreDownloadRuns.
Import Download.
Context `{Libs}.



(** X15: a call that returns has made one request per distinct instant of
    the table, in ascending order of time, each for the URL of that
    instant, and has printed every URL it requested; two instants of one
    bucket are requested separately. *)
Theorem one_request_per_instant
    (ts_df : ts_frame) (var_name : string) (precip_path : path)
    (hourly : bool) (w w' : world) :
  download_mrms ts_df var_name precip_path hourly w = (Ok tt, w') →
  ∃ instants,
    w_net w'
    = net_after (map (λ k, url_of var_name hourly (mkTimestamp k (Some "UTC")))
                     instants) (w_net w)
    ∧ urls_printed (w_log w')
      = urls_printed (w_log w)
        ++ map (λ k, url_of var_name hourly (mkTimestamp k (Some "UTC"))) instants
    ∧ StronglySorted Z.lt instants
    ∧ ∀ k, k ∈ instants ↔ ∃ row, row ∈ rows ts_df ∧ time row = k.
Proof.
  intros Hrun.
  destruct (download_mrms_requests ts_df var_name precip_path hourly w)
    as (done & _ & Hnet & Hlog & Hok).
  rewrite Hrun in Hnet, Hlog, Hok. cbn [fst snd is_ok] in *.
  rewrite (Hok eq_refl) in Hnet, Hlog.
  destruct (groupby_time_facts (rows ts_df)) as (Hsorted & Hkeys & _).
  exists (map fst (groupby_time (rows ts_df))).
  split_and!; [exact Hnet|exact Hlog|exact Hsorted|exact Hkeys].
Qed.

Lemma one_row_frame_columns var_name n dt v :
  map fst (one_row_frame var_name n dt v)
  = (if String.eqb var_name "node_id" || String.eqb var_name "time"
     then ["node_id"; "time"] else ["node_id"; "time"; var_name]).
Proof.
  unfold one_row_frame. cbn [dict_set].
  destruct (String.eqb_spec "time" "node_id") as [?|_]; [discriminate|].
  cbn [dict_set].
  destruct (String.eqb_spec var_name "node_id") as [->|Hn]; [reflexivity|].
  cbn [dict_set orb].
  destruct (String.eqb_spec var_name "time") as [->|Ht]; reflexivity.
Qed.

(** X16: every written record has the columns node_id, time and the
    variable name, in this order; if the variable name is one of the
    first two names, the record has two columns only.  In every case the
    column named after the variable holds the sampled value. *)
Theorem written_columns
    (ts_df : ts_frame) (var_name : string) (precip_path : path)
    (hourly : bool) (w w' : world) (name : string) (precip_df : list out_row) :
  download_mrms ts_df var_name precip_path hourly w = (Ok tt, w') →
  files_written w' = files_written w ++ [ToCsv (p_parent precip_path) name precip_df] →
  ∀ r, r ∈ precip_df →
    map fst r
    = (if String.eqb var_name "node_id" || String.eqb var_name "time"
       then ["node_id"; "time"] else ["node_id"; "time"; var_name])
    ∧ ∃ v, dict_get var_name r = Some (CSample v).
Proof.
  rewrite download_mrms_unfold.
  destruct (process_groups var_name hourly (time_tz ts_df)
              (groupby_time (rows ts_df)) [] w) as [[out|e] w1] eqn:Hrun;
    [|discriminate].
  destruct (pd_concat out) as [df|e] eqn:Hconcat; [|discriminate].
  destruct (format_var_name (p_name precip_path) var_name) as [name'|e];
    [|discriminate].
  intros [= <-] Hfiles.
  apply process_groups_inv in Hrun as (added & prints & -> & Hadded & Hlog & Hp).
  unfold files_written in Hfiles. cbn [w_log] in Hfiles.
  rewrite Hlog, !List.filter_app, (filter_write_prints _ Hp), app_nil_r in Hfiles.
  cbn in Hfiles. apply app_inv_head in Hfiles. injection Hfiles as _ Hdf.
  destruct added as [|r0 added]; [discriminate|]. cbn in Hconcat.
  injection Hconcat as <-. subst precip_df.
  intros r Hr. rewrite Forall_forall in Hadded.
  destruct (Hadded r Hr) as (group & _ & row & v & _ & ->).
  split; [apply one_row_frame_columns|].
  exists v. apply one_row_frame_sample.
Qed.

End MoreDownloadRuns.

(** * More runs *)

Section MoreRuns.
Import Download Mirror.

Lemma naive_times_raise_witness :
  @download_mrms mirror_libs naive_rows "PrecipRate" Demo.out_path false m0
  = (Raise TypeError, m0).
Proof.
  apply (@naive_times_raise mirror_libs naive_rows "PrecipRate" Demo.out_path
           false m0); [reflexivity|discriminate].
Defined.

Lemma failed_decode_aborts_witness :
  fst (@download_mrms mirror_libs four_rows "Corrupt" Demo.out_path false m0)
  = Raise (LibraryError "BadGzipFile")
  ∧ fst (@download_mrms mirror_libs four_rows "Empty" Demo.out_path false m0)
    = Raise IndexError.
Proof.
  split.
  - destruct (@failed_decode_aborts mirror_libs "Corrupt" false "UTC"
                (Demo.t_1305 - 50 * ns_per_second)
                [mkRow 71224500010041 (float_of_int 0) (float_of_int 0)
                   (Demo.t_1305 - 50 * ns_per_second)]
                (List.tl (groupby_time (rows four_rows))) m0 1%nat
                (LibraryError "BadGzipFile")) as [_ Hrun].
    + discriminate.
    + right. exists (mkResponse 200 []).
      split_and!; [reflexivity|reflexivity|]. left. reflexivity.
    + rewrite (Hrun four_rows Demo.out_path eq_refl eq_refl). reflexivity.
  - destruct (@failed_decode_aborts mirror_libs "Empty" false "UTC"
                (Demo.t_1305 - 50 * ns_per_second)
                [mkRow 71224500010041 (float_of_int 0) (float_of_int 0)
                   (Demo.t_1305 - 50 * ns_per_second)]
                (List.tl (groupby_time (rows four_rows))) m0 1%nat
                IndexError) as [_ Hrun].
    + discriminate.
    + right. exists (mkResponse 200 [Byte.x00]).
      split_and!; [reflexivity|reflexivity|]. right. exists [Byte.x00].
      split; [reflexivity|]. right. split; reflexivity.
    + rewrite (Hrun four_rows Demo.out_path eq_refl eq_refl). reflexivity.
Defined.



Lemma one_request_per_instant_witness :
  ∃ instants,
    urls_printed
      (w_log (snd (@download_mrms mirror_libs four_rows "PrecipRate"
                     Demo.out_path false m0)))
    = map (λ k, url_of "PrecipRate" false (mkTimestamp k (Some "UTC"))) instants
    ∧ StronglySorted Z.lt instants.
Proof.
  destruct (@one_request_per_instant mirror_libs four_rows "PrecipRate"
              Demo.out_path false m0
              (snd (@download_mrms mirror_libs four_rows "PrecipRate"
                      Demo.out_path false m0)) eq_refl)
    as (instants & _ & Hurls & Hsorted & _).
  exists instants. split; [exact Hurls|exact Hsorted].
Defined.

Lemma written_columns_witness :
  Forall (λ r : @out_row mirror_libs,
            map fst r = ["node_id"; "time"; "PrecipRate"])
    (match files_written
             (snd (@download_mrms mirror_libs four_rows "PrecipRate"
                     Demo.out_path false m0)) with
     | [ToCsv _ _ precip_df] => precip_df
     | _ => []
     end).
Proof.
  apply Forall_forall. intros r Hr.
  exact (proj1 (@written_columns mirror_libs four_rows "PrecipRate"
                  Demo.out_path false m0
                  (snd (@download_mrms mirror_libs four_rows "PrecipRate"
                          Demo.out_path false m0))
                  "mrms_PrecipRate.csv" _ eq_refl eq_refl r Hr)).
Defined.

Lemma record_time_is_source_time_witness :
  "PrecipRate" ≠ "time"
  ∧ ∃ prints name precip_df instants picked,
      w_log (snd (download_mrms Demo.three_rows "PrecipRate" Demo.out_path
                    false Demo.w0))
      = w_log Demo.w0 ++ prints ++ [ToCsv (p_parent Demo.out_path) name precip_df]
      ∧ picked `sublist_of`
          flat_map (λ k, List.filter (λ row, time row =? k)
                           (rows Demo.three_rows)) instants
      ∧ length precip_df = length picked.
Proof.
  assert (Hvar : "PrecipRate" ≠ "time") by discriminate.
  split; [exact Hvar|].
  destruct (record_time_is_source_time Demo.three_rows "PrecipRate"
              Demo.out_path false Demo.w0
              (snd (download_mrms Demo.three_rows "PrecipRate" Demo.out_path
                      false Demo.w0))
              Hvar eq_refl)
    as (prints & name & precip_df & instants & picked & Hlog & _ & _ & _
        & Hsub & Hrel).
  exists prints, name, precip_df, instants, picked.
  split_and!; [exact Hlog|exact Hsub|exact (Forall2_length _ _ _ Hrel)].
Defined.

(** On the recording network, the requests of a call are the state of
    the network. *)
Lemma recorder_net_after (urls asked : list string) :
  @net_after Recorder.recorder_libs urls asked = asked ++ urls.
Proof.
  revert asked. induction urls as [|url urls IH]; intros asked.
  - symmetry. apply app_nil_r.
  - change (@net_after Recorder.recorder_libs (url :: urls) asked)
      with (@net_after Recorder.recorder_libs urls (asked ++ [url])).
    rewrite IH, <- app_assoc. reflexivity.
Qed.

Lemma two_rows_years (row : ts_row) :
  row ∈ rows Demo.two_rows →
  1000 ≤ ts_year (mkTimestamp (time row) (Some "UTC")) < 10000.
Proof.
  unfold Demo.two_rows. cbn [rows]. rewrite !elem_of_cons, elem_of_nil.
  intros [->|[->|[]]]; vm_compute; (split; [discriminate|reflexivity]).
Qed.

Lemma mrms_url_matches_pattern_witness :
  ∃ done,
    @w_net Recorder.recorder_libs
      (snd (@download_mrms Recorder.recorder_libs Demo.two_rows "PrecipRate"
              Demo.out_path false Recorder.r0))
    = map (λ k,
             let t := mkTimestamp k (Some "UTC") in
             spec_url "PrecipRate" (ts_year t) (ts_month t) (ts_day t)
               (ts_hour t) (mrms_minute false (ts_minute t))) done
    ∧ (∀ k, k ∈ done → ∃ row, row ∈ rows Demo.two_rows ∧ time row = k).
Proof.
  destruct (@mrms_url_matches_pattern Recorder.recorder_libs Demo.two_rows
              "PrecipRate" Demo.out_path false Recorder.r0 two_rows_years)
    as (done & _ & Hrows & Hnet & _).
  exists done. split; [|exact Hrows].
  rewrite Hnet. apply recorder_net_after.
Defined.

(** C7 as the specification states it fails: for a row of the year 999
    the URL requested holds the date as seven characters, 9990101, and
    not the eight of the pattern, 09990101. *)
Lemma year_999_not_padded :
  let R := @download_mrms Recorder.recorder_libs Recorder.ancient_row
             "PrecipRate" Demo.out_path false Recorder.r0 in
  let t := mkTimestamp Recorder.t_year_999 (Some "UTC") in
  fst R = Ok tt
  ∧ (ts_year t, ts_month t, ts_day t, ts_hour t, mrms_minute false (ts_minute t))
    = (999, 1, 1, 0, 0)
  ∧ @w_net Recorder.recorder_libs (snd R)
    = ["https://noaa-mrms-pds.s3.amazonaws.com/CONUS/PrecipRate/9990101/MRMS_PrecipRate_9990101-000000.grib2.gz"]
  ∧ spec_url "PrecipRate" 999 1 1 0 0
    = "https://noaa-mrms-pds.s3.amazonaws.com/CONUS/PrecipRate/09990101/MRMS_PrecipRate_09990101-000000.grib2.gz"
  ∧ @w_net Recorder.recorder_libs (snd R) ≠ [spec_url "PrecipRate" 999 1 1 0 0].
Proof.
  cbv zeta. split_and!; [reflexivity|reflexivity|reflexivity|reflexivity|].
  intros Heq. vm_compute in Heq. discriminate Heq.
Qed.

End MoreRuns.
